(** * ML_DATA_ANALYZER: the tabular-learning core, embedded and verified

    A shallow embedding of [src/utils/dataProcessor.ts] ([analyzeData],
    [detectProblemType], [prepareFeatures]) and of the parts of
    [src/utils/mlModels.ts] that do not run a numeric library
    ([DecisionTree.getMostCommonValue], [calculateConfusionMatrix] and the
    split and dispatch of [trainModel]).

    Conventions
    - a JavaScript [number] of the data processor is an IEEE 754 binary64
      value, i.e. a primitive [float]: [NaN], the infinities, the signed
      zeros and [Math.sqrt] are the machine's;
    - [array.length] is a [nat]; the three comparisons of a length with a
      decimal fraction of another ([n * 0.8], [n * 0.1]) are written in
      exact integer arithmetic in [JS.Fraction], and three lemmas check by
      computation that binary64 gives the same answers;
    - a JavaScript object used as a record ([Record<string, T>], a parsed
      row) is an association list in property enumeration order;
    - an exception is the [Throw] case of [completion]. *)

From Stdlib Require Import ZArith String Ascii List Bool Lia Floats.
From Stdlib Require Import DecimalString Permutation Sorted.
Import ListNotations.

Set Implicit Arguments.

Local Open Scope list_scope.

(** ** The JavaScript run time, as far as the sources use it *)

Module JS.

(** A completed call: a value, or an exception with its message. *)
Inductive completion (A : Type) : Type :=
| Return (a : A)
| Throw (msg : string).
Arguments Return {A} a.
Arguments Throw {A} msg.

(** What a cell of a parsed row holds ([DataPoint] is [[key: string]: any];
    the CSV and spreadsheet readers produce these five kinds). *)
Inductive value : Type :=
| VNumber (f : float)
| VString (s : string)
| VBoolean (b : bool)
| VNull
| VUndefined.

(** [typeof v === 'number'] *)
Definition typeof_number (v : value) : bool :=
  match v with VNumber _ => true | _ => false end.

(** [v === null], [v === undefined], [v === ''] *)
Definition is_null (v : value) : bool :=
  match v with VNull => true | _ => false end.

Definition is_undefined (v : value) : bool :=
  match v with VUndefined => true | _ => false end.

Definition is_empty_string (v : value) : bool :=
  match v with VString EmptyString => true | _ => false end.

(** [array.length] as a number (exact below 2^53). *)
Definition float_of_Z (z : Z) : float :=
  match z with
  | Z0 => PrimFloat.zero
  | Zpos _ => PrimFloat.of_uint63 (Uint63.of_Z z)
  | Zneg p => PrimFloat.opp (PrimFloat.of_uint63 (Uint63.of_Z (Zpos p)))
  end.

Definition float_of_nat (n : nat) : float := float_of_Z (Z.of_nat n).

(** *** StringToNumber (ECMA-262, StringNumericLiteral) *)

Definition code (c : ascii) : Z := Z.of_N (N_of_ascii c).

(** TAB, LF, VT, FF, CR and SPACE (strings are byte strings here: the
    white space outside ASCII is not recognised). *)
Definition is_ws (c : ascii) : bool :=
  let k := code c in ((9 <=? k) && (k <=? 13) || (k =? 32))%Z.

Fixpoint drop_ws (l : list ascii) : list ascii :=
  match l with
  | c :: t => if is_ws c then drop_ws t else l
  | [] => []
  end.

Definition trim (l : list ascii) : list ascii :=
  rev (drop_ws (rev (drop_ws l))).

(** The value of a digit in a base up to sixteen. *)
Definition digit_val (base : Z) (c : ascii) : option Z :=
  let k := code c in
  let d := if ((48 <=? k) && (k <=? 57))%Z then (k - 48)%Z
           else if ((97 <=? k) && (k <=? 102))%Z then (k - 87)%Z
           else if ((65 <=? k) && (k <=? 70))%Z then (k - 55)%Z
           else 16%Z in
  if (d <? base)%Z then Some d else None.

(** The longest prefix of digits, and what follows it. *)
Fixpoint span_digits (base : Z) (l : list ascii) : list Z * list ascii :=
  match l with
  | c :: t =>
      match digit_val base c with
      | Some d => let (ds, r) := span_digits base t in (d :: ds, r)
      | None => ([], l)
      end
  | [] => ([], [])
  end.

Definition Z_of_digits (base : Z) (ds : list Z) : Z :=
  fold_left (fun acc d => (acc * base + d)%Z) ds 0%Z.

(** The binary64 value nearest to [n / d] (round to nearest, ties to even). *)
Definition float_of_ratio (neg : bool) (n d : positive) : float :=
  SF2Prim (SFdiv prec emax (S754_finite neg n 0) (S754_finite false d 0)).

(** The binary64 value nearest to [m * 10^e10]. With [L] the binary logarithm
    of [m], the decimal logarithm of the value lies between
    [0.30102 * L + e10] and [0.30103 * (L + 1) + e10]: at 10^400 and beyond
    the value is an infinity, under 10^-400 a zero, and the quotient need not
    be computed. *)
Definition float_of_decimal (neg : bool) (m e10 : Z) : float :=
  match m with
  | Zpos p =>
      let lo := (30102 * Z.log2 m / 100000 + e10)%Z in
      let hi := (30103 * (Z.log2 m + 1) / 100000 + 1 + e10)%Z in
      if (400 <=? lo)%Z then (if neg then neg_infinity else infinity)
      else if (hi <=? -400)%Z then (if neg then neg_zero else PrimFloat.zero)
      else if (0 <=? e10)%Z
           then float_of_ratio neg (p * Z.to_pos (10 ^ e10)) 1
           else float_of_ratio neg p (Z.to_pos (10 ^ (- e10)))
  | _ => if neg then neg_zero else PrimFloat.zero
  end.

(** ExponentPart: nothing, or [e]/[E], an optional sign and digits up to
    the end of the literal. *)
Definition parse_exponent (l : list ascii) : option Z :=
  match l with
  | [] => Some 0%Z
  | c :: r =>
      if ((code c =? 101) || (code c =? 69))%Z then
        let (neg, r') :=
          match r with
          | s :: t => if (code s =? 45)%Z then (true, t)
                      else if (code s =? 43)%Z then (false, t)
                      else (false, r)
          | [] => (false, r)
          end in
        match span_digits 10 r' with
        | (d :: ds, []) =>
            let e := Z_of_digits 10 (d :: ds) in
            Some (if neg then (- e)%Z else e)
        | _ => None
        end
      else None
  end.

(** StrUnsignedDecimalLiteral, already stripped of its sign. *)
Definition parse_unsigned_decimal (neg : bool) (l : list ascii) : float :=
  if list_eq_dec ascii_dec l (list_ascii_of_string "Infinity")
  then (if neg then neg_infinity else infinity)
  else
    let (ip, r1) := span_digits 10 l in
    let (fp, r2) :=
      match r1 with
      | c :: t => if (code c =? 46)%Z then span_digits 10 t else ([], r1)
      | [] => ([], r1)
      end in
    match ip ++ fp with
    | [] => nan
    | ds =>
        match parse_exponent r2 with
        | Some e => float_of_decimal neg (Z_of_digits 10 ds) (e - Z.of_nat (List.length fp))
        | None => nan
        end
    end.

(** NonDecimalIntegerLiteral: the digits after [0x], [0o] or [0b]. *)
Definition parse_radix (base : Z) (l : list ascii) : float :=
  match span_digits base l with
  | (d :: ds, []) => float_of_decimal false (Z_of_digits base (d :: ds)) 0
  | _ => nan
  end.

Definition StringToNumber (s : string) : float :=
  match trim (list_ascii_of_string s) with
  | [] => PrimFloat.zero
  | c :: r =>
      let k := code c in
      if (k =? 43)%Z then parse_unsigned_decimal false r
      else if (k =? 45)%Z then parse_unsigned_decimal true r
      else
        match r with
        | x :: r' =>
            let kx := code x in
            if ((k =? 48) && ((kx =? 120) || (kx =? 88)))%Z then parse_radix 16 r'
            else if ((k =? 48) && ((kx =? 111) || (kx =? 79)))%Z then parse_radix 8 r'
            else if ((k =? 48) && ((kx =? 98) || (kx =? 66)))%Z then parse_radix 2 r'
            else parse_unsigned_decimal false (c :: r)
        | [] => parse_unsigned_decimal false (c :: r)
        end
  end.

(** [Number(v)] *)
Definition Number (v : value) : float :=
  match v with
  | VNumber f => f
  | VString s => StringToNumber s
  | VBoolean b => if b then PrimFloat.one else PrimFloat.zero
  | VNull => PrimFloat.zero
  | VUndefined => nan
  end.

(** [isNaN(x)] *)
Definition isNaN (x : float) : bool := PrimFloat.is_nan x.

(** [x || 0] on a number: [NaN] and both zeros are falsy. *)
Definition or_zero (x : float) : float :=
  if PrimFloat.is_nan x || PrimFloat.is_zero x then PrimFloat.zero else x.

(** [Math.pow(x, 2)] *)
Definition pow2 (x : float) : float := (x * x)%float.

(** [Math.min(...xs)] and [Math.max(...xs)]: an infinity for no argument,
    [NaN] as soon as one argument is, and [-0] below [+0]. *)
Definition min2 (a b : float) : float :=
  if PrimFloat.is_nan a || PrimFloat.is_nan b then nan
  else if (a <? b)%float then a
  else if (b <? a)%float then b
  else if PrimFloat.get_sign a then a else b.

Definition max2 (a b : float) : float :=
  if PrimFloat.is_nan a || PrimFloat.is_nan b then nan
  else if (b <? a)%float then a
  else if (a <? b)%float then b
  else if PrimFloat.get_sign a then b else a.

Definition Math_min (xs : list float) : float := fold_left min2 xs infinity.
Definition Math_max (xs : list float) : float := fold_left max2 xs neg_infinity.

(** *** Equality of values *)

(** SameValueZero, the equality of [Set]: [NaN] is itself, the zeros are
    one, and a number is never a string. *)
Definition sameValueZero (a b : value) : bool :=
  match a, b with
  | VNumber x, VNumber y =>
      (PrimFloat.is_nan x && PrimFloat.is_nan y) || (x =? y)%float
  | VString s, VString t => String.eqb s t
  | VBoolean x, VBoolean y => Bool.eqb x y
  | VNull, VNull => true
  | VUndefined, VUndefined => true
  | _, _ => false
  end.

(** *** Arrays and sets *)

Section Arrays.
Variable A : Type.

(** [new Set(xs)]: the members in order of first insertion. *)
Fixpoint Set_add (same : A -> A -> bool) (s : list A) (x : A) : list A :=
  match s with
  | [] => [x]
  | y :: t => if same y x then s else y :: Set_add same t x
  end.

Definition Set_of (same : A -> A -> bool) (xs : list A) : list A :=
  fold_left (Set_add same) xs [].

(** [xs.sort(comparefn)]: the stable sort; an element [x] passes behind a
    later element [y] exactly when [comparefn(x, y) > 0]. *)
Fixpoint sort_insert (comparefn : A -> A -> float) (x : A) (l : list A) : list A :=
  match l with
  | [] => [x]
  | y :: t => if (0 <? comparefn x y)%float
              then y :: sort_insert comparefn x t
              else x :: l
  end.

Definition sort_by (comparefn : A -> A -> float) (xs : list A) : list A :=
  fold_right (sort_insert comparefn) [] xs.

(** Two neighbours in order for [comparefn]: the function does not put the
    second before the first. *)
Definition inOrder (comparefn : A -> A -> float) (a b : A) : Prop :=
  (0 <? comparefn a b)%float = false.

(** [xs.indexOf(x)], with [None] for -1. *)
Fixpoint indexOf (eqb : A -> A -> bool) (xs : list A) (x : A) : option nat :=
  match xs with
  | [] => None
  | y :: t => if eqb y x then Some 0
              else match indexOf eqb t x with Some i => Some (S i) | None => None end
  end.

End Arrays.

(** [xs.sort((a, b) => a - b)] *)
Definition compare_numbers (a b : float) : float := (a - b)%float.

Definition sort_numbers (xs : list float) : list float :=
  sort_by compare_numbers xs.

(** *** Objects used as records *)

Section Objects.
Variable A : Type.

(** [o[k]] *)
Fixpoint get (o : list (string * A)) (k : string) : option A :=
  match o with
  | [] => None
  | (k', v) :: t => if String.eqb k' k then Some v else get t k
  end.

(** [o[k] = v]: an own property keeps its place, a new one goes last. *)
Fixpoint set (o : list (string * A)) (k : string) (v : A) : list (string * A) :=
  match o with
  | [] => [(k, v)]
  | (k', v') :: t => if String.eqb k' k then (k', v) :: t else (k', v') :: set t k v
  end.

(** [Object.keys(o)] *)
Definition keys (o : list (string * A)) : list string := map fst o.

End Objects.

(** *** A length against a decimal fraction of another

    [k > n * 0.8], [k < n * 0.1] and [Math.floor(n * 0.8)] for lengths [k]
    and [n], in exact integer arithmetic. The binary64 constants 0.8 and 0.1
    exceed four fifths and one tenth by a relative 2^-54, less than half a
    unit in the last place of the product, so the float product rounds to
    the exact one whenever that is an integer and stays on its side of every
    integer otherwise. *)
Module Fraction.

Definition gt_08 (k n : nat) : bool := 4 * n <? 5 * k.
Definition lt_01 (k n : nat) : bool := 10 * k <? n.
Definition floor_08 (n : nat) : nat := 4 * n / 5.

(** The same three in binary64, as the sources compute them. *)
Definition f08 : float := Eval compute in float_of_ratio false 4 5.
Definition f01 : float := Eval compute in float_of_ratio false 1 10.

Definition gt_08_float (k n : nat) : bool :=
  (float_of_nat n * f08 <? float_of_nat k)%float.
Definition lt_01_float (k n : nat) : bool :=
  (float_of_nat k <? float_of_nat n * f01)%float.
Definition is_floor_08_float (n r : nat) : bool :=
  ((float_of_nat r <=? float_of_nat n * f08)
   && (float_of_nat n * f08 <? float_of_nat (S r)))%float.

End Fraction.

End JS.

(** ** src/utils/dataProcessor.ts *)

Module DataProcessor.
Import JS.

(** A parsed row: its properties in enumeration order. *)
Definition DataPoint : Type := list (string * value).

(** [row[col]]: [undefined] for a property the row does not have. *)
Definition cell (row : DataPoint) (col : string) : value :=
  match get row col with
  | Some v => v
  | None => VUndefined
  end.

Record Statistics : Type := {
  mean : float;
  median : float;
  min : float;
  max : float;
  std : float
}.

Record DataAnalysis : Type := {
  shape : nat * nat;
  columns : list string;
  dtypes : list (string * string);
  missingValues : list (string * nat);
  numericalColumns : list string;
  categoricalColumns : list string;
  statistics : list (string * Statistics)
}.

(** [val => val !== null && val !== undefined && val !== ''] *)
Definition notMissing (v : value) : bool :=
  negb (is_null v) && negb (is_undefined v) && negb (is_empty_string v).

(** [val => typeof val === 'number' || !isNaN(Number(val))] *)
Definition isNumeric (v : value) : bool :=
  typeof_number v || negb (isNaN (Number v)).

(** The column as [analyzeData] reads it, and its two filters. *)
Definition columnValues (data : list DataPoint) (col : string) : list value :=
  map (fun row => cell row col) data.

Definition nonNullValues (data : list DataPoint) (col : string) : list value :=
  filter notMissing (columnValues data col).

Definition numericalValues (data : list DataPoint) (col : string) : list value :=
  filter isNumeric (nonNullValues data col).

Definition isNumerical (data : list DataPoint) (col : string) : bool :=
  Fraction.gt_08 (length (numericalValues data col)) (length (nonNullValues data col)).

(** The four tables the first loop fills, column after column. *)
Record Typing : Type := {
  t_dtypes : list (string * string);
  t_missingValues : list (string * nat);
  t_numericalColumns : list string;
  t_categoricalColumns : list string
}.

Definition classifyColumn (data : list DataPoint) (acc : Typing) (col : string) : Typing :=
  let missing := length data - length (nonNullValues data col) in
  if isNumerical data col then
    {| t_dtypes := set acc.(t_dtypes) col "number"%string;
       t_missingValues := set acc.(t_missingValues) col missing;
       t_numericalColumns := acc.(t_numericalColumns) ++ [col];
       t_categoricalColumns := acc.(t_categoricalColumns) |}
  else
    {| t_dtypes := set acc.(t_dtypes) col "string"%string;
       t_missingValues := set acc.(t_missingValues) col missing;
       t_numericalColumns := acc.(t_numericalColumns);
       t_categoricalColumns := acc.(t_categoricalColumns) ++ [col] |}.

(** [data.map(row => Number(row[col])).filter(val => !isNaN(val))] *)
Definition numbersOf (data : list DataPoint) (col : string) : list float :=
  filter (fun x => negb (isNaN x)) (map (fun row => Number (cell row col)) data).

(** [statistics[col]?.mean], read while the record of [col] is being built. *)
Definition meanSoFar (statistics : list (string * Statistics)) (col : string) : value :=
  match get statistics col with
  | Some st => VNumber st.(mean)
  | None => VUndefined
  end.

(** The record of one numerical column. [values.sort] sorts in place, so
    [values] and [sorted] are one array from there on. *)
Definition describe (statistics : list (string * Statistics)) (col : string)
    (sorted : list float) : Statistics :=
  let n := float_of_nat (length sorted) in
  {| mean := (fold_left (fun sum val => sum + val) sorted 0 / n)%float;
     median := nth (length sorted / 2) sorted nan;
     min := Math_min sorted;
     max := Math_max sorted;
     std := PrimFloat.sqrt
              (fold_left
                 (fun sum val =>
                    sum + pow2 (or_zero (val - Number (meanSoFar statistics col))))
                 sorted 0 / n)%float |}.

Definition describeColumn (data : list DataPoint)
    (statistics : list (string * Statistics)) (col : string)
    : list (string * Statistics) :=
  let values := numbersOf data col in
  if 0 <? length values
  then set statistics col (describe statistics col (sort_numbers values))
  else statistics.

Definition analyzeData (data : list DataPoint) : completion DataAnalysis :=
  match data with
  | [] => Throw "No data to analyze"
  | row0 :: _ =>
      let columns := keys row0 in
      let typing := fold_left (classifyColumn data) columns
                      {| t_dtypes := []; t_missingValues := [];
                         t_numericalColumns := []; t_categoricalColumns := [] |} in
      let statistics := fold_left (describeColumn data) typing.(t_numericalColumns) [] in
      Return {| shape := (length data, length columns);
                columns := columns;
                dtypes := typing.(t_dtypes);
                missingValues := typing.(t_missingValues);
                numericalColumns := typing.(t_numericalColumns);
                categoricalColumns := typing.(t_categoricalColumns);
                statistics := statistics |}
  end.

Inductive ProblemType : Type := classification | regression.

(** [val => val !== null && val !== undefined] *)
Definition notNullish (v : value) : bool :=
  negb (is_null v) && negb (is_undefined v).

Definition targetValues (data : list DataPoint) (targetColumn : string) : list value :=
  filter notNullish (map (fun row => cell row targetColumn) data).

Definition uniqueValues (data : list DataPoint) (targetColumn : string) : list value :=
  Set_of sameValueZero (targetValues data targetColumn).

Definition detectProblemType (data : list DataPoint) (targetColumn : string) : ProblemType :=
  let targetValues := targetValues data targetColumn in
  let size := length (uniqueValues data targetColumn) in
  if (size <=? 20) || Fraction.lt_01 size (length data) then classification
  else
    let numericalTargets := filter isNumeric targetValues in
    if Fraction.gt_08 (length numericalTargets) (length targetValues)
    then regression
    else classification.

(** [value.toString().charCodeAt(0) % 100] for the values that reach it:
    text that is not a numeral (a number, a boolean, [null] and the empty
    string are all numeric or missing, and never get here). *)
Definition firstCharCode (v : value) : float :=
  match v with
  | VString (String c _) => float_of_Z (code c mod 100)
  | VBoolean true => float_of_Z (116 mod 100)
  | VBoolean false => float_of_Z (102 mod 100)
  | _ => nan
  end.

(** The common rule of features and target: the number itself, else the
    number it parses to, else the code of its first character. *)
Definition encode (v : value) : float :=
  if typeof_number v then Number v
  else if negb (isNaN (Number v)) then Number v
  else firstCharCode v.

(** One feature column of one row: the row so far and whether it is valid. *)
Definition encodeFeature (row : DataPoint) (acc : list float * bool) (col : string)
    : list float * bool :=
  let (featureRow, validRow) := acc in
  let value := cell row col in
  if is_null value || is_undefined value || is_empty_string value
  then (featureRow, false)
  else (featureRow ++ [encode value], validRow).

Definition encodeRow (featureColumns : list string) (targetColumn : string)
    (acc : list (list float) * list float) (row : DataPoint)
    : list (list float) * list float :=
  let (features, targets) := acc in
  let (featureRow, validRow) := fold_left (encodeFeature row) featureColumns ([], true) in
  if validRow && negb (is_null (cell row targetColumn))
              && negb (is_undefined (cell row targetColumn))
  then (features ++ [featureRow], targets ++ [encode (cell row targetColumn)])
  else (features, targets).

(** The pair [{ features, targets }]. *)
Definition prepareFeatures (data : list DataPoint) (featureColumns : list string)
    (targetColumn : string) : list (list float) * list float :=
  fold_left (encodeRow featureColumns targetColumn) data ([], []).

End DataProcessor.

(** ** src/utils/mlModels.ts

    Labels, features and targets are integer-valued numbers here ([Z]): the
    functions below look at a label only through its identity, its decimal
    numeral and its place in a list. *)

Module MLModels.
Import JS.
Export DataProcessor (ProblemType, classification, regression).

Abbreviation number := Z (only parsing).

(** [String(x)] for an integer-valued number. *)
Definition Number_toString (x : number) : string :=
  NilZero.string_of_int (Z.to_int x).

(** *** DecisionTree.getMostCommonValue *)

(** [counts: Record<number, number>]: the properties in insertion order,
    each key standing for its numeral (which [Number] reads back). *)
Definition Counts : Type := list (number * nat).

Fixpoint count_get (counts : Counts) (k : number) : option nat :=
  match counts with
  | [] => None
  | (k', c) :: t => if (k' =? k)%Z then Some c else count_get t k
  end.

Fixpoint count_set (counts : Counts) (k : number) (c : nat) : Counts :=
  match counts with
  | [] => [(k, c)]
  | (k', c') :: t => if (k' =? k)%Z then (k', c) :: t else (k', c') :: count_set t k c
  end.

(** [counts[val] = (counts[val] || 0) + 1] *)
Definition count_one (counts : Counts) (val : number) : Counts :=
  count_set counts val
    (match count_get counts val with Some c => c | None => 0 end + 1).

Definition count_all (y : list number) : Counts := fold_left count_one y [].

(** A key that is an array index: the numeral of an integer from 0 to
    2^32 - 2. *)
Definition isArrayIndex (k : number) : bool :=
  ((0 <=? k) && (k <? 4294967295))%Z.

Fixpoint insert_index (k : number) (l : list number) : list number :=
  match l with
  | [] => [k]
  | k' :: t => if (k <=? k')%Z then k :: l else k' :: insert_index k t
  end.

Definition ascending (l : list number) : list number :=
  fold_right insert_index [] l.

(** [Object.keys(counts)]: the array indices in ascending order, then the
    other keys in insertion order. *)
Definition Object_keys (counts : Counts) : list number :=
  let ks := map fst counts in
  ascending (filter isArrayIndex ks) ++ filter (fun k => negb (isArrayIndex k)) ks.

(** [counts[k]] for the comparison; a key of the table always has a count. *)
Definition countOf (counts : Counts) (k : number) : nat :=
  match count_get counts k with Some c => c | None => 0 end.

(** [(a, b) => counts[Number(a)] > counts[Number(b)] ? a : b] *)
Definition moreCommon (counts : Counts) (a b : number) : number :=
  if countOf counts b <? countOf counts a then a else b.

(** [keys.reduce(f)] without an initial value. *)
Definition reduce (f : number -> number -> number) (ks : list number) : completion number :=
  match ks with
  | [] => Throw "TypeError: Reduce of empty array with no initial value"
  | k :: t => Return (fold_left f t k)
  end.

Definition getMostCommonValue (y : list number) : completion number :=
  let counts := count_all y in
  reduce (moreCommon counts) (Object_keys counts).

(** *** calculateConfusionMatrix *)

(** The comparison of [sort()] without a function: by the strings. *)
Definition default_compare (x y : number) : float :=
  if String.ltb (Number_toString x) (Number_toString y) then (-1)%float
  else if String.ltb (Number_toString y) (Number_toString x) then 1%float
  else 0%float.

Definition uniqueClasses (actual predicted : list number) : list number :=
  sort_by default_compare (Set_of Z.eqb (actual ++ predicted)).

(** [l[i] = f(l[i])] inside the bounds. *)
Fixpoint update (A : Type) (i : nat) (f : A -> A) (l : list A) : list A :=
  match l, i with
  | [], _ => []
  | x :: t, 0 => f x :: t
  | x :: t, S j => x :: update j f t
  end.

(** The body of [actual.forEach((actualClass, idx) => ...)]. *)
Definition tally (classes predicted : list number) (matrix : list (list nat))
    (entry : nat * number) : list (list nat) :=
  let (idx, actualClass) := entry in
  let actualIdx := indexOf Z.eqb classes actualClass in
  let predictedIdx :=
    match nth_error predicted idx with
    | Some p => indexOf Z.eqb classes p
    | None => None
    end in
  match actualIdx, predictedIdx with
  | Some i, Some j => update i (update j S) matrix
  | _, _ => matrix
  end.

Definition calculateConfusionMatrix (actual predicted : list number) : list (list nat) :=
  let classes := uniqueClasses actual predicted in
  let n := length classes in
  fold_left (tally classes predicted)
    (combine (seq 0 (length actual)) actual)
    (repeat (repeat 0 n) n).

(** *** trainModel *)

(** The model classes [trainModel] instantiates: two of this file
    ([LogisticRegression], [DecisionTree]) and four of the numeric libraries. *)
Inductive Estimator : Type :=
| SimpleLinearRegression
| MultivariateLinearRegression
| RandomForestRegression (maxFeatures : nat)
| LogisticRegression
| DecisionTree
| RandomForestClassifier (maxFeatures : nat).

Section TrainModel.

(** The metrics table, and [calculateMetrics], which fills it with rounded
    binary64 quotients and raises nothing. *)
Variable Metrics : Type.
Variable calculateMetrics : list number -> list number -> ProblemType -> Metrics.

(** Fitting an estimator on the training rows and predicting the test rows:
    the predictions, or the exception of the fit or of the prediction. *)
Variable fitPredict :
  Estimator -> list (list number) -> list number -> list (list number) ->
  completion (list number).

(** The two readings of [Date.now()]. *)
Variables startTime endTime : Z.

Record ModelResults : Type := {
  model : string;
  problemType : ProblemType;
  metrics : Metrics;
  predictions : list number;
  actualValues : list number;
  confusionMatrix : option (list (list nat));
  trainingTime : Z
}.

(** [XTrain[0].length], a [TypeError] when there is no training row. *)
Definition featureCount (XTrain : list (list number)) : completion nat :=
  match XTrain with
  | [] => Throw "TypeError: Cannot read properties of undefined (reading 'length')"
  | row :: _ => Return (length row)
  end.

Definition bind (A B : Type) (c : completion A) (k : A -> completion B) : completion B :=
  match c with
  | Return a => k a
  | Throw msg => Throw msg
  end.

(** [Math.floor(Math.sqrt(n))] *)
Definition floor_sqrt (n : nat) : nat := Nat.sqrt n.

(** The body of the [try] block: the predictions and the model name. The
    name is assigned after the predictions, so it is still empty when a fit
    or a prediction throws. *)
Definition fitAndPredict (XTrain : list (list number)) (yTrain : list number)
    (XTest : list (list number)) (problemType : ProblemType) (modelType : string)
    : completion (list number * string) :=
  match problemType with
  | regression =>
      if String.eqb modelType "linear" || String.eqb modelType "auto" then
        bind (featureCount XTrain) (fun n =>
          if n =? 1 then
            bind (fitPredict SimpleLinearRegression XTrain yTrain XTest) (fun p =>
              Return (p, "Linear Regression"%string))
          else
            bind (fitPredict MultivariateLinearRegression XTrain yTrain XTest) (fun p =>
              Return (p, "Multivariate Linear Regression"%string)))
      else if String.eqb modelType "randomforest" then
        bind (featureCount XTrain) (fun n =>
          bind (fitPredict (RandomForestRegression (floor_sqrt n)) XTrain yTrain XTest) (fun p =>
            Return (p, "Random Forest Regression"%string)))
      else Return ([], ""%string)
  | classification =>
      if String.eqb modelType "logistic" || String.eqb modelType "auto" then
        bind (fitPredict LogisticRegression XTrain yTrain XTest) (fun p =>
          Return (p, "Logistic Regression"%string))
      else if String.eqb modelType "decisiontree" then
        bind (fitPredict DecisionTree XTrain yTrain XTest) (fun p =>
          Return (p, "Decision Tree"%string))
      else if String.eqb modelType "randomforest" then
        bind (featureCount XTrain) (fun n =>
          bind (fitPredict (RandomForestClassifier (floor_sqrt n)) XTrain yTrain XTest) (fun p =>
            Return (p, "Random Forest Classifier"%string)))
      else Return ([], ""%string)
  end.

(** The four slices of the split. *)
Definition splitIndex (X : list (list number)) : nat := Fraction.floor_08 (length X).
Definition XTrain (X : list (list number)) : list (list number) := firstn (splitIndex X) X.
Definition yTrain (X : list (list number)) (y : list number) : list number := firstn (splitIndex X) y.
Definition XTest (X : list (list number)) : list (list number) := skipn (splitIndex X) X.
Definition yTest (X : list (list number)) (y : list number) : list number := skipn (splitIndex X) y.

Definition trainModel (X : list (list number)) (y : list number)
    (problemType : ProblemType) (modelType : string) : completion ModelResults :=
  match fitAndPredict (XTrain X) (yTrain X y) (XTest X) problemType modelType with
  | Throw error => Throw ("Failed to train " ++ "" ++ ": " ++ error)
  | Return (predictions, modelName) =>
      Return {| model := modelName;
                problemType := problemType;
                metrics := calculateMetrics (yTest X y) predictions problemType;
                predictions := predictions;
                actualValues := yTest X y;
                confusionMatrix :=
                  match problemType with
                  | classification => Some (calculateConfusionMatrix (yTest X y) predictions)
                  | regression => None
                  end;
                trainingTime := endTime - startTime |}
  end.

End TrainModel.

End MLModels.


(** ** The properties every object inherits *)

Module ObjectPrototype.

(** The names of the properties of [Object.prototype]. A plain object that
    does not hold such a key itself reads the inherited value under it, and
    an assignment to [__proto__] creates no property. The tables and rows
    of the data processor are taken at other keys. *)
Definition names : list string :=
  ["constructor"; "hasOwnProperty"; "isPrototypeOf"; "propertyIsEnumerable";
   "toLocaleString"; "toString"; "valueOf"; "__proto__"; "__defineGetter__";
   "__defineSetter__"; "__lookupGetter__"; "__lookupSetter__"]%string.

End ObjectPrototype.

(** ** src/utils/mlModels.ts: the class DecisionTree *)

Module DecisionTreeClass.
Import JS DataProcessor MLModels.

(** [this.tree]: a number for a leaf, an object with [feature], [threshold],
    [left] and [right] for a split. *)
Inductive Node : Type :=
| Leaf (label : number)
| Split (feature : nat) (threshold : float) (left right : Node).

Definition maxDepth : nat := 10.
Definition minSamplesSplit : nat := 2.

(** The features are JavaScript numbers. [row[feature]] is [undefined]
    ([None]) behind the end of a row. *)
Definition at_feature (row : list float) (feature : nat) : option float :=
  nth_error row feature.

(** [v <= threshold]; [undefined] converts to NaN, which is below nothing. *)
Definition atMost (v : option float) (threshold : float) : bool :=
  match v with
  | Some x => (x <=? threshold)%float
  | None => false
  end.

(** The number an addition reads from a value. *)
Definition toNumber (v : option float) : float :=
  match v with
  | Some x => x
  | None => nan
  end.

(** Membership in a [Set] of such values (SameValueZero); a [Set] keeps -0
    as +0. *)
Definition sameCell (a b : option float) : bool :=
  match a, b with
  | Some x, Some y => (PrimFloat.is_nan x && PrimFloat.is_nan y) || (x =? y)%float
  | None, None => true
  | _, _ => false
  end.

Definition keptAs (v : option float) : option float :=
  match v with
  | Some x => if (x =? 0)%float then Some 0%float else Some x
  | None => None
  end.

(** [indices.map(i => l[i])]. The indices are indices of [X]; every one has
    its row, and it has its label when [y] is as long as [X], as for every
    caller of the class. A label that is wanting would be [undefined], which
    is no [number], and is not carried here. *)
Definition select (A : Type) (l : list A) (indices : list nat) : list A :=
  flat_map (fun i => match nth_error l i with Some v => [v] | None => [] end) indices.

(** The pairs [(uniqueValues[i], uniqueValues[i + 1])]. *)
Fixpoint adjacent (A : Type) (l : list A) : list (A * A) :=
  match l with
  | [] => []
  | a :: t => match t with
              | [] => []
              | b :: _ => (a, b) :: adjacent t
              end
  end.

(** [Object.values(counts)], in the order of [Object.keys]. *)
Definition Object_values (counts : Counts) : list nat :=
  map (countOf counts) (Object_keys counts).

Definition calculateGini (y : list number) : float :=
  fold_left (fun gini count =>
               let probability := (float_of_nat count / float_of_nat (length y))%float in
               (gini - probability * probability)%float)
            (Object_values (count_all y)) 1%float.

Definition calculateWeightedGini (leftY rightY : list number) : float :=
  let totalSamples := length leftY + length rightY in
  let leftWeight := (float_of_nat (length leftY) / float_of_nat totalSamples)%float in
  let rightWeight := (float_of_nat (length rightY) / float_of_nat totalSamples)%float in
  (leftWeight * calculateGini leftY + rightWeight * calculateGini rightY)%float.

Record BestSplit : Type := {
  feature : nat;
  threshold : float;
  leftIndices : list nat;
  rightIndices : list nat
}.

(** The rows with their indices, as [X.forEach((row, idx) => ...)] meets
    them. *)
Definition entries (X : list (list float)) : list (nat * list float) :=
  combine (seq 0 (length X)) X.

Definition indicesWhere (p : list float -> bool) (X : list (list float)) : list nat :=
  map fst (filter (fun e => p (snd e)) (entries X)).

Section FindBestSplit.

(** [values.sort((a, b) => a - b)] of the engine: ascending on numbers; the
    place it gives to NaN is the engine's own, so it is left open here. *)
Variable sort : list (option float) -> list (option float).

(** The body of the inner loop: one threshold. *)
Definition tryThreshold (X : list (list float)) (y : list number) (feature : nat)
    (best : float * option BestSplit) (pair : option float * option float)
    : float * option BestSplit :=
  let threshold := ((toNumber (fst pair) + toNumber (snd pair)) / 2)%float in
  let leftIndices := indicesWhere (fun row => atMost (at_feature row feature) threshold) X in
  let rightIndices :=
    indicesWhere (fun row => negb (atMost (at_feature row feature) threshold)) X in
  if (length leftIndices =? 0) || (length rightIndices =? 0) then best
  else
    let gini := calculateWeightedGini (select y leftIndices) (select y rightIndices) in
    if (gini <? fst best)%float
    then (gini, Some {| feature := feature; threshold := threshold;
                        leftIndices := leftIndices; rightIndices := rightIndices |})
    else best.

(** The body of the outer loop: one feature. *)
Definition tryFeature (X : list (list float)) (y : list number)
    (best : float * option BestSplit) (feature : nat) : float * option BestSplit :=
  let values := map (fun row => at_feature row feature) X in
  let uniqueValues := sort (Set_of sameCell (map keptAs values)) in
  fold_left (tryThreshold X y feature) (adjacent uniqueValues) best.

(** [null] is [None]. *)
Definition findBestSplit (X : list (list float)) (y : list number)
    : completion (option BestSplit) :=
  match X with
  | [] => Throw "TypeError: Cannot read properties of undefined (reading 'length')"
  | first :: _ =>
      Return (snd (fold_left (tryFeature X y) (seq 0 (length first)) (infinity, None)))
  end.

Definition leaf (y : list number) : completion Node :=
  bind (getMostCommonValue y) (fun v => Return (Leaf v)).

(** [buildTree(X, y, depth)] with [remaining = maxDepth - depth]. *)
Fixpoint buildTree (remaining : nat) (X : list (list float)) (y : list number)
    : completion Node :=
  match remaining with
  | 0 => leaf y
  | S remaining' =>
      if (length X <? minSamplesSplit) || (length (Set_of Z.eqb y) =? 1) then leaf y
      else
        bind (findBestSplit X y) (fun bestSplit =>
          match bestSplit with
          | None => leaf y
          | Some s =>
              bind (buildTree remaining' (select X (leftIndices s))
                      (select y (leftIndices s))) (fun l =>
              bind (buildTree remaining' (select X (rightIndices s))
                      (select y (rightIndices s))) (fun r =>
              Return (Split (feature s) (threshold s) l r)))
          end)
  end.

(** [fit]: the tree [this.tree] holds afterwards. *)
Definition fit (X : list (list float)) (y : list number) : completion Node :=
  buildTree maxDepth X y.

End FindBestSplit.

Fixpoint predictSingle (x : list float) (node : Node) : number :=
  match node with
  | Leaf label => label
  | Split feature threshold l r =>
      if atMost (at_feature x feature) threshold
      then predictSingle x l
      else predictSingle x r
  end.

(** Two rows that [predictSingle] leads to the same leaf. *)
Fixpoint sameLeaf (node : Node) (x x' : list float) : bool :=
  match node with
  | Leaf _ => true
  | Split feature threshold l r =>
      match atMost (at_feature x feature) threshold,
            atMost (at_feature x' feature) threshold with
      | true, true => sameLeaf l x x'
      | false, false => sameLeaf r x x'
      | _, _ => false
      end
  end.

(** [predict] on [this.tree], which is [null] ([None]) before [fit]. *)
Definition predict (tree : option Node) (X : list (list float)) : completion (list number) :=
  match tree with
  | Some node => Return (map (fun row => predictSingle row node) X)
  | None =>
      match X with
      | [] => Return []
      | _ :: _ => Throw "TypeError: Cannot read properties of null (reading 'feature')"
      end
  end.

(** The engine's sort where no NaN is among the values: the numbers
    ascending, [undefined] last. *)
Definition sortValues (values : list (option float)) : list (option float) :=
  map Some (sort_numbers (flat_map (fun v => match v with Some x => [x] | None => [] end) values))
  ++ filter (fun v => match v with None => true | Some _ => false end) values.

(** The size of a tree. *)
Fixpoint depth (node : Node) : nat :=
  match node with
  | Leaf _ => 0
  | Split _ _ l r => S (Nat.max (depth l) (depth r))
  end.

Fixpoint leaves (node : Node) : list number :=
  match node with
  | Leaf label => [label]
  | Split _ _ l r => leaves l ++ leaves r
  end.

(** What a split that [findBestSplit] keeps is like. *)
Definition splits (X : list (list float)) (s : BestSplit) : Prop :=
  leftIndices s
    = indicesWhere (fun row => atMost (at_feature row (feature s)) (threshold s)) X /\
  rightIndices s
    = indicesWhere (fun row => negb (atMost (at_feature row (feature s)) (threshold s))) X /\
  leftIndices s <> [] /\ rightIndices s <> [] /\
  feature s < length (hd [] X).

Definition keeps (X : list (list float)) (best : float * option BestSplit) : Prop :=
  match snd best with
  | Some s => splits X s
  | None => True
  end.

End DecisionTreeClass.

(** ** src/utils/mlModels.ts: calculateMetrics *)

Module Metrics.
Import JS DataProcessor MLModels.

(** [Number(x.toFixed(4))]. [toFixed] writes the integer [n] for which
    [n / 10^4] is nearest to [x], the larger one of two, with the sign of a
    negative [x], and the numeral of [x] itself from 10^21 on; [Number]
    reads the binary64 value nearest to what is written. *)
Definition toFixed4 (x : float) : float :=
  match Prim2SF x with
  | S754_finite s m e =>
      if (0 <=? e)%Z then
        let magnitude := (Zpos m * 2 ^ e)%Z in
        if (10 ^ 21 <=? magnitude)%Z then x
        else float_of_decimal s (magnitude * 10000) (-4)
      else
        let d := (2 ^ (- e))%Z in
        if (10 ^ 21 * d <=? Zpos m)%Z then x
        else float_of_decimal s ((2 * (Zpos m * 10000) + d) / (2 * d)) (-4)
  | S754_zero _ => 0%float
  | S754_infinity _ => x
  | S754_nan => nan
  end.

(** The elements with their indices, as the callback of [filter] gets
    them. *)
Definition indexed (A : Type) (l : list A) : list (nat * A) :=
  combine (seq 0 (length l)) l.

(** [l.filter((val, idx) => p(val, idx)).length] *)
Definition countWhere (A : Type) (p : A -> nat -> bool) (l : list A) : nat :=
  length (filter (fun e => p (snd e) (fst e)) (indexed l)).

(** [other[idx] === c]: [undefined], behind the end, is no label. *)
Definition sameLabel (v : option number) (c : number) : bool :=
  match v with
  | Some x => (x =? c)%Z
  | None => false
  end.

Section CalculateMetrics.

(** The branch of the regression metrics. *)
Variable regressionMetrics : list number -> list number -> list (string * float).

Definition calculateMetrics (actual predicted : list number) (problemType : ProblemType)
    : list (string * float) :=
  match problemType with
  | regression => regressionMetrics actual predicted
  | classification =>
      let correct := countWhere (fun val idx => sameLabel (nth_error predicted idx) val) actual in
      let accuracy := (float_of_nat correct / float_of_nat (length actual))%float in
      let uniqueClasses := Set_of Z.eqb (actual ++ predicted) in
      let '(precision, recall, f1) :=
        if length uniqueClasses =? 2 then
          let positiveClass := fold_left Z.max uniqueClasses (hd 0%Z uniqueClasses) in
          let tp := countWhere (fun val idx =>
                      (val =? positiveClass)%Z
                      && sameLabel (nth_error predicted idx) positiveClass) actual in
          let fp := countWhere (fun val idx =>
                      (val =? positiveClass)%Z
                      && negb (sameLabel (nth_error actual idx) positiveClass)) predicted in
          let fn := countWhere (fun val idx =>
                      (val =? positiveClass)%Z
                      && negb (sameLabel (nth_error predicted idx) positiveClass)) actual in
          let precision := or_zero (float_of_nat tp / float_of_nat (tp + fp))%float in
          let recall := or_zero (float_of_nat tp / float_of_nat (tp + fn))%float in
          let f1 := or_zero (2 * (precision * recall) / (precision + recall))%float in
          (precision, recall, f1)
        else (0%float, 0%float, 0%float) in
      [("Accuracy"%string, toFixed4 accuracy);
       ("Precision"%string, toFixed4 precision);
       ("Recall"%string, toFixed4 recall);
       ("F1 Score"%string, toFixed4 f1)]
  end.

End CalculateMetrics.

(** The sum of the diagonal of a matrix. *)
Definition trace (matrix : list (list nat)) : nat :=
  list_sum (map (fun i => nth i (nth i matrix []) 0) (seq 0 (length matrix))).

End Metrics.

(** ** src/utils/dataProcessor.ts: getClassBalance *)

Module ClassBalance.
Import JS DataProcessor.

(** A property of [classBalance]: a count, or the text that [+ 1] makes of a
    value that is no number. *)
Inductive Entry : Type :=
| Count (n : nat)
| Text (s : string).

Section GetClassBalance.

(** [String(x)] for a number [x]: the numeral the engine writes. *)
Variable numberToString : float -> string.

(** [String(o[k])] for a property [k] that the empty object inherits from
    [Object.prototype] ([toString], [constructor], ...), if it inherits one;
    all of them are functions or objects, which [||] takes for true. *)
Variable inherited : string -> option string.

(** [String(value)] *)
Definition String_of (v : value) : string :=
  match v with
  | VNumber f => numberToString f
  | VString s => s
  | VBoolean true => "true"
  | VBoolean false => "false"
  | VNull => "null"
  | VUndefined => "undefined"
  end.

(** The body of [data.forEach(row => ...)]:
    [classBalance[value] = (classBalance[value] || 0) + 1]. The inherited
    [__proto__] is an accessor whose setter ignores a text, so that key
    never becomes a property. *)
Definition countRow (targetColumn : string) (classBalance : list (string * Entry))
    (row : DataPoint) : list (string * Entry) :=
  let value := String_of (cell row targetColumn) in
  match get classBalance value with
  | Some (Count n) => set classBalance value (Count (n + 1))
  | Some (Text s) =>
      set classBalance value (if String.eqb s "" then Count 1 else Text (s ++ "1"))
  | None =>
      match inherited value with
      | Some s =>
          if String.eqb value "__proto__" then classBalance
          else set classBalance value (Text (s ++ "1"))
      | None => set classBalance value (Count 1)
      end
  end.

(** The own properties in the order of their creation. *)
Definition getClassBalance (data : list DataPoint) (targetColumn : string)
    : list (string * Entry) :=
  fold_left (countRow targetColumn) data [].

(** The name of the class of a row, and the rows of a class. *)
Definition classOf (targetColumn : string) (row : DataPoint) : string :=
  String_of (cell row targetColumn).

Definition rowsOf (data : list DataPoint) (targetColumn : string) (k : string) : nat :=
  length (filter (fun row => String.eqb (classOf targetColumn row) k) data).

(** A row whose class name the empty object does not inherit. *)
Definition plain (targetColumn : string) (row : DataPoint) : bool :=
  match inherited (classOf targetColumn row) with
  | None => true
  | Some _ => false
  end.

End GetClassBalance.

(** The sum of the counts of a table. *)
Definition weight (e : Entry) : nat :=
  match e with
  | Count n => n
  | Text _ => 0
  end.

Definition total (classBalance : list (string * Entry)) : nat :=
  list_sum (map (fun e => weight (snd e)) classBalance).

(** What the table holds after the rows [seen]: the count of its rows for a
    class of a plain name, a text or nothing for another one, and in all as
    many as there are rows of plain names. *)
Definition counted (numberToString : float -> string) (inherited : string -> option string)
    (targetColumn : string) (T : list (string * Entry)) (seen : list DataPoint) : Prop :=
  (forall k, inherited k = None ->
     get T k = if rowsOf numberToString seen targetColumn k =? 0 then None
               else Some (Count (rowsOf numberToString seen targetColumn k))) /\
  (forall k s, inherited k = Some s ->
     match get T k with
     | None => k = "__proto__"%string \/ rowsOf numberToString seen targetColumn k = 0
     | Some (Text t) => t <> ""%string /\ k <> "__proto__"%string
     | Some (Count _) => False
     end) /\
  total T = length (filter (plain numberToString inherited targetColumn) seen).

End ClassBalance.

(** ** src/components/ModelTraining.tsx: the models on offer *)

Module ModelTraining.
Import DataProcessor.

Record Model : Type := {
  id : string;
  name : string;
  description : string
}.

Definition models (problemType : ProblemType) : list Model :=
  match problemType with
  | classification =>
      [ {| id := "auto"; name := "Auto Select";
           description := "Automatically choose the best model" |};
        {| id := "logistic"; name := "Logistic Regression";
           description := "Linear model for classification" |};
        {| id := "decisiontree"; name := "Decision Tree";
           description := "Tree-based classification model" |};
        {| id := "randomforest"; name := "Random Forest";
           description := "Ensemble of decision trees" |} ]
  | regression =>
      [ {| id := "auto"; name := "Auto Select";
           description := "Automatically choose the best model" |};
        {| id := "linear"; name := "Linear Regression";
           description := "Linear model for continuous values" |};
        {| id := "randomforest"; name := "Random Forest";
           description := "Ensemble regression model" |} ]
  end.

End ModelTraining.

(** ** src/App.tsx: handleModelTrain *)

Module App.
Import JS DataProcessor.

(** [analysis]: what [analyzeData] returned, with the three fields
    [handleTargetSelect] adds. *)
Record Analysis : Type := {
  profile : DataAnalysis;
  targetColumn : option string;
  problemType : option ProblemType;
  classBalance : option (list (string * ClassBalance.Entry))
}.

Section HandleModelTrain.

Variable ModelResults : Type.

(** [trainModel], which gets [analysis.problemType] as it is, set or not. *)
Variable trainModel :
  list (list float) -> list float -> option ProblemType -> string ->
  completion ModelResults.

(** What a call leaves: nothing, [setError(message)], or
    [setResults(modelResults)] with the step ['results']. *)
Inductive Outcome : Type :=
| Ignored
| Failed (error : string)
| Trained (results : ModelResults).

Definition handleModelTrain (data : list DataPoint) (analysis : option Analysis)
    (selectedTarget : string) (modelType : string) : Outcome :=
  match analysis with
  | None => Ignored
  | Some a =>
      if String.eqb selectedTarget "" then Ignored
      else
        let featureColumns :=
          filter (fun col => negb (String.eqb col selectedTarget)) (columns (profile a)) in
        let (features, targets) := prepareFeatures data featureColumns selectedTarget in
        if length features =? 0
        then Failed "No valid feature data found after preprocessing"
        else
          match trainModel features targets (problemType a) modelType with
          | Return modelResults => Trained modelResults
          | Throw message => Failed message
          end
  end.

End HandleModelTrain.

End App.

(** ** src/components/PredictionsTable.tsx: the pages *)

Module PredictionsTable.

Definition itemsPerPage : nat := 50.

(** [l.slice(start, end)] for indices that are not negative. *)
Definition slice (A : Type) (start end_ : nat) (l : list A) : list A :=
  firstn (end_ - start) (skipn start l).

(** [Math.ceil(sortedData.length / itemsPerPage)]; a length is below 2^32,
    where the quotient in binary64 has the ceiling of the exact one. *)
Definition totalPages (A : Type) (sortedData : list A) : nat :=
  (length sortedData + (itemsPerPage - 1)) / itemsPerPage.

Definition paginatedData (A : Type) (sortedData : list A) (currentPage : nat) : list A :=
  slice ((currentPage - 1) * itemsPerPage) (currentPage * itemsPerPage) sortedData.

End PredictionsTable.

(** ** src/utils/dataProcessor.ts: analyzeData on an engine that bounds the
    arguments of a call

    [Math.min(...values)] and [Math.max(...values)] pass every value as an
    argument of one call, and an engine takes only so many: with more, the
    call raises a [RangeError]. [DataProcessor.analyzeData] above is the
    function where every call is taken; here the bound is kept. *)

Module ArgumentLimit.
Import JS DataProcessor.

Section AnalyzeData.

(** The number of arguments the engine takes in such a call. *)
Variable argumentLimit : nat.

(** The message of the [RangeError], as V8 words it. *)
Definition tooManyArguments : string := "Maximum call stack size exceeded".

(** [f(...values)] *)
Definition spread (f : list float -> float) (values : list float) : completion float :=
  if argumentLimit <? length values then Throw tooManyArguments
  else Return (f values).

(** The record of one numerical column; the fields are evaluated in their
    order, so the first call that can fail is the one of [min]. *)
Definition describe (statistics : list (string * Statistics)) (col : string)
    (sorted : list float) : completion Statistics :=
  let n := float_of_nat (length sorted) in
  let mean := (fold_left (fun sum val => sum + val) sorted 0 / n)%float in
  let median := nth (length sorted / 2) sorted nan in
  match spread Math_min sorted with
  | Throw error => Throw error
  | Return min =>
      match spread Math_max sorted with
      | Throw error => Throw error
      | Return max =>
          Return {| mean := mean;
                    median := median;
                    min := min;
                    max := max;
                    std := PrimFloat.sqrt
                             (fold_left
                                (fun sum val =>
                                   sum + pow2 (or_zero
                                            (val - Number (meanSoFar statistics col))))
                                sorted 0 / n)%float |}
      end
  end.

Definition describeColumn (data : list DataPoint)
    (statistics : list (string * Statistics)) (col : string)
    : completion (list (string * Statistics)) :=
  let values := numbersOf data col in
  if 0 <? length values
  then match describe statistics col (sort_numbers values) with
       | Throw error => Throw error
       | Return record => Return (set statistics col record)
       end
  else Return statistics.

(** [numericalColumns.forEach(col => ...)], left at the first error. *)
Fixpoint describeColumns (data : list DataPoint) (cols : list string)
    (statistics : list (string * Statistics))
    : completion (list (string * Statistics)) :=
  match cols with
  | [] => Return statistics
  | col :: rest =>
      match describeColumn data statistics col with
      | Throw error => Throw error
      | Return statistics' => describeColumns data rest statistics'
      end
  end.

Definition analyzeData (data : list DataPoint) : completion DataAnalysis :=
  match data with
  | [] => Throw "No data to analyze"
  | row0 :: _ =>
      let columns := keys row0 in
      let typing := fold_left (classifyColumn data) columns
                      {| t_dtypes := []; t_missingValues := [];
                         t_numericalColumns := []; t_categoricalColumns := [] |} in
      match describeColumns data typing.(t_numericalColumns) [] with
      | Throw error => Throw error
      | Return statistics =>
          Return {| shape := (length data, length columns);
                    columns := columns;
                    dtypes := typing.(t_dtypes);
                    missingValues := typing.(t_missingValues);
                    numericalColumns := typing.(t_numericalColumns);
                    categoricalColumns := typing.(t_categoricalColumns);
                    statistics := statistics |}
      end
  end.

End AnalyzeData.

End ArgumentLimit.

(** ** src/utils/mlModels.ts: calculateConfusionMatrix and calculateMetrics on
    every number

    A label is a [number] of JavaScript. [MLModels] and [Metrics] take the
    integers among them; a target or a prediction can also be [NaN], an
    infinity, a fraction or one of the two zeros, and [===] and [indexOf]
    never find [NaN], while a [Set] keeps it as a member. Here the two
    functions are on binary64 values. *)

Module NumberLabels.
Import JS DataProcessor MLModels Metrics.

(** [a === b] on numbers: [NaN] equals nothing and the two zeros are
    equal. *)
Definition strictEquals (a b : float) : bool := (a =? b)%float.

(** SameValueZero on numbers, the equality of the members of a [Set]:
    [===], and [NaN] the same as [NaN]. *)
Definition sameValueZero (a b : float) : bool :=
  (PrimFloat.is_nan a && PrimFloat.is_nan b) || (a =? b)%float.

(** A [Set] keeps [-0] as [+0]. *)
Definition kept (x : float) : float := if (x =? 0)%float then 0%float else x.

(** [[...new Set(xs)]] *)
Definition Set_of_numbers (xs : list float) : list float :=
  Set_of sameValueZero (map kept xs).

(** [other[idx] === c]: [undefined], behind the end, is no number. *)
Definition equalsAt (v : option float) (c : float) : bool :=
  match v with
  | Some x => strictEquals x c
  | None => false
  end.

Section CalculateConfusionMatrix.

(** [String(x)], by which [sort()] compares. *)
Variable numberToString : float -> string.

Definition default_compare (x y : float) : float :=
  if String.ltb (numberToString x) (numberToString y) then (-1)%float
  else if String.ltb (numberToString y) (numberToString x) then 1%float
  else 0%float.

Definition uniqueClasses (actual predicted : list float) : list float :=
  sort_by default_compare (Set_of_numbers (actual ++ predicted)).

(** The body of [actual.forEach((actualClass, idx) => ...)]. *)
Definition tally (classes predicted : list float) (matrix : list (list nat))
    (entry : nat * float) : list (list nat) :=
  let (idx, actualClass) := entry in
  let actualIdx := indexOf strictEquals classes actualClass in
  let predictedIdx :=
    match nth_error predicted idx with
    | Some p => indexOf strictEquals classes p
    | None => None
    end in
  match actualIdx, predictedIdx with
  | Some i, Some j => update i (update j S) matrix
  | _, _ => matrix
  end.

Definition calculateConfusionMatrix (actual predicted : list float) : list (list nat) :=
  let classes := uniqueClasses actual predicted in
  let n := length classes in
  fold_left (tally classes predicted)
    (combine (seq 0 (length actual)) actual)
    (repeat (repeat 0 n) n).

End CalculateConfusionMatrix.

Section CalculateMetrics.

(** The branch of the regression metrics. *)
Variable regressionMetrics : list float -> list float -> list (string * float).

Definition calculateMetrics (actual predicted : list float) (problemType : ProblemType)
    : list (string * float) :=
  match problemType with
  | regression => regressionMetrics actual predicted
  | classification =>
      let correct := countWhere (fun val idx => equalsAt (nth_error predicted idx) val) actual in
      let accuracy := (float_of_nat correct / float_of_nat (length actual))%float in
      let uniqueClasses := Set_of_numbers (actual ++ predicted) in
      let '(precision, recall, f1) :=
        if length uniqueClasses =? 2 then
          let positiveClass := Math_max uniqueClasses in
          let tp := countWhere (fun val idx =>
                      strictEquals val positiveClass
                      && equalsAt (nth_error predicted idx) positiveClass) actual in
          let fp := countWhere (fun val idx =>
                      strictEquals val positiveClass
                      && negb (equalsAt (nth_error actual idx) positiveClass)) predicted in
          let fn := countWhere (fun val idx =>
                      strictEquals val positiveClass
                      && negb (equalsAt (nth_error predicted idx) positiveClass)) actual in
          let precision := or_zero (float_of_nat tp / float_of_nat (tp + fp))%float in
          let recall := or_zero (float_of_nat tp / float_of_nat (tp + fn))%float in
          let f1 := or_zero (2 * (precision * recall) / (precision + recall))%float in
          (precision, recall, f1)
        else (0%float, 0%float, 0%float) in
      [("Accuracy"%string, toFixed4 accuracy);
       ("Precision"%string, toFixed4 precision);
       ("Recall"%string, toFixed4 recall);
       ("F1 Score"%string, toFixed4 f1)]
  end.

End CalculateMetrics.

(** No two members are the same for a [Set]. *)
Definition distinct (classes : list float) : Prop :=
  NoDup classes /\
  forall a b, In a classes -> In b classes -> sameValueZero a b = true -> a = b.

(** The pairs of an actual and a predicted label that pass a test. *)
Definition pairsWhere (test : float -> float -> bool) (actual predicted : list float) : nat :=
  length (filter (fun e => test (fst e) (snd e)) (combine actual predicted)).

(** A numeral function for examples: the numbers 0 to 3 and [NaN]. *)
Definition smallNumeral (x : float) : string :=
  if PrimFloat.is_nan x then "NaN"
  else if (x =? 0)%float then "0"
  else if (x =? 1)%float then "1"
  else if (x =? 2)%float then "2"
  else "3".

End NumberLabels.

(** ** What the specification says, where it is compared with the code *)

Module Spec.
Import JS.

(** Population standard deviation: the square root of the sum of the squared
    deviations from the mean, divided by the count (not the count minus 1). *)
Definition populationMean (values : list float) : float :=
  (fold_left (fun sum val => sum + val) values 0 / float_of_nat (length values))%float.

Definition populationStd (values : list float) : float :=
  let m := populationMean values in
  PrimFloat.sqrt
    (fold_left (fun sum val => sum + (val - m) * (val - m)) values 0
     / float_of_nat (length values))%float.

(** The lower of the two middle elements of a sorted list of even length. *)
Definition lowerMiddle (sorted : list float) : float :=
  nth (length sorted / 2 - 1) sorted nan.

(** The confusion matrix over given labels: entry [i][j] counts the positions
    where the actual value is the i-th label and the predicted value the
    j-th. *)
Definition countPairs (a p : Z) (actual predicted : list Z) : nat :=
  length (filter (fun ap => (fst ap =? a)%Z && (snd ap =? p)%Z) (combine actual predicted)).

Definition matrixOver (labels actual predicted : list Z) : list (list nat) :=
  map (fun a => map (fun p => countPairs a p actual predicted) labels) labels.

(** The distinct labels in ascending numeric order. *)
Definition sortedLabels (actual predicted : list Z) : list Z :=
  MLModels.ascending (Set_of Z.eqb (actual ++ predicted)).

End Spec.

(** ** Notions the statements use *)

Module Notions.
Import JS DataProcessor.

(** A row the encoder keeps: no feature is [null], [undefined] or [''], and
    the target is neither [null] nor [undefined]. *)
Definition retained (featureColumns : list string) (targetColumn : string)
    (row : DataPoint) : bool :=
  forallb (fun col => notMissing (cell row col)) featureColumns
  && notNullish (cell row targetColumn).

(** The feature vector of a row. *)
Definition featureRow (featureColumns : list string) (row : DataPoint) : list float :=
  map (fun col => encode (cell row col)) featureColumns.

(** A model-type token no branch of [trainModel] takes for the problem type. *)
Definition unmatched (problemType : ProblemType) (modelType : string) : Prop :=
  match problemType with
  | regression =>
      modelType <> "linear"%string /\ modelType <> "auto"%string /\
      modelType <> "randomforest"%string
  | classification =>
      modelType <> "logistic"%string /\ modelType <> "auto"%string /\
      modelType <> "decisiontree"%string /\ modelType <> "randomforest"%string
  end.

(** [k] comes strictly before [k'] in the list [l] (of distinct keys). *)
Definition precedes (l : list Z) (k k' : Z) : Prop :=
  exists l1 l2 l3, l = l1 ++ k :: l2 ++ k' :: l3.

(** No cell of the column is [null] or ['']. *)
Definition noBlankCell (data : list DataPoint) (col : string) : Prop :=
  forall v, In v (columnValues data col) -> v <> VNull /\ v <> VString "".

(** [w] occurs in [y] before any occurrence of [v]. *)
Definition occursBefore (y : list Z) (w v : Z) : Prop :=
  exists l1 l2, y = l1 ++ w :: l2 /\ ~ In v l1.

(** The number of occurrences of a label. *)
Definition occurrences (y : list Z) (v : Z) : nat := count_occ Z.eq_dec y v.

End Notions.

(** ** Data sets used as examples *)

Module Examples.
Import JS DataProcessor.

(** One column, one cell per row. *)
Definition column (name : string) (cells : list value) : list DataPoint :=
  map (fun v => [(name, v)]) cells.

Definition numbers (xs : list Z) : list value :=
  map (fun z => VNumber (float_of_Z z)) xs.

(** A hundred cells, the first [k] of them numbers and the others text. *)
Definition mixed (k : nat) : list value :=
  map (fun i => if i <? k then VNumber (float_of_nat i) else VString "n/a")
      (seq 0 100).

(** A thousand rows whose target takes the 21 values 0, ..., 20 in turn. *)
Definition thousand : list DataPoint :=
  column "target" (map (fun i => VNumber (float_of_nat (i mod 21))) (seq 0 1000)).

(** A row with a feature and an empty-string target. *)
Definition blankTarget : DataPoint :=
  [("x"%string, VNumber 1); ("y"%string, VString "")].

(** Ten rows of one feature, and their labels. *)
Definition tenRows : list (list Z) :=
  map (fun i => [Z.of_nat i]) (seq 1 10).

Definition tenLabels : list Z := [0; 1; 0; 1; 0; 1; 0; 1; 1; 0]%Z.

(** Two columns, a text and a number. *)
Definition people : list DataPoint :=
  [ [("name"%string, VString "Ada"); ("age"%string, VNumber 36)];
    [("name"%string, VString "Alan"); ("age"%string, VString "41")];
    [("name"%string, VString "Grace"); ("age"%string, VNull)] ].

(** Two rows without a missing cell. *)
Definition fruit : list DataPoint :=
  [ [("weight"%string, VNumber 120); ("kind"%string, VString "apple")];
    [("weight"%string, VString "7.5"); ("kind"%string, VString "plum")] ].

(** The analysis of [people] once the target [age] is chosen. *)
Definition peopleAnalysis : App.Analysis :=
  {| App.profile :=
       match analyzeData people with
       | Return r => r
       | Throw _ =>
           {| shape := (0, 0); columns := []; dtypes := []; missingValues := [];
              numericalColumns := []; categoricalColumns := []; statistics := [] |}
       end;
     App.targetColumn := Some "age"%string;
     App.problemType := Some (detectProblemType people "age");
     App.classBalance := None |}.

(** Four rows of a target: two classes and a [null]. *)
Definition pets : list DataPoint :=
  column "pet" [VString "cat"; VString "dog"; VString "cat"; VNull].

(** The names every object inherits, each with a text for its value. *)
Definition prototypeNames (k : string) : option string :=
  if String.eqb k "__proto__" then Some "[object Object]"%string
  else if existsb (String.eqb k)
            ["constructor"; "hasOwnProperty"; "isPrototypeOf"; "propertyIsEnumerable";
             "toLocaleString"; "toString"; "valueOf"; "__defineGetter__";
             "__defineSetter__"; "__lookupGetter__"; "__lookupSetter__"]%string
       then Some "function () { [native code] }"%string
       else None.

End Examples.
(** ** Facts about the run-time model *)

Section ObjectFacts.
Variable A : Type.

Lemma get_set_same (o : list (string * A)) (k : string) (v : A) :
  JS.get (JS.set o k v) k = Some v.
Proof.
  induction o as [|[k' v'] t IH]; simpl.
  - now rewrite String.eqb_refl.
  - destruct (String.eqb k' k) eqn:E; simpl; rewrite E; auto.
Qed.

Lemma get_set_other (o : list (string * A)) (k k' : string) (v : A) :
  k <> k' -> JS.get (JS.set o k v) k' = JS.get o k'.
Proof.
  intros Hne. induction o as [|[k0 v0] t IH]; simpl.
  - destruct (String.eqb_spec k k'); [contradiction | reflexivity].
  - destruct (String.eqb_spec k0 k) as [->|Hk]; simpl.
    + destruct (String.eqb_spec k k'); [contradiction | reflexivity].
    + destruct (String.eqb_spec k0 k'); auto.
Qed.

End ObjectFacts.

(** *** Two facts of binary64 arithmetic, from its specification *)

Lemma sub_nan_r (x : float) : (x - nan)%float = nan.
Proof.
  apply Prim2SF_inj. rewrite sub_spec.
  change (Prim2SF nan) with S754_nan.
  unfold SF64sub, SFsub. now destruct (Prim2SF x).
Qed.

Lemma binary_round_negative (m : positive) (e : Z) :
  SFltb (S754_zero false) (binary_round prec emax true m e) = false.
Proof.
  unfold binary_round, binary_round_aux.
  destruct (shl_align m e _) as [mz ez].
  destruct (shr_fexp prec emax (Z.pos mz) ez loc_Exact) as [mrs' e'].
  destruct (shr_fexp prec emax _ e' loc_Exact) as [mrs'' e''].
  destruct (shr_m mrs''); try reflexivity.
  destruct (e'' <=? emax - prec)%Z; reflexivity.
Qed.

Lemma SFsub_antisym (x y : spec_float) :
  SFltb (S754_zero false) (SFsub prec emax x y) = true ->
  SFltb (S754_zero false) (SFsub prec emax y x) = false.
Proof.
  destruct x as [sx|sx| |sx mx ex], y as [sy|sy| |sy my ey].
  1-15: try destruct sx; try destruct sy; cbv; congruence.
  unfold SFsub. rewrite (Z.min_comm ey ex).
  set (a := cond_Zopp sx _). set (b := cond_Zopp sy _).
  replace (b - a)%Z with (- (a - b))%Z by lia.
  destruct (a - b)%Z as [|p|p]; simpl; try discriminate.
  - intros _. apply binary_round_negative.
  - now rewrite binary_round_negative.
Qed.

(** When [a - b] is positive, [b - a] is not. *)
Lemma compare_numbers_antisym (a b : float) :
  (0 <? JS.compare_numbers a b)%float = true ->
  (0 <? JS.compare_numbers b a)%float = false.
Proof.
  unfold JS.compare_numbers. rewrite !ltb_spec, !sub_spec.
  change (Prim2SF 0) with (S754_zero false). apply SFsub_antisym.
Qed.

(** *** The stable sort *)

Section SortFacts.
Variable A : Type.
Variable comparefn : A -> A -> float.

Lemma sort_insert_perm (x : A) (l : list A) :
  Permutation (JS.sort_insert comparefn x l) (x :: l).
Proof.
  induction l as [|y l IH]; simpl; [reflexivity|].
  destruct (0 <? comparefn x y)%float; [|reflexivity].
  rewrite IH. apply perm_swap.
Qed.

Lemma sort_by_perm (l : list A) : Permutation (JS.sort_by comparefn l) l.
Proof.
  induction l as [|x l IH]; simpl; [reflexivity|].
  rewrite sort_insert_perm. now constructor.
Qed.

Lemma sort_by_length (l : list A) : length (JS.sort_by comparefn l) = length l.
Proof. apply Permutation_length, sort_by_perm. Qed.

(** The result is in order for [comparefn]: no element is directly followed
    by one that the function puts before it. *)
Hypothesis comparefn_antisym :
  forall a b, (0 <? comparefn a b)%float = true -> (0 <? comparefn b a)%float = false.

Lemma sort_insert_sorted (x : A) (l : list A) :
  Sorted (JS.inOrder comparefn) l ->
  Sorted (JS.inOrder comparefn) (JS.sort_insert comparefn x l).
Proof.
  induction l as [|y l IH]; simpl; intros Hs.
  - repeat constructor.
  - destruct (0 <? comparefn x y)%float eqn:E.
    + apply Sorted_inv in Hs as [Hs Hhd]. constructor; [now apply IH|].
      destruct l as [|z l]; simpl.
      * constructor. now apply comparefn_antisym.
      * destruct (0 <? comparefn x z)%float.
        -- constructor. now apply HdRel_inv in Hhd.
        -- constructor. now apply comparefn_antisym.
    + constructor; [exact Hs|]. constructor. exact E.
Qed.

Lemma sort_by_sorted (l : list A) :
  Sorted (JS.inOrder comparefn) (JS.sort_by comparefn l).
Proof.
  induction l as [|x l IH]; simpl; [constructor | now apply sort_insert_sorted].
Qed.

End SortFacts.

(** The integer forms of the three fraction tests agree with binary64: the
    two comparisons on every pair of lengths up to 200, the floor on every
    length up to 1000. *)
Lemma gt_08_binary64 :
  forallb (fun n => forallb (fun k =>
             Bool.eqb (JS.Fraction.gt_08 k n) (JS.Fraction.gt_08_float k n))
           (seq 0 (S n))) (seq 0 201) = true.
Proof. vm_compute. reflexivity. Qed.

Lemma lt_01_binary64 :
  forallb (fun n => forallb (fun k =>
             Bool.eqb (JS.Fraction.lt_01 k n) (JS.Fraction.lt_01_float k n))
           (seq 0 (S n))) (seq 0 201) = true.
Proof. vm_compute. reflexivity. Qed.

Lemma floor_08_binary64 :
  forallb (fun n => JS.Fraction.is_floor_08_float n (JS.Fraction.floor_08 n))
          (seq 0 1001) = true.
Proof. vm_compute. reflexivity. Qed.

(** At the two lengths on either side of each threshold, up to 1000 (both
    tests are monotone in [k], so these two decide every [k]). *)
Lemma gt_08_binary64_boundary :
  forallb (fun n =>
             negb (JS.Fraction.gt_08_float (4 * n / 5) n)
             && JS.Fraction.gt_08_float (S (4 * n / 5)) n)
          (seq 0 1001) = true.
Proof. vm_compute. reflexivity. Qed.

Lemma lt_01_binary64_boundary :
  forallb (fun n =>
             JS.Fraction.lt_01_float ((n - 1) / 10) n
             && negb (JS.Fraction.lt_01_float (S ((n - 1) / 10)) n))
          (seq 1 1000) = true.
Proof. vm_compute. reflexivity. Qed.

Lemma gt_08_spec (k n : nat) : JS.Fraction.gt_08 k n = true <-> 4 * n < 5 * k.
Proof. unfold JS.Fraction.gt_08. apply Nat.ltb_lt. Qed.

Lemma lt_01_spec (k n : nat) : JS.Fraction.lt_01 k n = true <-> 10 * k < n.
Proof. unfold JS.Fraction.lt_01. apply Nat.ltb_lt. Qed.

(** ** The profiler: typing of the columns *)

Section Profiler.
Import JS DataProcessor.
Variable data : list DataPoint.

Lemma classify_numerical (cols : list string) (acc : Typing) (col : string) :
  In col (t_numericalColumns (fold_left (classifyColumn data) cols acc)) <->
  In col (t_numericalColumns acc) \/ (In col cols /\ isNumerical data col = true).
Proof.
  revert acc. induction cols as [|c cols IH]; intros acc; simpl.
  - tauto.
  - rewrite IH. unfold classifyColumn at 1.
    destruct (isNumerical data c) eqn:E; simpl.
    + rewrite in_app_iff; simpl. split.
      * intros [[H|[->|[]]]|[H1 H2]]; auto.
      * intros [H|[[->|H1] H2]]; auto.
    + split.
      * intros [H|[H1 H2]]; auto.
      * intros [H|[[->|H1] H2]]; auto. congruence.
Qed.

Lemma classify_categorical (cols : list string) (acc : Typing) (col : string) :
  In col (t_categoricalColumns (fold_left (classifyColumn data) cols acc)) <->
  In col (t_categoricalColumns acc) \/ (In col cols /\ isNumerical data col = false).
Proof.
  revert acc. induction cols as [|c cols IH]; intros acc; simpl.
  - tauto.
  - rewrite IH. unfold classifyColumn at 1.
    destruct (isNumerical data c) eqn:E; simpl.
    + split.
      * intros [H|[H1 H2]]; auto.
      * intros [H|[[->|H1] H2]]; auto. congruence.
    + rewrite in_app_iff; simpl. split.
      * intros [[H|[->|[]]]|[H1 H2]]; auto.
      * intros [H|[[->|H1] H2]]; auto.
Qed.

Lemma classify_elsewhere (cols : list string) (acc : Typing) (col : string) :
  ~ In col cols ->
  let acc' := fold_left (classifyColumn data) cols acc in
  get (t_dtypes acc') col = get (t_dtypes acc) col /\
  get (t_missingValues acc') col = get (t_missingValues acc) col.
Proof.
  revert acc. induction cols as [|c cols IH]; intros acc Hout; simpl; [tauto|].
  simpl in Hout.
  destruct (IH (classifyColumn data acc c)) as [H1 H2]; [tauto|].
  rewrite H1, H2. unfold classifyColumn.
  destruct (isNumerical data c); simpl; split; apply get_set_other; tauto.
Qed.

Lemma classify_here (cols : list string) (acc : Typing) (col : string) :
  In col cols ->
  let acc' := fold_left (classifyColumn data) cols acc in
  get (t_dtypes acc') col =
    Some (if isNumerical data col then "number" else "string")%string /\
  get (t_missingValues acc') col =
    Some (length data - length (nonNullValues data col)).
Proof.
  revert acc. induction cols as [|c cols IH]; intros acc; simpl; [tauto|].
  intros Hin.
  destruct (in_dec string_dec col cols) as [Hlater|Hout]; [now apply IH|].
  destruct Hin as [->|Hin]; [|contradiction].
  destruct (classify_elsewhere cols (classifyColumn data acc col) col Hout) as [H1 H2].
  rewrite H1, H2. unfold classifyColumn.
  destruct (isNumerical data col); simpl; split; apply get_set_same.
Qed.

End Profiler.

(** ** Claims about the profiler *)

Section ProfilerClaims.
Import JS DataProcessor.

Lemma analyzeData_inv (data : list DataPoint) (r : DataAnalysis) :
  analyzeData data = Return r ->
  exists row0 rest, data = row0 :: rest /\
    let typing := fold_left (classifyColumn data) (keys row0)
                    {| t_dtypes := []; t_missingValues := [];
                       t_numericalColumns := []; t_categoricalColumns := [] |} in
    columns r = keys row0 /\
    dtypes r = t_dtypes typing /\
    missingValues r = t_missingValues typing /\
    numericalColumns r = t_numericalColumns typing /\
    categoricalColumns r = t_categoricalColumns typing /\
    statistics r = fold_left (describeColumn data) (t_numericalColumns typing) [].
Proof.
  destruct data as [|row0 rest]; simpl; [discriminate|].
  intros H. injection H as <-. exists row0, rest. simpl. repeat split.
Qed.

(** C7. A column is classified numeric exactly when the number of its
    non-missing values that are numeric is strictly greater than 0.8 times
    the number of its non-missing values (5 * numeric > 4 * nonMissing);
    otherwise it is categorical. At exactly 80% it is categorical, at 81%
    numeric. *)
Theorem analyzeData_numeric_threshold
    (data : list DataPoint) (r : DataAnalysis) (col : string) :
  analyzeData data = Return r ->
  In col (columns r) ->
  let numeric := length (numericalValues data col) in
  let nonMissing := length (nonNullValues data col) in
  (In col (numericalColumns r) <-> 4 * nonMissing < 5 * numeric) /\
  (In col (categoricalColumns r) <-> 5 * numeric <= 4 * nonMissing) /\
  (get (dtypes r) col = Some "number"%string <-> 4 * nonMissing < 5 * numeric) /\
  (get (dtypes r) col = Some "string"%string <-> 5 * numeric <= 4 * nonMissing) /\
  (100 * numeric = 80 * nonMissing ->
     In col (categoricalColumns r) /\ ~ In col (numericalColumns r)) /\
  (0 < nonMissing -> 100 * numeric = 81 * nonMissing ->
     In col (numericalColumns r) /\ ~ In col (categoricalColumns r)).
Proof.
  intros Hr Hcol numeric nonMissing.
  destruct (analyzeData_inv data Hr) as (row0 & rest & Hdata & Hc & Hd & _ & Hn & Hcat & _).
  rewrite Hc in Hcol.
  assert (Hnum : In col (numericalColumns r) <-> 4 * nonMissing < 5 * numeric).
  { rewrite Hn, classify_numerical. simpl. unfold isNumerical. rewrite gt_08_spec.
    subst numeric nonMissing. tauto. }
  assert (Hcatg : In col (categoricalColumns r) <-> 5 * numeric <= 4 * nonMissing).
  { rewrite Hcat, classify_categorical. simpl. unfold isNumerical.
    rewrite <- Bool.not_true_iff_false, gt_08_spec.
    subst numeric nonMissing. split; [intros [[]|[_ H]]|intros H; right; split; auto]; lia. }
  assert (Hdt := proj1 (classify_here data (keys row0)
             {| t_dtypes := []; t_missingValues := [];
                t_numericalColumns := []; t_categoricalColumns := [] |} col Hcol)).
  rewrite <- Hd in Hdt.
  assert (Hgt : isNumerical data col = true <-> 4 * nonMissing < 5 * numeric).
  { unfold isNumerical. rewrite gt_08_spec. subst numeric nonMissing. tauto. }
  assert (Hnumber : get (dtypes r) col = Some "number"%string <->
                    isNumerical data col = true).
  { rewrite Hdt. destruct (isNumerical data col); split; intro; congruence. }
  assert (Hstring : get (dtypes r) col = Some "string"%string <->
                    isNumerical data col <> true).
  { rewrite Hdt. destruct (isNumerical data col); split; intro; congruence. }
  split; [exact Hnum|].
  split; [exact Hcatg|].
  split; [now rewrite Hnumber|].
  split; [rewrite Hstring, Hgt; lia|].
  split.
  - intros H. split; [apply Hcatg | rewrite Hnum]; lia.
  - intros Hpos H. split; [apply Hnum | rewrite Hcatg]; lia.
Qed.

(** A column of a hundred values, 81 of them numbers, is numeric. *)
Lemma analyzeData_numeric_threshold_witness :
  exists r, analyzeData (Examples.column "score" (Examples.mixed 81)) = Return r /\
    In "score"%string (numericalColumns r) /\
    ~ In "score"%string (categoricalColumns r).
Proof.
  eexists. split; [reflexivity|].
  refine (proj2 (proj2 (proj2 (proj2 (proj2
    (@analyzeData_numeric_threshold
       (Examples.column "score" (Examples.mixed 81)) _ "score" eq_refl _))))) _ _).
  - simpl. left. reflexivity.
  - vm_compute. lia.
  - vm_compute. reflexivity.
Defined.

(** The two sides of the threshold, computed: 80 numbers in a hundred values
    make a categorical column, 81 a numeric one. *)
Example analyzeData_80_and_81_percent :
  (exists r, analyzeData (Examples.column "score" (Examples.mixed 80)) = Return r /\
     numericalColumns r = [] /\ categoricalColumns r = ["score"%string]) /\
  (exists r, analyzeData (Examples.column "score" (Examples.mixed 81)) = Return r /\
     numericalColumns r = ["score"%string] /\ categoricalColumns r = []).
Proof.
  split; eexists; (split; [reflexivity|]); split; vm_compute; reflexivity.
Qed.

End ProfilerClaims.

(** ** Claims about the problem-type detector *)

Section DetectorClaims.
Import JS DataProcessor.

(** C3, counterexample. A thousand rows whose target takes exactly 21
    distinct values, all of them numbers, are detected as classification,
    not regression. *)
Lemma detectProblemType_21_of_1000 :
  length Examples.thousand = 1000 /\
  length (uniqueValues Examples.thousand "target") = 21 /\
  forallb isNumeric (targetValues Examples.thousand "target") = true /\
  detectProblemType Examples.thousand "target" = classification /\
  detectProblemType Examples.thousand "target" <> regression.
Proof.
  assert (H : detectProblemType Examples.thousand "target" = classification)
    by (vm_compute; reflexivity).
  repeat split; try (vm_compute; reflexivity); try exact H.
  rewrite H. discriminate.
Qed.

(** C3, amended. The detector answers regression exactly when the target has
    more than 20 distinct values, these are at least 10% of the row count,
    and more than 80% of the target values that are neither [null] nor
    [undefined] are numeric. So 21 distinct values in 1000 rows give
    classification (21 is under 10% of 1000), 21 distinct numeric values give
    regression only up to 210 rows, and 5 distinct values give classification
    whatever the row count. *)
Theorem detectProblemType_rule (data : list DataPoint) (targetColumn : string) :
  let size := length (uniqueValues data targetColumn) in
  let rows := length data in
  let values := targetValues data targetColumn in
  (detectProblemType data targetColumn = regression <->
     20 < size /\ rows <= 10 * size /\
     4 * length values < 5 * length (filter isNumeric values)) /\
  (rows = 1000 -> size = 21 -> detectProblemType data targetColumn = classification) /\
  (size = 21 -> forallb isNumeric values = true ->
     (detectProblemType data targetColumn = regression <-> rows <= 210)) /\
  (size = 5 -> detectProblemType data targetColumn = classification).
Proof.
  intros size rows values.
  assert (Hrule : detectProblemType data targetColumn = regression <->
     20 < size /\ rows <= 10 * size /\
     4 * length values < 5 * length (filter isNumeric values)).
  { unfold detectProblemType. fold size. fold rows. fold values.
    destruct (size <=? 20) eqn:E1; simpl.
    - apply Nat.leb_le in E1. split; [discriminate | lia].
    - apply Nat.leb_gt in E1.
      destruct (Fraction.lt_01 size rows) eqn:E2.
      + apply lt_01_spec in E2. split; [discriminate | lia].
      + assert (~ 10 * size < rows) by (rewrite <- lt_01_spec; congruence).
        destruct (Fraction.gt_08 _ _) eqn:E3.
        * apply gt_08_spec in E3. split; [lia | reflexivity].
        * assert (~ 4 * length values < 5 * length (filter isNumeric values))
            by (rewrite <- gt_08_spec; congruence).
          split; [discriminate | lia]. }
  assert (Hcases : forall p, p <> regression -> p = classification)
    by (intros []; congruence).
  split; [exact Hrule|]. split; [|split].
  - intros Hrows Hsize. apply Hcases. rewrite Hrule. lia.
  - intros Hsize Hall. rewrite Hrule.
    assert (Hf : filter isNumeric values = values).
    { clear -Hall. induction values as [|v l IH]; simpl in *; [reflexivity|].
      apply andb_prop in Hall as [-> Hl]. now rewrite IH. }
    rewrite Hf.
    assert (0 < length values).
    { destruct values as [|v l] eqn:Ev; simpl; [|lia].
      unfold size, uniqueValues in Hsize. fold values in Hsize.
      rewrite Ev in Hsize. discriminate. }
    lia.
  - intros Hsize. apply Hcases. rewrite Hrule. lia.
Qed.

End DetectorClaims.

(** ** Claims about the feature encoder *)

Section EncoderClaims.
Import JS DataProcessor Notions.
Variable featureColumns : list string.
Variable targetColumn : string.

Lemma encodeFeature_fold (row : DataPoint) (cols : list string)
    (acc : list float) (valid : bool) :
  fold_left (encodeFeature row) cols (acc, valid) =
  (acc ++ map (fun col => encode (cell row col))
            (filter (fun col => notMissing (cell row col)) cols),
   valid && forallb (fun col => notMissing (cell row col)) cols).
Proof.
  revert acc valid. induction cols as [|c cols IH]; intros acc valid; simpl.
  - now rewrite app_nil_r, andb_true_r.
  - unfold notMissing at 1 3.
    destruct (cell row c) as [f|[|a s]|b| |] eqn:E; simpl; rewrite IH; simpl;
      rewrite ?E, <- ?app_assoc, ?andb_false_r, ?andb_true_r; reflexivity.
Qed.

Lemma filter_all (A : Type) (p : A -> bool) (l : list A) :
  forallb p l = true -> filter p l = l.
Proof.
  induction l as [|x l IH]; simpl; [reflexivity|].
  intros H. apply andb_prop in H as [-> Hl]. now rewrite IH.
Qed.

Lemma encodeRow_fold (data : list DataPoint) (features : list (list float))
    (targets : list float) :
  fold_left (encodeRow featureColumns targetColumn) data (features, targets) =
  (features ++ map (featureRow featureColumns) (filter (retained featureColumns targetColumn) data),
   targets ++ map (fun row => encode (cell row targetColumn))
                  (filter (retained featureColumns targetColumn) data)).
Proof.
  revert features targets. induction data as [|row data IH]; intros features targets; simpl.
  - now rewrite !app_nil_r.
  - rewrite encodeFeature_fold. cbn beta iota. rewrite app_nil_l, andb_true_l.
    rewrite <- andb_assoc.
    change (forallb (fun col => notMissing (cell row col)) featureColumns
            && (negb (is_null (cell row targetColumn))
                && negb (is_undefined (cell row targetColumn))))
      with (retained featureColumns targetColumn row).
    destruct (retained featureColumns targetColumn row) eqn:R.
    + apply andb_prop in R as [Hall _].
      rewrite IH, (filter_all _ _ Hall). simpl.
      rewrite <- !app_assoc. reflexivity.
    + rewrite IH. reflexivity.
Qed.

(** C4, where the code departs from the claim. A row whose target is the
    empty string is kept, although the same value in a feature column drops
    the row: it enters the feature matrix, and its target is encoded as 0. *)
Theorem prepareFeatures_keeps_empty_target :
  is_empty_string (cell Examples.blankTarget "y") = true /\
  prepareFeatures [Examples.blankTarget] ["x"%string] "y" = ([[1%float]], [0%float]).
Proof. split; vm_compute; reflexivity. Qed.

(** What the encoder does on every input. It keeps exactly the rows in which
    no feature is [null], [undefined] or [''] and the target is neither
    [null] nor [undefined]; the feature matrix and the target vector hold
    the kept rows, in order and aligned. A kept target is the number itself,
    else the number its text parses to, else the code of its first character
    modulo 100. *)
Lemma prepareFeatures_spec (data : list DataPoint) :
  let kept := filter (retained featureColumns targetColumn) data in
  prepareFeatures data featureColumns targetColumn =
    (map (featureRow featureColumns) kept,
     map (fun row => encode (cell row targetColumn)) kept) /\
  (forall row, In row kept <->
     In row data /\
     (forall col, In col featureColumns ->
        cell row col <> VNull /\ cell row col <> VUndefined /\
        cell row col <> VString "") /\
     cell row targetColumn <> VNull /\ cell row targetColumn <> VUndefined) /\
  (forall f, encode (VNumber f) = f) /\
  (forall s, isNaN (StringToNumber s) = false ->
     encode (VString s) = StringToNumber s) /\
  (forall c s, isNaN (StringToNumber (String c s)) = true ->
     encode (VString (String c s)) = float_of_Z (code c mod 100)).
Proof.
  intros kept. split; [|split; [|split; [|split]]].
  - unfold prepareFeatures. now rewrite encodeRow_fold.
  - intros row. unfold kept. rewrite filter_In. unfold retained.
    rewrite andb_true_iff, forallb_forall.
    assert (Hcell : forall v, notMissing v = true <->
              v <> VNull /\ v <> VUndefined /\ v <> VString "").
    { intros [f|[|a s]|b| |]; cbn; repeat split; try congruence;
        try (intros (? & ? & ?); congruence). }
    assert (Htarget : forall v, notNullish v = true <-> v <> VNull /\ v <> VUndefined).
    { intros [f|s|b| |]; cbn; repeat split; try congruence;
        try (intros (? & ?); congruence). }
    rewrite Htarget. split.
    + intros (Hin & Hall & Ht). split; [exact Hin|]. split; [|exact Ht].
      intros col Hcol. apply Hcell. now apply Hall.
    + intros (Hin & Hall & Ht). split; [exact Hin|]. split; [|exact Ht].
      intros col Hcol. apply Hcell. now apply Hall.
  - reflexivity.
  - intros s Hs. unfold encode. simpl. now rewrite Hs.
  - intros c s Hs. unfold encode. simpl typeof_number. cbn iota.
    unfold Number. now rewrite Hs.
Qed.

End EncoderClaims.

(** ** Claims about the training pipeline *)

Section TrainingClaims.
Import JS MLModels Notions.

Variable Metrics : Type.
Variable calculateMetrics : list number -> list number -> ProblemType -> Metrics.
Variable fitPredict :
  Estimator -> list (list number) -> list number -> list (list number) ->
  completion (list number).
Variables startTime endTime : Z.

Lemma trainModel_inv (X : list (list number)) (y : list number)
    (problemType : ProblemType) (modelType : string) (r : ModelResults Metrics) :
  trainModel calculateMetrics fitPredict startTime endTime X y problemType modelType
    = Return r ->
  actualValues r = yTest X y /\
  fitAndPredict fitPredict (XTrain X) (yTrain X y) (XTest X) problemType modelType
    = Return (predictions r, model r).
Proof.
  unfold trainModel.
  destruct (fitAndPredict _ _ _ _ _ _) as [[p name]|msg]; [|discriminate].
  intros H. injection H as <-. simpl. auto.
Qed.

(** C8. The split takes the first floor(0.8 * n) rows, in their order, as
    the training set and the remaining rows, in their order, as the held-out
    set, for the features and for the targets alike. A run fits and predicts
    on exactly these: the estimator it builds gets the first rows with their
    targets and predicts the remaining rows, the metrics and the reported
    held-out targets are those of the remaining rows, and a failure is the
    failure on these slices; so two runs on the same input split at the same
    index. *)
Theorem trainModel_split (X : list (list number)) (y : list number) :
  length y = length X ->
  let k := 4 * length X / 5 in
  splitIndex X = k /\
  length (XTrain X) = k /\ length (yTrain X y) = k /\
  length (XTest X) = length X - k /\ length (yTest X y) = length X - k /\
  XTrain X ++ XTest X = X /\ yTrain X y ++ yTest X y = y /\
  (forall i, i < k ->
     nth_error (XTrain X) i = nth_error X i /\
     nth_error (yTrain X y) i = nth_error y i) /\
  (forall j,
     nth_error (XTest X) j = nth_error X (k + j) /\
     nth_error (yTest X y) j = nth_error y (k + j)) /\
  (forall problemType modelType r,
     trainModel calculateMetrics fitPredict startTime endTime X y problemType modelType
       = Return r ->
     actualValues r = skipn k y) /\
  (forall problemType modelType r,
     trainModel calculateMetrics fitPredict startTime endTime X y problemType modelType
       = Return r ->
     fitAndPredict fitPredict (firstn k X) (firstn k y) (skipn k X) problemType modelType
       = Return (predictions r, model r) /\
     metrics r = calculateMetrics (skipn k y) (predictions r) problemType /\
     (model r <> ""%string ->
      exists estimator,
        fitPredict estimator (firstn k X) (firstn k y) (skipn k X)
        = Return (predictions r))) /\
  (forall problemType modelType message,
     trainModel calculateMetrics fitPredict startTime endTime X y problemType modelType
       = Throw message ->
     exists error,
       fitAndPredict fitPredict (firstn k X) (firstn k y) (skipn k X) problemType modelType
         = Throw error /\
       message = ("Failed to train : " ++ error)%string).
Proof.
  intros Hlen k.
  assert (Hk : k <= length X) by (subst k; apply Nat.Div0.div_le_upper_bound; lia).
  assert (Hrun : forall problemType modelType,
            trainModel calculateMetrics fitPredict startTime endTime X y
              problemType modelType
            = match fitAndPredict fitPredict (firstn k X) (firstn k y) (skipn k X)
                      problemType modelType with
              | Throw error => Throw ("Failed to train : " ++ error)
              | Return (predictions, modelName) =>
                  Return {| model := modelName;
                            problemType := problemType;
                            metrics := calculateMetrics (skipn k y) predictions problemType;
                            predictions := predictions;
                            actualValues := skipn k y;
                            confusionMatrix :=
                              match problemType with
                              | classification =>
                                  Some (calculateConfusionMatrix (skipn k y) predictions)
                              | regression => None
                              end;
                            trainingTime := endTime - startTime |}
              end) by reflexivity.
  unfold XTrain, yTrain, XTest, yTest, splitIndex, Fraction.floor_08. fold k.
  split; [reflexivity|].
  split; [rewrite length_firstn; lia|].
  split; [rewrite length_firstn; lia|].
  split; [apply length_skipn|].
  split; [rewrite length_skipn; lia|].
  split; [apply firstn_skipn|].
  split; [apply firstn_skipn|].
  split.
  { intros i Hi. rewrite !nth_error_firstn. now apply Nat.ltb_lt in Hi as ->. }
  split.
  { intros j. split; apply nth_error_skipn. }
  split; [|split].
  - intros problemType modelType r Hr.
    now destruct (trainModel_inv _ _ _ _ Hr) as [-> _].
  - intros problemType modelType r Hr. rewrite Hrun in Hr.
    destruct (fitAndPredict fitPredict (firstn k X) (firstn k y) (skipn k X)
                problemType modelType) as [[p name]|error] eqn:E; [|discriminate].
    injection Hr as <-. cbn [predictions model metrics].
    split; [reflexivity|]. split; [reflexivity|].
    intros Hname. unfold fitAndPredict, bind in E.
    destruct problemType;
      repeat match type of E with
             | context [if ?c then _ else _] => destruct c
             | context [match featureCount ?x with _ => _ end] =>
                 destruct (featureCount x)
             | context [match fitPredict ?a ?b ?c ?d with _ => _ end] =>
                 let H := fresh "Hp" in destruct (fitPredict a b c d) eqn:H
             end;
      try discriminate; injection E as E1 E2; subst;
      first [ now contradiction Hname | eexists; eassumption ].
  - intros problemType modelType message Hr. rewrite Hrun in Hr.
    destruct (fitAndPredict fitPredict (firstn k X) (firstn k y) (skipn k X)
                problemType modelType) as [[p name]|error]; [discriminate|].
    injection Hr as <-. now exists error.
Qed.

(** C10. A model-type token that no branch of the dispatch takes for the
    problem type raises nothing: the run returns a record whose model name
    is the empty string and whose predictions are empty. *)
Theorem trainModel_unmatched (X : list (list number)) (y : list number)
    (problemType : ProblemType) (modelType : string) :
  unmatched problemType modelType ->
  exists r,
    trainModel calculateMetrics fitPredict startTime endTime X y problemType modelType
      = Return r /\
    model r = ""%string /\ predictions r = [] /\
    MLModels.problemType r = problemType /\ actualValues r = yTest X y.
Proof.
  intros Hun. unfold trainModel, fitAndPredict.
  destruct problemType; simpl in Hun.
  - destruct Hun as (H1 & H2 & H3 & H4).
    apply String.eqb_neq in H1, H2, H3, H4. rewrite H1, H2, H3, H4. simpl.
    eexists. split; [reflexivity|]. simpl. auto.
  - destruct Hun as (H1 & H2 & H3).
    apply String.eqb_neq in H1, H2, H3. rewrite H1, H2, H3. simpl.
    eexists. split; [reflexivity|]. simpl. auto.
Qed.

End TrainingClaims.

(** Ten rows split eight to two. *)
Lemma trainModel_split_witness :
  MLModels.splitIndex Examples.tenRows = 8 /\
  MLModels.XTest Examples.tenRows = [[9%Z]; [10%Z]] /\
  MLModels.yTest Examples.tenRows Examples.tenLabels = [1%Z; 0%Z].
Proof.
  pose proof (@trainModel_split unit (fun _ _ _ => tt)
                (fun _ _ _ _ => JS.Throw "no estimator") 0%Z 0%Z
                Examples.tenRows Examples.tenLabels eq_refl) as H.
  cbv zeta in H. destruct H as (H1 & _).
  split; [exact H1|]. split; reflexivity.
Defined.

(** Classification asked with the token of the linear model. *)
Lemma trainModel_unmatched_witness :
  exists r,
    MLModels.trainModel (fun _ _ _ => tt) (fun _ _ _ _ => JS.Throw "no estimator")
      0%Z 0%Z Examples.tenRows Examples.tenLabels DataProcessor.classification "linear"
      = JS.Return r /\
    MLModels.model r = ""%string /\ MLModels.predictions r = [].
Proof.
  destruct (@trainModel_unmatched unit (fun _ _ _ => tt)
              (fun _ _ _ _ => JS.Throw "no estimator") 0%Z 0%Z
              Examples.tenRows Examples.tenLabels DataProcessor.classification "linear")
    as (r & Hr & Hm & Hp & _).
  - simpl. repeat split; discriminate.
  - exists r. auto.
Defined.

(** ** Claims about the decision tree's most frequent label *)

Section Precedence.
Import Notions.

Lemma precedes_app (l1 l2 : list Z) (w v : Z) :
  precedes (l1 ++ l2) w v ->
  precedes l1 w v \/ (In w l1 /\ In v l2) \/ precedes l2 w v.
Proof.
  revert l2. induction l1 as [|a l1 IH]; intros l2 (p & q & r & H); simpl in *.
  - right. right. now exists p, q, r.
  - destruct p as [|b p]; simpl in H; injection H as Hab H; subst a.
    + assert (Hv : In v (l1 ++ l2)) by (rewrite H, in_app_iff; simpl; auto).
      apply in_app_iff in Hv as [Hv|Hv].
      * left. apply in_split in Hv as (q' & r' & ->). now exists [], q', r'.
      * right. left. auto.
    + destruct (IH l2) as [(p' & q' & r' & ->)|[[Hw Hv]|Hp]].
      * now exists p, q, r.
      * left. now exists (b :: p'), q', r'.
      * right. left. auto.
      * right. right. exact Hp.
Qed.

Lemma precedes_filter (p : Z -> bool) (l : list Z) (w v : Z) :
  precedes (filter p l) w v -> precedes l w v.
Proof.
  induction l as [|a l IH]; simpl.
  - intros (x & y & z & H). now destruct x.
  - destruct (p a).
    + intros (x & y & z & H). destruct x as [|b x]; simpl in H;
        injection H as Hab H; subst a.
      * assert (Hv : In v (filter p l)) by (rewrite H, in_app_iff; simpl; auto).
        apply filter_In in Hv as [Hv _].
        apply in_split in Hv as (y' & z' & ->). now exists [], y', z'.
      * destruct IH as (x' & y' & z' & ->); [now exists x, y, z|].
        now exists (b :: x'), y', z'.
    + intros H. destruct (IH H) as (x' & y' & z' & ->).
      now exists (a :: x'), y', z'.
Qed.

Lemma precedes_in (l : list Z) (w v : Z) :
  precedes l w v -> In w l /\ In v l.
Proof.
  intros (x & y & z & ->). split.
  - apply in_elt.
  - apply in_or_app. right. right. apply in_elt.
Qed.

End Precedence.

Section KeyOrder.
Import JS MLModels Notions.

Lemma insert_index_in (k x : Z) (l : list Z) :
  In x (insert_index k l) <-> x = k \/ In x l.
Proof.
  induction l as [|a l IH]; simpl.
  - intuition.
  - destruct (k <=? a)%Z; simpl; rewrite ?IH; intuition.
Qed.

Lemma ascending_in (l : list Z) (x : Z) : In x (ascending l) <-> In x l.
Proof.
  induction l as [|a l IH]; simpl; [tauto|].
  rewrite insert_index_in, IH. intuition.
Qed.

Lemma insert_index_sorted (k : Z) (l : list Z) :
  StronglySorted Z.le l -> StronglySorted Z.le (insert_index k l).
Proof.
  induction 1 as [|a l Hl IH Ha]; simpl.
  - constructor; constructor.
  - destruct (k <=? a)%Z eqn:E.
    + apply Z.leb_le in E. constructor; [now constructor|].
      constructor; [exact E|].
      rewrite Forall_forall in *. intros x Hx. specialize (Ha x Hx). lia.
    + apply Z.leb_gt in E. constructor; [exact IH|].
      rewrite Forall_forall in *. intros x Hx.
      apply insert_index_in in Hx as [->|Hx]; [lia | auto].
Qed.

Lemma ascending_sorted (l : list Z) : StronglySorted Z.le (ascending l).
Proof.
  induction l as [|a l IH]; simpl; [constructor | now apply insert_index_sorted].
Qed.

Lemma sorted_precedes (l : list Z) (w v : Z) :
  StronglySorted Z.le l -> precedes l w v -> (w <= v)%Z.
Proof.
  intros Hs (x & y & z & ->).
  induction x as [|a x IH]; simpl in Hs.
  - apply StronglySorted_inv in Hs as [_ Hall].
    rewrite Forall_forall in Hall. apply Hall.
    rewrite in_app_iff. simpl. auto.
  - apply StronglySorted_inv in Hs as [Hs _]. auto.
Qed.

(** Where a key stands in [Object.keys]: behind every smaller array index;
    and, when it is no array index, behind every array index and every
    other key inserted before it. *)
Lemma Object_keys_precedes (counts : Counts) (w v : Z) :
  w <> v ->
  precedes (Object_keys counts) w v ->
  (isArrayIndex v = true -> isArrayIndex w = true /\ (w < v)%Z) /\
  (isArrayIndex v = false ->
     isArrayIndex w = true \/ precedes (map fst counts) w v).
Proof.
  intros Hne H. unfold Object_keys in H.
  apply precedes_app in H as [H|[[Hw Hv]|H]].
  - pose proof (sorted_precedes (ascending_sorted _) H) as Hle.
    apply precedes_in in H as [Hw Hv].
    apply ascending_in, filter_In in Hw as [_ Hw].
    apply ascending_in, filter_In in Hv as [_ Hv].
    split; intros E; [split; [exact Hw | lia] | congruence].
  - apply ascending_in, filter_In in Hw as [_ Hw].
    apply filter_In in Hv as [_ Hv]. apply negb_true_iff in Hv.
    split; intros E; [congruence | auto].
  - pose proof (precedes_in H) as [_ Hv].
    apply filter_In in Hv as [_ Hv]. apply negb_true_iff in Hv.
    split; intros E; [congruence|].
    right. exact (precedes_filter _ _ H).
Qed.

Lemma Object_keys_in (counts : Counts) (k : Z) :
  In k (Object_keys counts) <-> In k (map fst counts).
Proof.
  unfold Object_keys. rewrite in_app_iff, ascending_in, !filter_In.
  destruct (isArrayIndex k); simpl; intuition congruence.
Qed.

End KeyOrder.

Section Counting.
Import JS MLModels Notions.

Lemma Set_add_spec (s : list Z) (a : Z) :
  (In a s /\ Set_add Z.eqb s a = s) \/ (~ In a s /\ Set_add Z.eqb s a = s ++ [a]).
Proof.
  induction s as [|b s IH]; simpl.
  - right. auto.
  - destruct (Z.eqb_spec b a) as [->|Hne].
    + left. auto.
    + destruct IH as [[Hin ->]|[Hout ->]]; [left | right]; intuition.
Qed.

Lemma count_set_keys (counts : Counts) (k : Z) (c : nat) :
  map fst (count_set counts k c) = Set_add Z.eqb (map fst counts) k.
Proof.
  induction counts as [|[k' c'] t IH]; simpl; [reflexivity|].
  destruct (k' =? k)%Z; simpl; [reflexivity | now rewrite IH].
Qed.

Lemma count_all_keys_from (y : list Z) (counts : Counts) :
  map fst (fold_left count_one y counts)
  = fold_left (Set_add Z.eqb) y (map fst counts).
Proof.
  revert counts. induction y as [|a y IH]; intros counts; simpl; [reflexivity|].
  rewrite IH. unfold count_one. now rewrite count_set_keys.
Qed.

(** The keys of the table are the distinct labels, in order of first
    occurrence. *)
Lemma count_all_keys (y : list Z) :
  map fst (count_all y) = Set_of Z.eqb y.
Proof. apply (count_all_keys_from y []). Qed.

Lemma count_get_set (counts : Counts) (k k' : Z) (c : nat) :
  count_get (count_set counts k c) k' =
  if (k =? k')%Z then Some c else count_get counts k'.
Proof.
  induction counts as [|[k0 c0] t IH]; simpl.
  - reflexivity.
  - destruct (Z.eqb_spec k0 k) as [->|Hne]; simpl.
    + destruct (k =? k')%Z; reflexivity.
    + rewrite IH. destruct (Z.eqb_spec k0 k') as [->|Hne'].
      * destruct (Z.eqb_spec k k'); [congruence | reflexivity].
      * reflexivity.
Qed.

Lemma countOf_from (y : list Z) (counts : Counts) (k : Z) :
  countOf (fold_left count_one y counts) k = countOf counts k + occurrences y k.
Proof.
  revert counts. induction y as [|a y IH]; intros counts; simpl.
  - unfold occurrences. simpl. lia.
  - rewrite IH. unfold occurrences. simpl.
    unfold countOf at 1, count_one. rewrite count_get_set.
    destruct (Z.eq_dec a k) as [->|Hne].
    + rewrite Z.eqb_refl. unfold countOf. lia.
    + destruct (Z.eqb_spec a k); [contradiction|]. unfold countOf. lia.
Qed.

(** The count of a key is the number of occurrences of the label. *)
Lemma countOf_all (y : list Z) (k : Z) :
  countOf (count_all y) k = occurrences y k.
Proof. unfold count_all. now rewrite countOf_from. Qed.

Lemma Set_of_from_in (y s : list Z) (x : Z) :
  In x (fold_left (Set_add Z.eqb) y s) <-> In x s \/ In x y.
Proof.
  revert s. induction y as [|a y IH]; intros s; simpl; [tauto|].
  rewrite IH.
  destruct (Set_add_spec s a) as [[Hin ->]|[Hout ->]].
  - intuition. subst. auto.
  - rewrite in_app_iff. simpl. intuition.
Qed.

Lemma Set_of_in (y : list Z) (x : Z) : In x (Set_of Z.eqb y) <-> In x y.
Proof. unfold Set_of. rewrite Set_of_from_in. simpl. tauto. Qed.

Lemma Set_of_from_precedes (y s : list Z) (w v : Z) :
  precedes (fold_left (Set_add Z.eqb) y s) w v ->
  precedes s w v \/ (In w s /\ ~ In v s) \/
  (~ In w s /\ ~ In v s /\ occursBefore y w v).
Proof.
  revert s. induction y as [|a y IH]; intros s; simpl; [auto|].
  intros H. apply IH in H.
  destruct (Set_add_spec s a) as [[Hin E]|[Hout E]]; rewrite E in H; clear E.
  - destruct H as [H|[H|(Hw & Hv & l1 & l2 & -> & Hl1)]]; auto.
    right. right. split; [exact Hw|]. split; [exact Hv|].
    exists (a :: l1), l2. split; [reflexivity|].
    simpl. intros [->|F]; auto.
  - destruct H as [H|[[Hw Hv]|(Hw & Hv & l1 & l2 & -> & Hl1)]].
    + apply precedes_app in H as [H|[[Hw Hv]|H]]; auto.
      * simpl in Hv. destruct Hv as [<-|[]]. auto.
      * destruct H as (x & y0 & z & H).
        apply (f_equal (@length Z)) in H.
        rewrite length_app in H. simpl in H. rewrite length_app in H. simpl in H. lia.
    + rewrite in_app_iff in Hw, Hv. simpl in Hw, Hv.
      destruct Hw as [Hw|[<-|[]]]; [right; left; tauto|].
      right. right. split; [exact Hout|]. split; [tauto|].
      exists [], y. split; [reflexivity | simpl; tauto].
    + rewrite in_app_iff in Hw, Hv. simpl in Hw, Hv.
      right. right. split; [tauto|]. split; [tauto|].
      exists (a :: l1), l2. split; [reflexivity|].
      simpl. intros [->|F]; tauto.
Qed.

(** A key stands before another in the table when its label occurs first. *)
Lemma count_all_precedes (y : list Z) (w v : Z) :
  precedes (map fst (count_all y)) w v -> occursBefore y w v.
Proof.
  rewrite count_all_keys. unfold Set_of. intros H.
  apply Set_of_from_precedes in H as [(x & ? & ? & H)|[[[] _]|(_ & _ & H)]].
  - now destruct x.
  - exact H.
Qed.

(** What [reduce] with [moreCommon] leaves: a key such that no key before it
    has a greater count, and every key after it has a smaller one. *)
Lemma reduce_moreCommon (counts : Counts) (t pre mid : list Z) (k : Z) :
  (forall w, In w pre -> countOf counts w <= countOf counts k) ->
  (forall w, In w mid -> countOf counts w < countOf counts k) ->
  exists l1 l2,
    pre ++ k :: mid ++ t = l1 ++ fold_left (moreCommon counts) t k :: l2 /\
    (forall w, In w l1 -> countOf counts w <= countOf counts (fold_left (moreCommon counts) t k)) /\
    (forall w, In w l2 -> countOf counts w < countOf counts (fold_left (moreCommon counts) t k)).
Proof.
  revert pre mid k. induction t as [|b t IH]; intros pre mid k Hpre Hmid; simpl.
  - exists pre, mid. rewrite app_nil_r. auto.
  - unfold moreCommon at 2 4 6.
    destruct (countOf counts b <? countOf counts k) eqn:E.
    + apply Nat.ltb_lt in E.
      destruct (IH pre (mid ++ [b]) k Hpre) as (l1 & l2 & H & H1 & H2).
      { intros w Hw. apply in_app_iff in Hw as [Hw|[<-|[]]]; auto. }
      exists l1, l2. rewrite <- app_assoc in H. simpl in H. auto.
    + apply Nat.ltb_ge in E.
      destruct (IH (pre ++ k :: mid) [] b) as (l1 & l2 & H & H1 & H2).
      { intros w Hw. apply in_app_iff in Hw as [Hw|[<-|Hw]].
        - specialize (Hpre w Hw). lia.
        - exact E.
        - specialize (Hmid w Hw). lia. }
      { intros w []. }
      exists l1, l2. rewrite <- app_assoc in H. simpl in H. auto.
Qed.

End Counting.

Section MostCommonClaims.
Import JS MLModels Notions.

(** C6, counterexample. In [0, 1] both labels occur once and 0 is met first,
    yet 1 is returned. *)
Lemma getMostCommonValue_tie_counterexample :
  occurrences [0; 1]%Z 0 = occurrences [0; 1]%Z 1 /\
  getMostCommonValue [0; 1]%Z = Return 1%Z /\
  getMostCommonValue [0; 1]%Z <> Return 0%Z.
Proof.
  split; [reflexivity|]. split; [reflexivity|].
  vm_compute. discriminate.
Qed.

(** Beyond the array indices the key order is the order of first occurrence:
    of these two labels, which occur once each, the later and smaller one is
    returned. *)
Example getMostCommonValue_beyond_indices :
  isArrayIndex 4294967295 = false /\
  getMostCommonValue [4294967296; 4294967295]%Z = Return 4294967295%Z.
Proof. split; vm_compute; reflexivity. Qed.

(** C6, amended. For a non-empty list the returned label occurs in it and no
    label occurs more often; among the labels that share the maximum count
    it is the last one in the key order of the count table: array indices
    (0 to 2^32 - 2) in ascending numeric order first, then the other labels in
    order of first occurrence. So when the returned label is an array index
    it is the largest label with the maximum count, and otherwise every
    other label with that count is an array index or occurs first. *)
Theorem getMostCommonValue_spec (y : list number) :
  y <> [] ->
  exists v,
    getMostCommonValue y = Return v /\ In v y /\
    (forall w, occurrences y w <= occurrences y v) /\
    (forall w, w <> v -> occurrences y w = occurrences y v ->
       precedes (Object_keys (count_all y)) w v /\
       (isArrayIndex v = true -> isArrayIndex w = true /\ (w < v)%Z) /\
       (isArrayIndex v = false -> isArrayIndex w = true \/ occursBefore y w v)).
Proof.
  intros Hy. unfold getMostCommonValue.
  assert (Hkeys : forall k, In k (Object_keys (count_all y)) <-> In k y).
  { intros k. now rewrite Object_keys_in, count_all_keys, Set_of_in. }
  destruct (Object_keys (count_all y)) as [|k t] eqn:Ek.
  { destruct y as [|a y]; [congruence|].
    destruct (proj2 (Hkeys a)). now left. }
  simpl. set (r := fold_left (moreCommon (count_all y)) t k).
  destruct (@reduce_moreCommon (count_all y) t [] [] k) as (l1 & l2 & Hsplit & H1 & H2);
    try (intros w []).
  fold r in Hsplit, H1, H2. simpl in Hsplit.
  assert (Hr : In r y).
  { apply Hkeys. rewrite Hsplit, in_app_iff. simpl. auto. }
  assert (Hocc : forall w, In w y ->
            (w = r \/ (In w l1 /\ occurrences y w <= occurrences y r)
             \/ occurrences y w < occurrences y r)).
  { intros w Hw. apply Hkeys in Hw. rewrite Hsplit, in_app_iff in Hw. simpl in Hw.
    rewrite <- !countOf_all.
    destruct Hw as [Hw|[Hw|Hw]].
    - right. left. split; [exact Hw | now apply H1].
    - left. now symmetry.
    - right. right. now apply H2. }
  exists r. split; [reflexivity|]. split; [exact Hr|]. split.
  - intros w. destruct (in_dec Z.eq_dec w y) as [Hw|Hw].
    + destruct (Hocc w Hw) as [->|[[_ H]|H]]; lia.
    + unfold occurrences at 1. rewrite (proj1 (count_occ_not_In Z.eq_dec y w) Hw). lia.
  - intros w Hne Htie.
    assert (Hw : In w y).
    { apply (count_occ_In Z.eq_dec). fold (occurrences y w). rewrite Htie.
      apply (count_occ_In Z.eq_dec). exact Hr. }
    assert (Hp : precedes (k :: t) w r).
    { destruct (Hocc w Hw) as [->|[[Hin _]|H]]; [congruence | | lia].
      apply in_split in Hin as (a & b & ->).
      exists a, b, l2. rewrite Hsplit, <- app_assoc. reflexivity. }
    pose proof Hp as Hp'. rewrite <- Ek in Hp'.
    destruct (Object_keys_precedes (count_all y) Hne Hp') as [Hidx Hother].
    split; [exact Hp|]. split; [exact Hidx|].
    intros E. destruct (Hother E) as [H|H]; [now left|].
    right. now apply count_all_precedes.
Qed.

(** Three labels, the first and the last tied. *)
Lemma getMostCommonValue_spec_witness :
  exists v, getMostCommonValue [2; 7; 2; 7; 5]%Z = Return v /\ In v [2; 7; 2; 7; 5]%Z.
Proof.
  destruct (@getMostCommonValue_spec [2; 7; 2; 7; 5]%Z) as (v & Hv & Hin & _).
  - discriminate.
  - exists v. split; assumption.
Defined.

(** The tie-break at work: the larger array index wins whatever the order of
    insertion, and of two negative labels the one met last. *)
Example getMostCommonValue_ties :
  getMostCommonValue [1; 0]%Z = Return 1%Z /\
  getMostCommonValue [2; 7; 2; 7; 5]%Z = Return 7%Z /\
  getMostCommonValue [-1; -2]%Z = Return (-2)%Z /\
  getMostCommonValue [-2; -1; 5; 5; -1; -2]%Z = Return (-1)%Z /\
  getMostCommonValue [] = Throw "TypeError: Reduce of empty array with no initial value".
Proof. repeat split. Qed.

End MostCommonClaims.

(** ** Claims about the confusion matrix *)

Section MatrixFacts.
Import JS MLModels.

Lemma Set_of_from_NoDup (y s : list Z) :
  NoDup s -> NoDup (fold_left (Set_add Z.eqb) y s).
Proof.
  revert s. induction y as [|a y IH]; intros s Hs; simpl; [exact Hs|].
  apply IH. destruct (Set_add_spec s a) as [[_ ->]|[Hout ->]]; [exact Hs|].
  apply NoDup_app; [exact Hs | repeat constructor; simpl; tauto |].
  intros x Hx [<-|[]]. contradiction.
Qed.

Lemma uniqueClasses_NoDup (actual predicted : list Z) :
  NoDup (uniqueClasses actual predicted).
Proof.
  unfold uniqueClasses.
  apply (Permutation_NoDup (l := Set_of Z.eqb (actual ++ predicted))).
  - symmetry. apply sort_by_perm.
  - apply Set_of_from_NoDup. constructor.
Qed.

Lemma uniqueClasses_in (actual predicted : list Z) (x : Z) :
  In x (uniqueClasses actual predicted) <-> In x actual \/ In x predicted.
Proof.
  unfold uniqueClasses.
  transitivity (In x (Set_of Z.eqb (actual ++ predicted))).
  - split.
    + apply Permutation_in, sort_by_perm.
    + apply Permutation_in. symmetry. apply sort_by_perm.
  - now rewrite Set_of_in, in_app_iff.
Qed.

Lemma indexOf_in (classes : list Z) (x : Z) :
  In x classes ->
  exists i, indexOf Z.eqb classes x = Some i /\ nth_error classes i = Some x.
Proof.
  induction classes as [|c classes IH]; simpl; [tauto|].
  intros H. destruct (Z.eqb_spec c x) as [->|Hne].
  - now exists 0.
  - destruct IH as (i & -> & Hi); [tauto|]. now exists (S i).
Qed.

(** An update at the place of [x] in a list without repetition. *)
Lemma update_map (B : Type) (classes : list Z) (i : nat) (x : Z)
    (f : B -> B) (h : Z -> B) :
  NoDup classes -> nth_error classes i = Some x ->
  update i f (map h classes)
  = map (fun a => if (a =? x)%Z then f (h a) else h a) classes.
Proof.
  revert i. induction classes as [|c classes IH]; intros i Hnd Hi.
  - now destruct i.
  - apply NoDup_cons_iff in Hnd as [Hc Hnd].
    destruct i as [|i]; simpl in *.
    + injection Hi as ->. rewrite Z.eqb_refl. f_equal.
      apply map_ext_in. intros a Ha.
      destruct (Z.eqb_spec a x) as [->|]; [contradiction | reflexivity].
    + rewrite (IH i Hnd Hi).
      destruct (Z.eqb_spec c x) as [->|]; [|reflexivity].
      apply nth_error_In in Hi. contradiction.
Qed.

Lemma skipn_nth_error (B : Type) (l : list B) (i : nat) (y : B) :
  nth_error l i = Some y -> skipn i l = y :: skipn (S i) l.
Proof.
  revert i. induction l as [|b l IH]; intros [|i]; simpl; try discriminate.
  - now intros [= ->].
  - intros H. now rewrite (IH i H).
Qed.

End MatrixFacts.

Section ConfusionClaims.
Import JS MLModels.

(** C5, where the code departs from the claim. With the labels 2 and 10 the
    code orders the classes as their strings do, 10 before 2, so its rows and
    columns are those of 10 and then 2; in ascending numeric order, 2 comes
    first and the matrix is another one. *)
Theorem calculateConfusionMatrix_string_order :
  uniqueClasses [2; 2; 10]%Z [2; 10; 10]%Z = [10; 2]%Z /\
  Spec.sortedLabels [2; 2; 10]%Z [2; 10; 10]%Z = [2; 10]%Z /\
  calculateConfusionMatrix [2; 2; 10]%Z [2; 10; 10]%Z = [[1; 0]; [1; 1]] /\
  Spec.matrixOver (Spec.sortedLabels [2; 2; 10]%Z [2; 10; 10]%Z)
    [2; 2; 10]%Z [2; 10; 10]%Z = [[1; 1]; [0; 1]] /\
  calculateConfusionMatrix [2; 2; 10]%Z [2; 10; 10]%Z <>
  Spec.matrixOver (Spec.sortedLabels [2; 2; 10]%Z [2; 10; 10]%Z)
    [2; 2; 10]%Z [2; 10; 10]%Z.
Proof.
  repeat split; try (vm_compute; reflexivity).
  vm_compute. discriminate.
Qed.

(** The classes are in the order of their strings. *)
Lemma default_compare_antisym (x y : Z) :
  (0 <? default_compare x y)%float = true ->
  (0 <? default_compare y x)%float = false.
Proof.
  unfold default_compare.
  destruct (String.ltb (Number_toString x) (Number_toString y)) eqn:E1;
    [discriminate|].
  destruct (String.ltb (Number_toString y) (Number_toString x)) eqn:E2;
    [reflexivity | discriminate].
Qed.

Lemma uniqueClasses_sorted (actual predicted : list Z) :
  Sorted (inOrder default_compare) (uniqueClasses actual predicted).
Proof. apply sort_by_sorted, default_compare_antisym. Qed.

(** What the code computes on aligned vectors: entry [i][j] counts the
    positions where the actual value is the i-th class and the predicted
    value the j-th class, the classes being in the order of their strings. *)
Lemma calculateConfusionMatrix_counts (actual predicted : list Z) :
  length predicted = length actual ->
  calculateConfusionMatrix actual predicted
  = Spec.matrixOver (uniqueClasses actual predicted) actual predicted.
Proof.
  intros Hlen. unfold calculateConfusionMatrix, Spec.matrixOver.
  set (classes := uniqueClasses actual predicted).
  pose proof (uniqueClasses_NoDup actual predicted) as Hnd. fold classes in Hnd.
  assert (Hin : forall x, In x actual \/ In x predicted -> In x classes)
    by (intros x; apply uniqueClasses_in).
  assert (Hzero : repeat (repeat 0 (length classes)) (length classes)
                  = map (fun a => map (fun p => 0) classes) classes).
  { assert (H : forall (B : Type) (b : B) (l : list Z),
                  repeat b (length l) = map (fun _ => b) l)
      by (induction l as [|? ? IH]; simpl; [|rewrite IH]; reflexivity).
    now rewrite !H. }
  rewrite Hzero.
  assert (Hgen : forall todo done g,
    actual = done ++ todo ->
    fold_left (tally classes predicted)
      (combine (seq (length done) (length todo)) todo)
      (map (fun a => map (fun p => g a p) classes) classes)
    = map (fun a => map (fun p =>
             g a p + Spec.countPairs a p todo (skipn (length done) predicted))
           classes) classes).
  { induction todo as [|x todo IH]; intros done g Hsplit.
    - simpl. apply map_ext. intros a. apply map_ext. intros p.
      unfold Spec.countPairs. simpl. lia.
    - assert (Hi : length done < length predicted).
      { rewrite Hlen, Hsplit, length_app. simpl. lia. }
      destruct (nth_error predicted (length done)) as [y|] eqn:Ey;
        [|apply nth_error_None in Ey; lia].
      assert (Hskip : skipn (length done) predicted
                      = y :: skipn (S (length done)) predicted).
      { now apply skipn_nth_error. }
      destruct (indexOf_in classes x) as (i & Hix & Hnx).
      { apply Hin. left. rewrite Hsplit, in_app_iff. simpl. auto. }
      destruct (indexOf_in classes y) as (j & Hjy & Hny).
      { apply Hin. right. eapply nth_error_In, Ey. }
      cbn [length seq combine fold_left]. unfold tally at 2.
      rewrite Ey, Hix, Hjy.
      rewrite (@update_map _ classes i x _ _ Hnd Hnx).
      assert (Hrow : forall a,
        (if (a =? x)%Z
         then update j S (map (fun p => g a p) classes)
         else map (fun p => g a p) classes)
        = map (fun p => (if (a =? x)%Z && (p =? y)%Z then S (g a p) else g a p))
              classes).
      { intros a. destruct (a =? x)%Z; simpl; [|reflexivity].
        now rewrite (@update_map _ classes j y _ _ Hnd Hny). }
      rewrite (map_ext _ _ Hrow).
      replace (S (length done)) with (length (done ++ [x]))
        by (rewrite length_app; simpl; lia).
      rewrite (IH (done ++ [x])) by (rewrite <- app_assoc; exact Hsplit).
      replace (length (done ++ [x])) with (S (length done))
        by (rewrite length_app; simpl; lia).
      apply map_ext. intros a. apply map_ext. intros p.
      rewrite Hskip. unfold Spec.countPairs. simpl.
      rewrite (Z.eqb_sym x a), (Z.eqb_sym y p).
      destruct ((a =? x)%Z && (p =? y)%Z); simpl; lia. }
  exact (Hgen actual [] (fun _ _ => 0) eq_refl).
Qed.

(** The example of the specification, where the string order and the numeric
    order agree. *)
Example calculateConfusionMatrix_example :
  uniqueClasses [0; 1; 0; 1]%Z [0; 1; 1; 1]%Z = [0; 1]%Z /\
  calculateConfusionMatrix [0; 1; 0; 1]%Z [0; 1; 1; 1]%Z = [[1; 1]; [0; 2]].
Proof. split; vm_compute; reflexivity. Qed.

(** Negative labels are out of numeric order too. *)
Example uniqueClasses_negative :
  uniqueClasses [-2; -1]%Z [-1; -2]%Z = [-1; -2]%Z.
Proof. vm_compute. reflexivity. Qed.

End ConfusionClaims.

(** ** Claims about the summary statistics *)

Section StatisticsClaims.
Import JS DataProcessor Notions.

Lemma describe_fold (data : list DataPoint) (cols : list string)
    (acc : list (string * Statistics)) (col : string) (st : Statistics) :
  get (fold_left (describeColumn data) cols acc) col = Some st ->
  get acc col = Some st \/
  (In col cols /\ 0 < length (numbersOf data col) /\
   exists before, st = describe before col (sort_numbers (numbersOf data col))).
Proof.
  revert acc. induction cols as [|c cols IH]; intros acc; simpl; [auto|].
  intros H. apply IH in H as [H|(Hin & Hlen & before & ->)].
  - unfold describeColumn in H.
    destruct (0 <? length (numbersOf data c)) eqn:E; [|auto].
    destruct (string_dec c col) as [->|Hne].
    + rewrite get_set_same in H. injection H as <-.
      apply Nat.ltb_lt in E. right. eauto.
    + rewrite get_set_other in H by exact Hne. auto.
  - right. eauto.
Qed.

Lemma statistics_inv (data : list DataPoint) (r : DataAnalysis) (col : string)
    (st : Statistics) :
  analyzeData data = Return r ->
  get (statistics r) col = Some st ->
  In col (numericalColumns r) /\ 0 < length (numbersOf data col) /\
  exists before, st = describe before col (sort_numbers (numbersOf data col)).
Proof.
  intros Hr Hst.
  destruct (analyzeData_inv data Hr) as (row0 & rest & _ & _ & _ & _ & Hn & _ & Hs).
  rewrite Hs in Hst. apply describe_fold in Hst as [H|H]; [discriminate|].
  now rewrite Hn.
Qed.

Lemma numbersOf_noBlank (data : list DataPoint) (col : string) :
  noBlankCell data col ->
  numbersOf data col =
  filter (fun x => negb (isNaN x)) (map Number (nonNullValues data col)).
Proof.
  unfold noBlankCell, numbersOf, nonNullValues, columnValues.
  induction data as [|row data IH]; simpl; intros H; [reflexivity|].
  rewrite IH by (intros v Hv; apply H; auto).
  destruct (H (cell row col)) as [H1 H2]; [now left|].
  destruct (cell row col) as [f|[|a s]|b| |]; simpl; try reflexivity; congruence.
Qed.

(** C2, counterexample. Of the four values 1, 2, 3, 4 the reported median is
    3, the upper of the two middle values; the lower one is 2. *)
Lemma analyzeData_median_counterexample :
  exists r st,
    analyzeData (Examples.column "a" (Examples.numbers [4; 1; 3; 2]%Z)) = Return r /\
    get (statistics r) "a" = Some st /\
    sort_numbers (numbersOf (Examples.column "a" (Examples.numbers [4; 1; 3; 2]%Z)) "a")
      = [1; 2; 3; 4]%float /\
    median st = 3%float /\
    Spec.lowerMiddle [1; 2; 3; 4]%float = 2%float /\
    median st <> Spec.lowerMiddle [1; 2; 3; 4]%float.
Proof.
  eexists. eexists. split; [reflexivity|]. split; [vm_compute; reflexivity|].
  repeat split; try (vm_compute; reflexivity).
  intros H. apply (f_equal (fun x => PrimFloat.eqb x 2)) in H.
  vm_compute in H. discriminate.
Qed.

(** C2, amended. The statistics of a column are computed on the numbers the
    profiler collects for it, [Number(cell)] of every cell for which that is
    not [NaN] (for a column without [null] or [''] cells: the non-missing
    values that convert to a number), sorted with [(a, b) => a - b]. The
    reported median is the element at index floor(n / 2) of the sorted
    values: for odd n the middle element, with as many values before it as
    after it; for even n the upper-middle element, with one value more
    before it than after it (not the lower-middle one, and not the average
    of the two). *)
Theorem analyzeData_median (data : list DataPoint) (r : DataAnalysis)
    (col : string) (st : Statistics) :
  analyzeData data = Return r ->
  get (statistics r) col = Some st ->
  let sorted := sort_numbers (numbersOf data col) in
  let n := length sorted in
  0 < n /\
  Permutation sorted (numbersOf data col) /\
  Sorted (inOrder compare_numbers) sorted /\
  (noBlankCell data col ->
     numbersOf data col =
     filter (fun x => negb (isNaN x)) (map Number (nonNullValues data col))) /\
  median st = nth (n / 2) sorted nan /\
  exists before after,
    sorted = before ++ median st :: after /\
    length before = n / 2 /\
    (Nat.even n = true -> length before = S (length after)) /\
    (Nat.odd n = true -> length before = length after).
Proof.
  intros Hr Hst sorted n.
  destruct (statistics_inv data col Hr Hst) as (_ & Hlen & before & ->).
  assert (Hn : n = length (numbersOf data col)) by apply sort_by_length.
  assert (Hpos : 0 < n) by lia.
  split; [exact Hpos|]. split; [apply sort_by_perm|].
  split; [apply sort_by_sorted, compare_numbers_antisym|].
  split; [apply numbersOf_noBlank|].
  split; [reflexivity|].
  unfold describe. cbn [median]. fold sorted. fold n.
  assert (Hhalf : n / 2 < n) by (apply Nat.div_lt; lia).
  destruct (nth_split sorted nan Hhalf) as (l1 & l2 & Hsplit & Hl1).
  exists l1, l2. split; [exact Hsplit|]. split; [exact Hl1|].
  assert (Hl2 : n = length l1 + S (length l2)).
  { unfold n at 1. rewrite Hsplit at 1. rewrite length_app. reflexivity. }
  split; intros Hparity.
  - apply Nat.even_spec in Hparity as [k Hk].
    rewrite Hk, Nat.mul_comm, Nat.div_mul in Hl1 by lia. lia.
  - apply Nat.odd_spec in Hparity as [k Hk].
    assert (n / 2 = k).
    { rewrite Hk, Nat.mul_comm, Nat.div_add_l by lia. simpl. lia. }
    lia.
Qed.

(** Five values, with a text cell among them. *)
Lemma analyzeData_median_witness :
  exists st,
    median st = 5%float /\
    sort_numbers (numbersOf (Examples.column "a"
      (VString "n/a" :: Examples.numbers [9; 5; 7; 1; 3]%Z)) "a") = [1; 3; 5; 7; 9]%float.
Proof.
  eexists.
  pose proof (@analyzeData_median
    (Examples.column "a" (VString "n/a" :: Examples.numbers [9; 5; 7; 1; 3]%Z))
    _ "a" _ eq_refl eq_refl) as H.
  cbv zeta in H. destruct H as (_ & _ & _ & _ & Hm & _).
  split; [exact Hm | vm_compute; reflexivity].
Defined.

Lemma classify_numerical_filter (data : list DataPoint) (cols : list string)
    (acc : Typing) :
  t_numericalColumns (fold_left (classifyColumn data) cols acc)
  = t_numericalColumns acc ++ filter (isNumerical data) cols.
Proof.
  revert acc. induction cols as [|c cols IH]; intros acc; simpl.
  - now rewrite app_nil_r.
  - rewrite IH. unfold classifyColumn.
    destruct (isNumerical data c); simpl; [now rewrite <- app_assoc | reflexivity].
Qed.

Lemma describe_fold_fresh (data : list DataPoint) (cols : list string)
    (acc : list (string * Statistics)) (col : string) (st : Statistics) :
  NoDup cols ->
  (forall c, In c cols -> get acc c = None) ->
  get (fold_left (describeColumn data) cols acc) col = Some st ->
  get acc col = Some st \/
  exists before, get before col = None /\
    st = describe before col (sort_numbers (numbersOf data col)).
Proof.
  revert acc. induction cols as [|c cols IH]; intros acc Hnd Hfresh; simpl; [auto|].
  apply NoDup_cons_iff in Hnd as [Hc Hnd].
  intros H. apply IH in H as [H|H]; [ | now right | exact Hnd | ].
  - unfold describeColumn in H.
    destruct (0 <? length (numbersOf data c)); [|auto].
    destruct (string_dec c col) as [->|Hne].
    + rewrite get_set_same in H. injection H as <-.
      right. exists acc. split; [apply Hfresh; now left | reflexivity].
    + rewrite get_set_other in H by exact Hne. auto.
  - intros c' Hc'. unfold describeColumn.
    destruct (0 <? length (numbersOf data c)); [|apply Hfresh; now right].
    rewrite get_set_other by (intros ->; contradiction).
    apply Hfresh. now right.
Qed.

(** The sum under the root: every term is [Math.pow(0, 2)], because the
    record of the column does not exist yet when its [std] is computed, so
    that [val - undefined] is [NaN] and [NaN || 0] is 0. *)
Lemma describe_std (before : list (string * Statistics)) (col : string)
    (sorted : list float) :
  get before col = None ->
  std (describe before col sorted)
  = PrimFloat.sqrt (0 / float_of_nat (length sorted))%float.
Proof.
  intros Hnone. unfold describe. cbn [std]. unfold meanSoFar. rewrite Hnone.
  f_equal. f_equal.
  assert (H : forall l, fold_left
            (fun sum val => (sum + pow2 (or_zero (val - Number VUndefined)))%float)
            l 0%float = 0%float).
  { induction l as [|x l IH]; simpl; [reflexivity|].
    rewrite sub_nan_r. exact IH. }
  apply H.
Qed.

(** In binary64 the root of 0 over a length from 1 to 1000 is 0. *)
Lemma sqrt_zero_over_length :
  forallb (fun n => PrimFloat.Leibniz.eqb
                      (PrimFloat.sqrt (0 / float_of_nat n)) 0)%float
          (seq 1 1000) = true.
Proof. vm_compute. reflexivity. Qed.

(** The standard deviation reported for a column, whatever its values: the
    root of 0 divided by their count. *)
Lemma analyzeData_std (data : list DataPoint) (r : DataAnalysis)
    (col : string) (st : Statistics) :
  NoDup (columns r) ->
  analyzeData data = Return r ->
  get (statistics r) col = Some st ->
  std st = PrimFloat.sqrt (0 / float_of_nat (length (numbersOf data col)))%float.
Proof.
  intros Hnd Hr Hst.
  destruct (analyzeData_inv data Hr) as (row0 & rest & _ & Hc & _ & _ & Hn & _ & Hs).
  rewrite Hs in Hst. rewrite Hc in Hnd.
  apply describe_fold_fresh in Hst as [H|(before & Hnone & ->)].
  - discriminate.
  - rewrite describe_std by exact Hnone. unfold sort_numbers. now rewrite sort_by_length.
  - rewrite classify_numerical_filter. simpl. now apply NoDup_filter.
  - reflexivity.
Qed.

(** C1, where the code departs from the claim. For the two values 1 and 3
    the mean is 2 and the population standard deviation is 1, the root of
    ((1 - 2)^2 + (3 - 2)^2) / 2; the profiler reports 0. *)
Theorem analyzeData_std_of_1_and_3 :
  exists r st,
    analyzeData (Examples.column "a" (Examples.numbers [1; 3]%Z)) = Return r /\
    numericalColumns r = ["a"%string] /\
    get (statistics r) "a" = Some st /\
    mean st = 2%float /\
    std st = 0%float /\
    Spec.populationStd [1; 3]%float = 1%float /\
    std st <> Spec.populationStd [1; 3]%float.
Proof.
  eexists. eexists. split; [reflexivity|].
  split; [vm_compute; reflexivity|]. split; [vm_compute; reflexivity|].
  repeat split; try (vm_compute; reflexivity).
  intros H. apply (f_equal (fun x => PrimFloat.eqb x 1)) in H.
  vm_compute in H. discriminate.
Qed.

End StatisticsClaims.

(** ** The profiler and the arguments of a call *)

Section LimitFacts.
Import JS DataProcessor.

Variable argumentLimit : nat.

(** Within the bound the record is the one of the function without it. *)
Lemma describe_within (statistics : list (string * Statistics)) (col : string)
    (sorted : list float) :
  ArgumentLimit.describe argumentLimit statistics col sorted
  = if argumentLimit <? length sorted then Throw ArgumentLimit.tooManyArguments
    else Return (describe statistics col sorted).
Proof.
  unfold ArgumentLimit.describe, ArgumentLimit.spread.
  destruct (argumentLimit <? length sorted); reflexivity.
Qed.

Lemma describeColumn_within (data : list DataPoint)
    (statistics : list (string * Statistics)) (col : string) :
  ArgumentLimit.describeColumn argumentLimit data statistics col
  = if argumentLimit <? length (numbersOf data col)
    then Throw ArgumentLimit.tooManyArguments
    else Return (describeColumn data statistics col).
Proof.
  unfold ArgumentLimit.describeColumn, describeColumn.
  rewrite describe_within. unfold sort_numbers. rewrite sort_by_length.
  destruct (0 <? length (numbersOf data col)) eqn:E0;
    destruct (argumentLimit <? length (numbersOf data col)) eqn:E1; try reflexivity.
  apply Nat.ltb_lt in E1. apply Nat.ltb_ge in E0. lia.
Qed.

Lemma describeColumns_within (data : list DataPoint) (cols : list string)
    (statistics : list (string * Statistics)) :
  ArgumentLimit.describeColumns argumentLimit data cols statistics
  = if existsb (fun col => argumentLimit <? length (numbersOf data col)) cols
    then Throw ArgumentLimit.tooManyArguments
    else Return (fold_left (describeColumn data) cols statistics).
Proof.
  revert statistics. induction cols as [|col cols IH]; intros statistics; simpl;
    [reflexivity|].
  rewrite describeColumn_within.
  destruct (argumentLimit <? length (numbersOf data col)); simpl; [reflexivity|].
  apply IH.
Qed.

(** The function with the bound against the function without it. *)
Lemma analyzeData_within (data : list DataPoint) :
  ArgumentLimit.analyzeData argumentLimit data
  = match analyzeData data with
    | Throw error => Throw error
    | Return r =>
        if existsb (fun col => argumentLimit <? length (numbersOf data col))
             (numericalColumns r)
        then Throw ArgumentLimit.tooManyArguments
        else Return r
    end.
Proof.
  destruct data as [|row0 rest]; [reflexivity|].
  unfold ArgumentLimit.analyzeData, analyzeData.
  rewrite describeColumns_within. cbn [numericalColumns].
  destruct (existsb _ _); reflexivity.
Qed.

End LimitFacts.

Section LimitExample.
Import JS DataProcessor.

(** A column of one number, repeated. *)
Lemma numbersOf_ones (n : nat) :
  numbersOf (Examples.column "a" (repeat (VNumber 1) n)) "a" = repeat 1%float n.
Proof.
  unfold numbersOf, Examples.column.
  induction n as [|n IH]; [reflexivity|].
  cbn [repeat map]. rewrite <- IH. reflexivity.
Qed.

Lemma numericalValues_ones (n : nat) :
  length (numericalValues (Examples.column "a" (repeat (VNumber 1) n)) "a") = n /\
  length (nonNullValues (Examples.column "a" (repeat (VNumber 1) n)) "a") = n.
Proof.
  unfold numericalValues, nonNullValues, columnValues, Examples.column.
  induction n as [|n [IH1 IH2]]; [split; reflexivity|].
  cbn [repeat map]. split.
  - change (S (length (filter isNumeric (filter notMissing
              (map (fun row => cell row "a")
                 (map (fun v => [("a"%string, v)]) (repeat (VNumber 1) n)))))) = S n).
    now rewrite IH1.
  - change (S (length (filter notMissing
              (map (fun row => cell row "a")
                 (map (fun v => [("a"%string, v)]) (repeat (VNumber 1) n))))) = S n).
    now rewrite IH2.
Qed.

End LimitExample.

Section LimitClaims.
Import JS DataProcessor.

(** C9, where the code departs from the claim. The profiler raises its
    error ("No data to analyze") on the dataset without a row, but not only
    there: [Math.min(...values)] passes every number of a numerical column
    as an argument, and on a column with more numbers than the engine takes
    as arguments of a call the profiler raises a [RangeError], for instance
    on a single column of the number 1 in one row more than that bound. It
    raises nothing else: on a dataset with a row whose numerical columns are
    within the bound it returns the analysis record. *)
Theorem analyzeData_range_error (argumentLimit : nat) :
  ArgumentLimit.analyzeData argumentLimit [] = Throw "No data to analyze" /\
  (Examples.column "a" (repeat (VNumber 1) (S argumentLimit)) <> [] /\
   ArgumentLimit.analyzeData argumentLimit
     (Examples.column "a" (repeat (VNumber 1) (S argumentLimit)))
   = Throw "Maximum call stack size exceeded") /\
  (forall data message,
     ArgumentLimit.analyzeData argumentLimit data = Throw message ->
     (data = [] /\ message = "No data to analyze"%string) \/
     (data <> [] /\ message = "Maximum call stack size exceeded"%string /\
      exists col, isNumerical data col = true /\
                  In col (keys (hd [] data)) /\
                  argumentLimit < length (numbersOf data col))) /\
  (forall data,
     data <> [] ->
     (forall col, In col (keys (hd [] data)) -> isNumerical data col = true ->
        length (numbersOf data col) <= argumentLimit) ->
     exists r,
       ArgumentLimit.analyzeData argumentLimit data = Return r /\
       analyzeData data = Return r /\
       shape r = (length data, length (columns r))).
Proof.
  split; [reflexivity|]. split; [|split].
  - split; [discriminate|].
    rewrite analyzeData_within.
    destruct (analyzeData (Examples.column "a" (repeat (VNumber 1) (S argumentLimit))))
      as [r|error] eqn:E; [|discriminate].
    destruct (analyzeData_inv _ E) as (row0 & rest & Hdata & _ & _ & _ & Hn & _).
    injection Hdata as <- _.
    rewrite classify_numerical_filter in Hn. cbn [t_numericalColumns app keys map fst] in Hn.
    assert (Hnum : isNumerical
                     (Examples.column "a" (repeat (VNumber 1) (S argumentLimit))) "a"
                   = true).
    { unfold isNumerical. destruct (numericalValues_ones (S argumentLimit)) as [-> ->].
      unfold Fraction.gt_08. apply Nat.ltb_lt. lia. }
    cbn [filter] in Hn. rewrite Hnum in Hn. rewrite Hn. cbn [existsb].
    rewrite numbersOf_ones, repeat_length.
    assert (H : (argumentLimit <? S argumentLimit) = true) by (apply Nat.ltb_lt; lia).
    now rewrite H.
  - intros data message. rewrite analyzeData_within.
    destruct data as [|row0 rest]; [intros [= <-]; now left|].
    destruct (analyzeData (row0 :: rest)) as [r|error] eqn:E; [|discriminate].
    destruct (existsb _ (numericalColumns r)) eqn:Ex; [|discriminate].
    intros [= <-]. right. split; [discriminate|]. split; [reflexivity|].
    apply existsb_exists in Ex as (col & Hcol & Hlen).
    destruct (analyzeData_inv _ E) as (row0' & rest' & [= <- <-] & _ & _ & _ & Hn & _).
    rewrite classify_numerical_filter in Hn. simpl in Hn. rewrite Hn in Hcol.
    apply filter_In in Hcol as [Hin Hnum].
    exists col. split; [exact Hnum|]. split; [exact Hin|]. now apply Nat.ltb_lt.
  - intros data Hdata Hwithin. rewrite analyzeData_within.
    destruct data as [|row0 rest]; [now contradiction Hdata|].
    destruct (analyzeData (row0 :: rest)) as [r|error] eqn:E; [|discriminate].
    assert (Hshape : shape r = (length (row0 :: rest), length (columns r))).
    { simpl in E. now injection E as <-. }
    destruct (existsb _ (numericalColumns r)) eqn:Ex; [|eauto].
    apply existsb_exists in Ex as (col & Hcol & Hlen).
    destruct (analyzeData_inv _ E) as (row0' & rest' & [= <- <-] & _ & _ & _ & Hn & _).
    rewrite classify_numerical_filter in Hn. simpl in Hn. rewrite Hn in Hcol.
    apply filter_In in Hcol as [Hin Hnum].
    apply Nat.ltb_lt in Hlen. specialize (Hwithin col Hin Hnum). lia.
Qed.

End LimitClaims.

(** ** More about the profiler *)

Section ProfilerFacts.
Import JS DataProcessor.

Lemma filter_complement_length (A : Type) (p : A -> bool) (l : list A) :
  length (filter (fun x => negb (p x)) l) + length (filter p l) = length l.
Proof.
  induction l as [|x l IH]; simpl; [reflexivity|].
  destruct (p x); simpl; lia.
Qed.

Lemma classify_categorical_filter (data : list DataPoint) (cols : list string)
    (acc : Typing) :
  t_categoricalColumns (fold_left (classifyColumn data) cols acc)
  = t_categoricalColumns acc ++ filter (fun c => negb (isNumerical data c)) cols.
Proof.
  revert acc. induction cols as [|c cols IH]; intros acc; simpl.
  - now rewrite app_nil_r.
  - rewrite IH. unfold classifyColumn.
    destruct (isNumerical data c); simpl; [reflexivity | now rewrite <- app_assoc].
Qed.

(** Once a column has its record, the later columns leave it there. *)
Lemma describe_fold_keeps (data : list DataPoint) (cols : list string)
    (acc : list (string * Statistics)) (col : string) :
  get acc col <> None ->
  get (fold_left (describeColumn data) cols acc) col <> None.
Proof.
  revert acc. induction cols as [|c cols IH]; intros acc H; simpl; [exact H|].
  apply IH. unfold describeColumn.
  destruct (0 <? length (numbersOf data c)); [|exact H].
  destruct (string_dec c col) as [->|Hne].
  - rewrite get_set_same. discriminate.
  - now rewrite get_set_other.
Qed.

Lemma describe_fold_reaches (data : list DataPoint) (cols : list string)
    (acc : list (string * Statistics)) (col : string) :
  In col cols -> numbersOf data col <> [] ->
  get (fold_left (describeColumn data) cols acc) col <> None.
Proof.
  revert acc. induction cols as [|c cols IH]; intros acc Hin Hne; simpl; [destruct Hin|].
  destruct Hin as [->|Hin]; [|now apply IH].
  apply describe_fold_keeps. unfold describeColumn.
  destruct (numbersOf data col) as [|x l]; [congruence|]. simpl.
  rewrite get_set_same. discriminate.
Qed.

(** Nothing is below minus infinity nor above plus infinity. *)
Lemma ltb_infinity_l (x : float) : (infinity <? x)%float = false.
Proof.
  rewrite ltb_spec. change (Prim2SF infinity) with (S754_infinity false).
  destruct (Prim2SF x) as [s|[|]| |[|] m e]; reflexivity.
Qed.

Lemma ltb_neg_infinity_r (x : float) : (x <? neg_infinity)%float = false.
Proof.
  rewrite ltb_spec. change (Prim2SF neg_infinity) with (S754_infinity true).
  destruct (Prim2SF x) as [[|]|[|]| |[|] m e]; reflexivity.
Qed.

Lemma min2_cases (a b : float) :
  isNaN a = false -> isNaN b = false ->
  (min2 a b = a \/ min2 a b = b) /\ isNaN (min2 a b) = false.
Proof.
  unfold isNaN, min2. intros Ha Hb. rewrite Ha, Hb. simpl.
  destruct (a <? b)%float; [auto|].
  destruct (b <? a)%float; [auto|].
  destruct (get_sign a); auto.
Qed.

Lemma max2_cases (a b : float) :
  isNaN a = false -> isNaN b = false ->
  (max2 a b = a \/ max2 a b = b) /\ isNaN (max2 a b) = false.
Proof.
  unfold isNaN, max2. intros Ha Hb. rewrite Ha, Hb. simpl.
  destruct (b <? a)%float; [auto|].
  destruct (a <? b)%float; [auto|].
  destruct (get_sign a); auto.
Qed.

Lemma fold_min2_in (xs : list float) (a : float) :
  isNaN a = false -> Forall (fun x => isNaN x = false) xs ->
  In (fold_left min2 xs a) (a :: xs).
Proof.
  revert a. induction xs as [|x xs IH]; intros a Ha Hxs; simpl; [auto|].
  apply Forall_cons_iff in Hxs as [Hx Hxs].
  destruct (min2_cases a x Ha Hx) as [[E|E] Hn].
  - destruct (IH (min2 a x) Hn Hxs) as [H|H]; [left; congruence | auto].
  - destruct (IH (min2 a x) Hn Hxs) as [H|H]; [right; left; congruence | auto].
Qed.

Lemma fold_max2_in (xs : list float) (a : float) :
  isNaN a = false -> Forall (fun x => isNaN x = false) xs ->
  In (fold_left max2 xs a) (a :: xs).
Proof.
  revert a. induction xs as [|x xs IH]; intros a Ha Hxs; simpl; [auto|].
  apply Forall_cons_iff in Hxs as [Hx Hxs].
  destruct (max2_cases a x Ha Hx) as [[E|E] Hn].
  - destruct (IH (max2 a x) Hn Hxs) as [H|H]; [left; congruence | auto].
  - destruct (IH (max2 a x) Hn Hxs) as [H|H]; [right; left; congruence | auto].
Qed.

Lemma Math_min_in (xs : list float) :
  xs <> [] -> Forall (fun x => isNaN x = false) xs -> In (Math_min xs) xs.
Proof.
  destruct xs as [|x xs]; [congruence|]. intros _ H.
  apply Forall_cons_iff in H as [Hx Hxs].
  unfold Math_min. simpl.
  assert (E : min2 infinity x = x).
  { unfold min2. unfold isNaN in Hx. rewrite Hx, ltb_infinity_l. simpl.
    destruct (x <? infinity)%float; reflexivity. }
  rewrite E. now apply fold_min2_in.
Qed.

Lemma Math_max_in (xs : list float) :
  xs <> [] -> Forall (fun x => isNaN x = false) xs -> In (Math_max xs) xs.
Proof.
  destruct xs as [|x xs]; [congruence|]. intros _ H.
  apply Forall_cons_iff in H as [Hx Hxs].
  unfold Math_max. simpl.
  assert (E : max2 neg_infinity x = x).
  { unfold max2. unfold isNaN in Hx. rewrite Hx, ltb_neg_infinity_r. simpl.
    destruct (neg_infinity <? x)%float; reflexivity. }
  rewrite E. now apply fold_max2_in.
Qed.

Lemma numbersOf_not_NaN (data : list DataPoint) (col : string) :
  Forall (fun x => isNaN x = false) (numbersOf data col).
Proof.
  apply Forall_forall. intros x Hx. unfold numbersOf in Hx.
  apply filter_In in Hx as [_ Hx]. now apply negb_true_iff in Hx.
Qed.

End ProfilerFacts.

Section ProfilerExtras.
Import JS DataProcessor.

(** X1. For every column of the analysis whose name is not the
    name of a property that every object inherits ([__proto__], [toString],
    ...), the missing count and the number of values that are neither
    [null], [undefined] nor [''] add up to the number of rows, and the
    missing count is the number of cells that are one of these three. *)
Theorem analyzeData_missing_counts (data : list DataPoint) (r : DataAnalysis)
    (col : string) :
  analyzeData data = Return r ->
  In col (columns r) ->
  ~ In col ObjectPrototype.names ->
  exists m,
    get (missingValues r) col = Some m /\
    m + length (nonNullValues data col) = length data /\
    m = length (filter (fun v => is_null v || is_undefined v || is_empty_string v)
                       (columnValues data col)).
Proof.
  intros Hr Hcol _.
  destruct (analyzeData_inv data Hr) as (row0 & rest & _ & Hc & _ & Hm & _).
  rewrite Hc in Hcol.
  destruct (classify_here data (keys row0)
             {| t_dtypes := []; t_missingValues := [];
                t_numericalColumns := []; t_categoricalColumns := [] |} col Hcol)
    as [_ H].
  rewrite <- Hm in H. eexists. split; [exact H|].
  pose proof (filter_complement_length notMissing (columnValues data col)) as Hlen.
  unfold columnValues at 3 in Hlen. rewrite length_map in Hlen.
  fold (nonNullValues data col) in Hlen.
  assert (E : filter (fun v => negb (notMissing v)) (columnValues data col)
              = filter (fun v => is_null v || is_undefined v || is_empty_string v)
                       (columnValues data col)).
  { apply filter_ext. intros v. unfold notMissing.
    destruct (is_null v), (is_undefined v), (is_empty_string v); reflexivity. }
  rewrite E in Hlen. split; lia.
Qed.

(** A column with a [null], an [undefined] (absent) and an empty cell. *)
Lemma analyzeData_missing_counts_witness :
  exists r,
    analyzeData (Examples.column "a"
      [VNumber 1; VNull; VString ""; VString "x"; VUndefined]) = Return r /\
    get (missingValues r) "a" = Some 3.
Proof.
  eexists. split; [reflexivity|].
  destruct (@analyzeData_missing_counts
    (Examples.column "a" [VNumber 1; VNull; VString ""; VString "x"; VUndefined])
    _ "a" eq_refl (or_introl eq_refl)) as (m & Hm & _ & ->).
  - simpl. intuition discriminate.
  - exact Hm.
Defined.

(** X2. The columns of the analysis are the keys of the first row; each is
    listed once, in that order, among the numerical columns when more than
    80% of its non-missing values are numeric and among the categorical
    columns otherwise, and the shape is the number of rows by the number of
    columns. *)
Theorem analyzeData_columns_partition (data : list DataPoint) (r : DataAnalysis) :
  analyzeData data = Return r ->
  columns r = keys (hd [] data) /\
  shape r = (length data, length (columns r)) /\
  numericalColumns r = filter (isNumerical data) (columns r) /\
  categoricalColumns r = filter (fun c => negb (isNumerical data c)) (columns r) /\
  length (numericalColumns r) + length (categoricalColumns r) = length (columns r) /\
  (forall c, In c (numericalColumns r) -> ~ In c (categoricalColumns r)).
Proof.
  intros Hr.
  assert (Hshape : shape r = (length data, length (columns r))).
  { destruct data; simpl in Hr; [discriminate|]. now injection Hr as <-. }
  destruct (analyzeData_inv data Hr) as (row0 & rest & -> & Hc & _ & _ & Hn & Hcat & _).
  rewrite classify_numerical_filter in Hn. rewrite classify_categorical_filter in Hcat.
  simpl in Hn, Hcat. rewrite <- Hc in Hn, Hcat.
  split; [exact Hc|]. split; [exact Hshape|]. split; [exact Hn|]. split; [exact Hcat|].
  split.
  - rewrite Hn, Hcat, Nat.add_comm. apply filter_complement_length.
  - intros c H1 H2. rewrite Hn in H1. rewrite Hcat in H2.
    apply filter_In in H1 as [_ H1]. apply filter_In in H2 as [_ H2].
    rewrite H1 in H2. discriminate.
Qed.

(** Two columns, one of each kind. *)
Lemma analyzeData_columns_partition_witness :
  exists r,
    analyzeData Examples.people = Return r /\
    numericalColumns r = ["age"%string] /\ categoricalColumns r = ["name"%string].
Proof.
  eexists. split; [reflexivity|].
  destruct (@analyzeData_columns_partition Examples.people _ eq_refl)
    as (_ & _ & Hn & Hc & _).
  split; [rewrite Hn | rewrite Hc]; vm_compute; reflexivity.
Defined.

(** X3. A column has summary statistics exactly when it is numerical and at
    least one of its cells converts to a number other than [NaN]; the
    reported median, minimum and maximum are then numbers of the column, and
    the mean is the sum of the sorted numbers divided by their count. *)
Theorem analyzeData_statistics_domain (data : list DataPoint) (r : DataAnalysis)
    (col : string) :
  analyzeData data = Return r ->
  ((exists st, get (statistics r) col = Some st) <->
   In col (numericalColumns r) /\ numbersOf data col <> []) /\
  (forall st, get (statistics r) col = Some st ->
     In (median st) (numbersOf data col) /\
     In (min st) (numbersOf data col) /\
     In (max st) (numbersOf data col) /\
     mean st = (fold_left (fun sum val => sum + val)
                  (sort_numbers (numbersOf data col)) 0
                / float_of_nat (length (numbersOf data col)))%float).
Proof.
  intros Hr. split.
  - split.
    + intros [st Hst].
      destruct (statistics_inv data col Hr Hst) as (Hin & Hlen & _).
      split; [exact Hin|]. intros E. rewrite E in Hlen. simpl in Hlen. lia.
    + intros [Hin Hne].
      destruct (analyzeData_inv data Hr) as (row0 & rest & _ & _ & _ & _ & Hn & _ & Hs).
      rewrite Hn in Hin.
      pose proof (describe_fold_reaches data _ [] col Hin Hne) as H.
      rewrite <- Hs in H. destruct (get (statistics r) col) as [st|]; [eauto | congruence].
  - intros st Hst.
    destruct (statistics_inv data col Hr Hst) as (_ & Hlen & before & ->).
    set (sorted := sort_numbers (numbersOf data col)).
    assert (Hperm : Permutation sorted (numbersOf data col)) by apply sort_by_perm.
    assert (Hn : length sorted = length (numbersOf data col)) by apply sort_by_length.
    assert (Hnan : Forall (fun x => isNaN x = false) sorted).
    { apply Forall_forall. intros x Hx.
      apply (Permutation_in _ Hperm) in Hx.
      exact (proj1 (Forall_forall _ _) (numbersOf_not_NaN data col) x Hx). }
    assert (Hne : sorted <> []).
    { intros E. rewrite E in Hn. simpl in Hn. lia. }
    unfold describe. cbn [median min max mean]. fold sorted.
    repeat split.
    + apply (Permutation_in _ Hperm). apply nth_In. apply Nat.div_lt; lia.
    + apply (Permutation_in _ Hperm). now apply Math_min_in.
    + apply (Permutation_in _ Hperm). now apply Math_max_in.
    + now rewrite Hn.
Qed.

(** A numerical column whose only number is [NaN] has no statistics. *)
Lemma analyzeData_statistics_domain_witness :
  exists r,
    analyzeData (Examples.column "a" [VNumber nan]) = Return r /\
    numericalColumns r = ["a"%string] /\
    ~ (exists st, get (statistics r) "a" = Some st).
Proof.
  eexists. split; [reflexivity|]. split; [vm_compute; reflexivity|].
  intros H.
  pose proof (@analyzeData_statistics_domain
                (Examples.column "a" [VNumber nan]) _ "a" eq_refl) as [[Hd _] _].
  destruct (Hd H) as [_ Hne]. apply Hne. vm_compute. reflexivity.
Defined.

End ProfilerExtras.

(** ** More about the detector, the encoder and the training pipeline *)

Section SetFacts.
Import JS.
Variable A : Type.
Variable same : A -> A -> bool.

Lemma Set_add_length (s : list A) (x : A) :
  length (Set_add same s x) <= S (length s).
Proof.
  induction s as [|y s IH]; simpl; [lia|].
  destruct (same y x); simpl; lia.
Qed.

Lemma Set_of_from_length (xs s : list A) :
  length (fold_left (Set_add same) xs s) <= length s + length xs.
Proof.
  revert s. induction xs as [|x xs IH]; intros s; simpl; [lia|].
  specialize (IH (Set_add same s x)). pose proof (Set_add_length s x). lia.
Qed.

(** A set has no more members than the list it is made from. *)
Lemma Set_of_length (xs : list A) : length (Set_of same xs) <= length xs.
Proof. apply (Set_of_from_length xs []). Qed.

End SetFacts.

Section DetectorExtras.
Import JS DataProcessor.

Lemma filter_length_le (A : Type) (p : A -> bool) (l : list A) :
  length (filter p l) <= length l.
Proof. induction l as [|x l IH]; simpl; [lia | destruct (p x); simpl; lia]. Qed.

(** X6. Regression is detected only on more than 20 rows, with
    more than 20 target values that are neither [null] nor [undefined]: any
    dataset of at most 20 rows, and any target column with at most 20 such
    values, is a classification problem, numeric or not. *)
Theorem detectProblemType_small_data (data : list DataPoint) (targetColumn : string) :
  detectProblemType data targetColumn = regression ->
  20 < length data /\ 20 < length (targetValues data targetColumn) /\
  length (uniqueValues data targetColumn) <= length (targetValues data targetColumn).
Proof.
  intros H.
  assert (Hu : length (uniqueValues data targetColumn)
               <= length (targetValues data targetColumn))
    by apply Set_of_length.
  assert (Ht : length (targetValues data targetColumn) <= length data).
  { unfold targetValues. etransitivity; [apply filter_length_le|].
    now rewrite length_map. }
  unfold detectProblemType in H.
  destruct (length (uniqueValues data targetColumn) <=? 20) eqn:E; [discriminate|].
  apply Nat.leb_gt in E. lia.
Qed.

(** Sixty rows with sixty different numbers. *)
Lemma detectProblemType_small_data_witness :
  20 < length (Examples.column "y"
                 (map (fun i => VNumber (float_of_nat i)) (seq 0 60))).
Proof.
  exact (proj1 (@detectProblemType_small_data
    (Examples.column "y" (map (fun i => VNumber (float_of_nat i)) (seq 0 60)))
    "y" eq_refl)).
Defined.

End DetectorExtras.

Section EncoderExtras.
Import JS DataProcessor Notions.

(** X7. The feature matrix and the target vector of the
    encoder have one entry per kept row, so they are aligned and no longer
    than the dataset; every feature row has one number per feature column;
    and the matrix is empty exactly when every row lacks a feature or the
    target. *)
Theorem prepareFeatures_shape (data : list DataPoint)
    (featureColumns : list string) (targetColumn : string) :
  let features := fst (prepareFeatures data featureColumns targetColumn) in
  let targets := snd (prepareFeatures data featureColumns targetColumn) in
  length features = length targets /\
  length features = length (filter (retained featureColumns targetColumn) data) /\
  length features <= length data /\
  Forall (fun row => length row = length featureColumns) features /\
  (features = [] <->
   forall row, In row data -> retained featureColumns targetColumn row = false).
Proof.
  intros features targets. subst features targets.
  unfold prepareFeatures. rewrite encodeRow_fold. simpl.
  rewrite !length_map.
  split; [reflexivity|]. split; [reflexivity|]. split; [apply filter_length_le|].
  split.
  - apply Forall_forall. intros row Hrow. apply in_map_iff in Hrow as (r & <- & _).
    unfold featureRow. apply length_map.
  - split.
    + intros E row Hin.
      destruct (retained featureColumns targetColumn row) eqn:R; [|reflexivity].
      assert (Hk : In row (filter (retained featureColumns targetColumn) data))
        by (apply filter_In; auto).
      destruct (filter (retained featureColumns targetColumn) data);
        [destruct Hk | discriminate].
    + intros H.
      assert (E : filter (retained featureColumns targetColumn) data = []).
      { induction data as [|row l IH]; simpl; [reflexivity|].
        rewrite (H row) by now left. apply IH. intros r Hr. apply H. now right. }
      now rewrite E.
Qed.

End EncoderExtras.

Section TrainingExtras.
Import JS MLModels Notions.

Variable Metrics : Type.
Variable calculateMetrics : list number -> list number -> ProblemType -> Metrics.
Variable fitPredict :
  Estimator -> list (list number) -> list number -> list (list number) ->
  completion (list number).
Variables startTime endTime : Z.

(** X8. A run wraps the estimator it builds for the
    problem type and the token: when the fit or the prediction of that
    estimator throws, the run throws ["Failed to train : "] followed by the
    error, with an empty model name because the name is assigned only after
    the prediction; when it returns predictions, the run returns them under
    the name of the model. Conversely a run throws only such a message, or
    that of reading the feature count of an empty training set. A record
    that is returned carries the problem type it was given, the held-out
    targets, a confusion matrix exactly for classification, and one of the
    six model names or the empty one. *)
Theorem trainModel_outcome (X : list (list number)) (y : list number) :
  let run := trainModel calculateMetrics fitPredict startTime endTime X y in
  let wraps := fun (estimator : Estimator) (name : string)
                   (problemType : ProblemType) (modelType : string) =>
    (forall error,
       fitPredict estimator (XTrain X) (yTrain X y) (XTest X) = Throw error ->
       run problemType modelType = Throw ("Failed to train : " ++ error)) /\
    (forall p,
       fitPredict estimator (XTrain X) (yTrain X y) (XTest X) = Return p ->
       exists r, run problemType modelType = Return r /\
                 model r = name /\ predictions r = p) in
  wraps LogisticRegression "Logistic Regression"%string classification "logistic"%string /\
  wraps LogisticRegression "Logistic Regression"%string classification "auto"%string /\
  wraps DecisionTree "Decision Tree"%string classification "decisiontree"%string /\
  (forall row rest, XTrain X = row :: rest ->
     wraps (RandomForestClassifier (floor_sqrt (length row)))
       "Random Forest Classifier"%string classification "randomforest"%string /\
     wraps (RandomForestRegression (floor_sqrt (length row)))
       "Random Forest Regression"%string regression "randomforest"%string /\
     (length row = 1 ->
      wraps SimpleLinearRegression "Linear Regression"%string regression "linear"%string /\
      wraps SimpleLinearRegression "Linear Regression"%string regression "auto"%string) /\
     (length row <> 1 ->
      wraps MultivariateLinearRegression "Multivariate Linear Regression"%string
        regression "linear"%string /\
      wraps MultivariateLinearRegression "Multivariate Linear Regression"%string
        regression "auto"%string)) /\
  (forall problemType modelType msg,
     run problemType modelType = Throw msg ->
     exists error estimator,
       msg = ("Failed to train : " ++ error)%string /\
       (fitPredict estimator (XTrain X) (yTrain X y) (XTest X) = Throw error \/
        (XTrain X = [] /\
         error = "TypeError: Cannot read properties of undefined (reading 'length')"%string))) /\
  (forall problemType modelType r,
     run problemType modelType = Return r ->
     MLModels.problemType r = problemType /\
     actualValues r = yTest X y /\
     trainingTime r = (endTime - startTime)%Z /\
     (confusionMatrix r <> None <-> problemType = classification) /\
     In (model r) [""; "Linear Regression"; "Multivariate Linear Regression";
                   "Random Forest Regression"; "Logistic Regression";
                   "Decision Tree"; "Random Forest Classifier"]%string).
Proof.
  intros run wraps.
  assert (Hdirect : forall estimator name problemType modelType,
            fitAndPredict fitPredict (XTrain X) (yTrain X y) (XTest X) problemType modelType
            = bind (fitPredict estimator (XTrain X) (yTrain X y) (XTest X))
                (fun p => Return (p, name)) ->
            wraps estimator name problemType modelType).
  { intros estimator name problemType modelType Hd. subst wraps run. cbv beta.
    unfold trainModel. rewrite Hd. split.
    - intros error H. rewrite H. reflexivity.
    - intros p H. rewrite H. cbn [bind]. eexists. split; [reflexivity|].
      split; reflexivity. }
  split; [apply Hdirect; reflexivity|].
  split; [apply Hdirect; reflexivity|].
  split; [apply Hdirect; reflexivity|].
  split.
  { intros row rest HX.
    split; [apply Hdirect; unfold fitAndPredict; rewrite HX; reflexivity|].
    split; [apply Hdirect; unfold fitAndPredict; rewrite HX; reflexivity|].
    split.
    - intros Hone. apply Nat.eqb_eq in Hone.
      split; apply Hdirect; unfold fitAndPredict; rewrite HX;
        cbn; rewrite Hone; reflexivity.
    - intros Hmany. apply Nat.eqb_neq in Hmany.
      split; apply Hdirect; unfold fitAndPredict; rewrite HX;
        cbn; rewrite Hmany; reflexivity. }
  subst run. split.
  - intros problemType modelType msg. unfold trainModel.
    destruct (fitAndPredict _ _ _ _ _ _) as [[p name]|error] eqn:E; [discriminate|].
    intros [= <-].
    exists error.
    unfold fitAndPredict, bind in E.
    destruct problemType;
      repeat match type of E with
             | context [if ?c then _ else _] => destruct c
             | context [match featureCount ?x with _ => _ end] =>
                 let H := fresh "Hf" in destruct (featureCount x) eqn:H
             | context [match fitPredict ?a ?b ?c ?d with _ => _ end] =>
                 let H := fresh "Hp" in destruct (fitPredict a b c d) eqn:H
             end;
      try discriminate; injection E as E; subst;
      first [ eexists; split; [reflexivity|]; left; eassumption
            | exists LogisticRegression; split; [reflexivity|];
              right; destruct (XTrain X); simpl in *;
              [split; congruence | discriminate] ].
  - intros problemType modelType r. unfold trainModel.
    destruct (fitAndPredict _ _ _ _ _ _) as [[p name]|error] eqn:E; [|discriminate].
    intros [= <-]. simpl.
    split; [reflexivity|]. split; [reflexivity|]. split; [reflexivity|]. split.
    + destruct problemType; split; congruence.
    + unfold fitAndPredict, bind in E.
      destruct problemType;
        repeat match type of E with
               | context [if ?c then _ else _] => destruct c
               | context [match featureCount ?x with _ => _ end] =>
                   destruct (featureCount x)
               | context [match fitPredict ?a ?b ?c ?d with _ => _ end] =>
                   destruct (fitPredict a b c d)
               end;
        try discriminate; injection E as _ <-; simpl; tauto.
Qed.

(** X9. On fewer than two rows the training set is empty, and
    every model that reads the number of feature columns from its first row
    fails: regression with any of its three tokens, and the random forest
    classifier. *)
Theorem trainModel_too_few_rows (X : list (list number)) (y : list number)
    (problemType : ProblemType) (modelType : string) :
  length X <= 1 ->
  (problemType = regression /\
     (modelType = "linear" \/ modelType = "auto" \/ modelType = "randomforest")%string)
  \/ (problemType = classification /\ modelType = "randomforest"%string) ->
  XTrain X = [] /\
  trainModel calculateMetrics fitPredict startTime endTime X y problemType modelType
  = Throw "Failed to train : TypeError: Cannot read properties of undefined (reading 'length')".
Proof.
  intros Hlen Hcase.
  assert (HX : XTrain X = []).
  { unfold XTrain, splitIndex, Fraction.floor_08.
    destruct X as [|a [|b X]]; simpl in *; try reflexivity. lia. }
  split; [exact HX|].
  unfold trainModel, fitAndPredict. rewrite HX.
  destruct Hcase as [[-> [->| [->| ->]]]|[-> ->]]; reflexivity.
Qed.

End TrainingExtras.

(** One row, asked for a regression. *)
Lemma trainModel_too_few_rows_witness :
  MLModels.trainModel (fun _ _ _ => tt) (fun _ _ _ _ => JS.Return [])
    0%Z 0%Z [[5%Z]] [7%Z] DataProcessor.regression "auto"
  = JS.Throw "Failed to train : TypeError: Cannot read properties of undefined (reading 'length')".
Proof.
  refine (proj2 (@trainModel_too_few_rows unit (fun _ _ _ => tt)
            (fun _ _ _ _ => JS.Return []) 0%Z 0%Z [[5%Z]] [7%Z]
            DataProcessor.regression "auto" _ _)).
  - simpl. lia.
  - left. split; [reflexivity|]. right. left. reflexivity.
Defined.

(** ** More about the confusion matrix *)

Section CountingFacts.

Lemma list_sum_map_add (A : Type) (f g : A -> nat) (l : list A) :
  list_sum (map (fun x => f x + g x) l) = list_sum (map f l) + list_sum (map g l).
Proof. induction l as [|x l IH]; simpl; lia. Qed.

Lemma list_sum_step (x : nat) (l : list nat) : list_sum (x :: l) = x + list_sum l.
Proof. reflexivity. Qed.

Lemma list_sum_indicator_out (k : Z) (l : list Z) :
  ~ In k l -> list_sum (map (fun x => if (k =? x)%Z then 1 else 0) l) = 0.
Proof.
  induction l as [|x l IH]; intros H; [reflexivity|].
  rewrite map_cons, list_sum_step.
  destruct (Z.eqb_spec k x) as [->|_]; [exfalso; apply H; now left|].
  apply IH. intros Hin. apply H. now right.
Qed.

Lemma list_sum_indicator (k : Z) (l : list Z) :
  NoDup l -> In k l -> list_sum (map (fun x => if (k =? x)%Z then 1 else 0) l) = 1.
Proof.
  induction 1 as [|x l Hx Hnd IH]; intros Hin; [destruct Hin|].
  rewrite map_cons, list_sum_step.
  destruct (Z.eqb_spec k x) as [->|Hne].
  - rewrite (@list_sum_indicator_out x l Hx). reflexivity.
  - apply IH. destruct Hin as [E|Hin]; [congruence | exact Hin].
Qed.

(** The entries of a list fall into the classes of their keys. *)
Lemma list_sum_classes (B : Type) (key : B -> Z) (l : list Z) (L : list B) :
  NoDup l -> (forall e, In e L -> In (key e) l) ->
  list_sum (map (fun x => length (filter (fun e => (key e =? x)%Z) L)) l) = length L.
Proof.
  intros Hnd. induction L as [|e L IH]; intros Hin; simpl.
  - clear Hnd Hin. induction l as [|x l IHl]; simpl; [reflexivity | exact IHl].
  - transitivity
      (list_sum (map (fun x => (if (key e =? x)%Z then 1 else 0)
                               + length (filter (fun e' => (key e' =? x)%Z) L)) l)).
    + f_equal. apply map_ext. intros x. destruct (key e =? x)%Z; reflexivity.
    + rewrite list_sum_map_add, (@list_sum_indicator (key e) l Hnd), IH.
      * reflexivity.
      * intros e' He'. apply Hin. now right.
      * apply Hin. now left.
Qed.

Lemma filter_andb (B : Type) (f g : B -> bool) (L : list B) :
  filter (fun e => f e && g e) L = filter g (filter f L).
Proof.
  induction L as [|e L IH]; simpl; [reflexivity|].
  destruct (f e); simpl; [destruct (g e)|]; now rewrite IH.
Qed.

Lemma in_combine_both (x y : Z) (xs ys : list Z) :
  In (x, y) (combine xs ys) -> In x xs /\ In y ys.
Proof.
  intros H. split; [eapply in_combine_l | eapply in_combine_r]; exact H.
Qed.

End CountingFacts.

Section SortAgreement.
Import JS MLModels.

(** On the digits the order of the numerals is the order of the numbers. *)
Lemma default_compare_digits (x y : Z) :
  (0 <= x <= 9)%Z -> (0 <= y <= 9)%Z ->
  (0 <? default_compare x y)%float = negb (x <=? y)%Z.
Proof.
  intros Hx Hy.
  assert (Ex : In x [0;1;2;3;4;5;6;7;8;9]%Z) by (simpl; lia).
  assert (Ey : In y [0;1;2;3;4;5;6;7;8;9]%Z) by (simpl; lia).
  assert (H : forallb (fun x => forallb (fun y =>
                Bool.eqb (0 <? default_compare x y)%float (negb (x <=? y)%Z))
                [0;1;2;3;4;5;6;7;8;9]%Z) [0;1;2;3;4;5;6;7;8;9]%Z = true)
    by (vm_compute; reflexivity).
  rewrite forallb_forall in H. specialize (H x Ex).
  rewrite forallb_forall in H. specialize (H y Ey).
  now apply Bool.eqb_prop in H.
Qed.

Lemma sort_insert_digits (x : Z) (l : list Z) :
  (0 <= x <= 9)%Z -> Forall (fun y => 0 <= y <= 9)%Z l ->
  sort_insert default_compare x l = insert_index x l.
Proof.
  intros Hx. induction 1 as [|y l Hy Hl IH]; simpl; [reflexivity|].
  rewrite default_compare_digits by assumption.
  destruct (x <=? y)%Z; simpl; [reflexivity | now rewrite IH].
Qed.

Lemma insert_index_Forall (P : Z -> Prop) (x : Z) (l : list Z) :
  P x -> Forall P l -> Forall P (insert_index x l).
Proof.
  intros Hx. induction 1 as [|y l Hy Hl IH]; simpl; [now repeat constructor|].
  destruct (x <=? y)%Z; repeat constructor; assumption.
Qed.

Lemma sort_by_digits (l : list Z) :
  Forall (fun y => 0 <= y <= 9)%Z l ->
  sort_by default_compare l = ascending l /\
  Forall (fun y => 0 <= y <= 9)%Z (ascending l).
Proof.
  induction 1 as [|x l Hx Hl [IH1 IH2]]; simpl; [split; [reflexivity | constructor]|].
  unfold sort_by, ascending in *. simpl. rewrite IH1. split.
  - now apply sort_insert_digits.
  - now apply insert_index_Forall.
Qed.

End SortAgreement.

Section ConfusionExtras.
Import JS MLModels.

(** X10. For labels that are integers up to 2^53 in size, which
    [String] writes with all their digits: the labels that index the
    confusion matrix are the labels that occur in the actual or in the
    predicted vector, each once, arranged so that no label stands before
    one whose decimal numeral is smaller as a string; when every label is
    one of the digits 0 to 9 this is the ascending numeric order. *)
Theorem uniqueClasses_spec (actual predicted : list number) :
  (forall x, In x actual \/ In x predicted -> (Z.abs x <= 2 ^ 53)%Z) ->
  let classes := uniqueClasses actual predicted in
  NoDup classes /\
  (forall x, In x classes <-> In x actual \/ In x predicted) /\
  Sorted (inOrder default_compare) classes /\
  ((forall x, In x actual \/ In x predicted -> (0 <= x <= 9)%Z) ->
   classes = Spec.sortedLabels actual predicted).
Proof.
  intros _ classes. subst classes.
  split; [apply uniqueClasses_NoDup|].
  split; [apply uniqueClasses_in|].
  split; [apply uniqueClasses_sorted|].
  intros Hd. unfold uniqueClasses, Spec.sortedLabels.
  apply sort_by_digits. apply Forall_forall. intros x Hx.
  apply Hd. apply in_app_or. exact (proj1 (Set_of_in _ _) Hx).
Qed.

(** The labels 2 and 10, which the strings order the other way. *)
Lemma uniqueClasses_spec_witness :
  Sorted (inOrder default_compare) (uniqueClasses [2; 2; 10]%Z [2; 10; 10]%Z).
Proof.
  refine (proj1 (proj2 (proj2 (@uniqueClasses_spec [2; 2; 10]%Z [2; 10; 10]%Z _)))).
  intros x Hx. simpl in Hx.
  destruct Hx as [[<-|[<-|[<-|[]]]]|[<-|[<-|[<-|[]]]]]; vm_compute; discriminate.
Defined.

End ConfusionExtras.

(** ** The decision tree *)

Section TreeFacts.
Import JS MLModels DecisionTreeClass.

Lemma fold_moreCommon_in (counts : Counts) (t : list Z) (k : Z) :
  In (fold_left (moreCommon counts) t k) (k :: t).
Proof.
  revert k. induction t as [|b t IH]; intros k; simpl; [now left|].
  specialize (IH (moreCommon counts k b)). unfold moreCommon in *.
  destruct (countOf counts b <? countOf counts k); simpl in IH; tauto.
Qed.

(** The most common value is one of the values. *)
Lemma getMostCommonValue_member (y : list Z) (v : Z) :
  getMostCommonValue y = Return v -> In v y.
Proof.
  unfold getMostCommonValue, reduce.
  destruct (Object_keys (count_all y)) as [|k t] eqn:E; [discriminate|].
  intros [= <-].
  apply Set_of_in. rewrite <- count_all_keys. apply Object_keys_in.
  rewrite E. apply fold_moreCommon_in.
Qed.

Lemma getMostCommonValue_returns (y : list Z) :
  y <> [] -> exists v, getMostCommonValue y = Return v.
Proof.
  intros Hy. unfold getMostCommonValue, reduce.
  destruct (Object_keys (count_all y)) as [|k t] eqn:E; [|eauto].
  exfalso. destruct y as [|a y]; [now apply Hy|].
  assert (H : In a (Object_keys (count_all (a :: y)))).
  { apply Object_keys_in. rewrite count_all_keys. apply Set_of_in. now left. }
  rewrite E in H. destruct H.
Qed.

Lemma leaf_member (y : list Z) (t : Node) :
  leaf y = Return t -> exists v, t = Leaf v /\ In v y.
Proof.
  unfold leaf, bind. destruct (getMostCommonValue y) as [v|msg] eqn:E; [|discriminate].
  intros [= <-]. exists v. split; [reflexivity|]. now apply getMostCommonValue_member.
Qed.

Lemma leaf_returns (y : list Z) :
  y <> [] -> exists v, leaf y = Return (Leaf v).
Proof.
  intros Hy. destruct (getMostCommonValue_returns Hy) as [v E].
  exists v. unfold leaf, bind. now rewrite E.
Qed.

Lemma select_in (A : Type) (l : list A) (indices : list nat) (v : A) :
  In v (select l indices) -> In v l.
Proof.
  unfold select. rewrite in_flat_map. intros (i & _ & H).
  destruct (nth_error l i) as [w|] eqn:E; [|destruct H].
  destruct H as [<-|[]]. eapply nth_error_In, E.
Qed.

Lemma select_length (A : Type) (l : list A) (indices : list nat) :
  Forall (fun i => i < length l) indices ->
  length (select l indices) = length indices.
Proof.
  induction 1 as [|i indices Hi _ IH]; [reflexivity|].
  unfold select in *. simpl. rewrite length_app, IH.
  destruct (nth_error l i) eqn:E; [reflexivity|].
  apply nth_error_None in E. lia.
Qed.

Lemma combine_seq_in (A : Type) (X : list A) (k i : nat) (row : A) :
  In (i, row) (combine (seq k (length X)) X)
  <-> k <= i /\ nth_error X (i - k) = Some row.
Proof.
  revert k. induction X as [|r X IH]; intros k; simpl.
  - split; [tauto|]. intros [_ H]. destruct (i - k); discriminate.
  - rewrite IH. split.
    + intros [[= <- <-]|[Hk H]].
      * rewrite Nat.sub_diag. auto.
      * split; [lia|]. replace (i - k) with (S (i - S k)) by lia. exact H.
    + intros [Hk H]. destruct (i - k) as [|j] eqn:E.
      * left. injection H as <-. f_equal. lia.
      * right. split; [lia|]. replace (i - S k) with j by lia. exact H.
Qed.

Lemma entries_in (X : list (list float)) (i : nat) (row : list float) :
  In (i, row) (entries X) <-> nth_error X i = Some row.
Proof.
  unfold entries. rewrite combine_seq_in, Nat.sub_0_r.
  split; [tauto | split; [lia | assumption]].
Qed.

Lemma indicesWhere_in (p : list float -> bool) (X : list (list float)) (i : nat) :
  In i (indicesWhere p X) <-> exists row, nth_error X i = Some row /\ p row = true.
Proof.
  unfold indicesWhere. rewrite in_map_iff. split.
  - intros ([j row] & <- & H). apply filter_In in H as [H Hp].
    exists row. split; [now apply entries_in | exact Hp].
  - intros (row & H & Hp). exists (i, row). split; [reflexivity|].
    apply filter_In. split; [now apply entries_in | exact Hp].
Qed.

Lemma indicesWhere_bound (p : list float -> bool) (X : list (list float)) :
  Forall (fun i => i < length X) (indicesWhere p X).
Proof.
  apply Forall_forall. intros i H. apply indicesWhere_in in H as (row & H & _).
  apply nth_error_Some. congruence.
Qed.

Lemma indicesWhere_lengths (p : list float -> bool) (X : list (list float)) :
  length (indicesWhere p X) + length (indicesWhere (fun row => negb (p row)) X)
  = length X.
Proof.
  unfold indicesWhere. rewrite !length_map.
  pose proof (filter_complement_length (fun e => p (snd e)) (entries X)) as H.
  unfold entries in *. rewrite length_combine, length_seq, Nat.min_id in H. lia.
Qed.

Lemma select_cons (A : Type) (l : list A) (i : nat) (indices : list nat) :
  select l (i :: indices)
  = match nth_error l i with Some v => [v] | None => [] end ++ select l indices.
Proof. reflexivity. Qed.

(** The rows of the chosen indices with their labels are the chosen
    samples. *)
Lemma select_indicesWhere (p : list float -> bool) (X : list (list float)) (y : list Z) :
  length X <= length y ->
  combine (select X (indicesWhere p X)) (select y (indicesWhere p X))
  = filter (fun e => p (fst e)) (combine X y).
Proof.
  unfold indicesWhere, entries.
  assert (G : forall (X : list (list float)) (y : list Z) (preX : list (list float))
                   (preY : list Z),
            length preX = length preY -> length X <= length y ->
            let I := map fst (filter (fun e : nat * list float => p (snd e))
                                (combine (seq (length preX) (length X)) X)) in
            combine (select (preX ++ X) I) (select (preY ++ y) I)
            = filter (fun e => p (fst e)) (combine X y)).
  { clear. induction X as [|x X IH]; intros [|y0 y] preX preY Hpre Hlen;
      try reflexivity; [simpl in Hlen; lia|].
    specialize (IH y (preX ++ [x]) (preY ++ [y0])).
    rewrite !length_app, <- !app_assoc in IH. cbn [length app] in IH.
    rewrite Nat.add_1_r in IH.
    cbn [length seq combine filter snd fst map].
    destruct (p x); cbn [map fst].
    - rewrite !select_cons.
      rewrite nth_error_app2, Nat.sub_diag by lia. cbn [nth_error app].
      rewrite Hpre at 2. rewrite nth_error_app2, Nat.sub_diag by lia.
      cbn [nth_error app combine].
      f_equal. apply IH; simpl in Hlen; lia.
    - apply IH; simpl in Hlen; lia. }
  intros Hlen. exact (G X y [] [] eq_refl Hlen).
Qed.

Lemma map_snd_combine_all (A B : Type) (l : list A) (l' : list B) :
  length l' <= length l -> map snd (combine l l') = l'.
Proof.
  revert l'. induction l as [|a l IH]; intros [|b l'] H; simpl in *;
    try reflexivity; try lia.
  f_equal. apply IH. lia.
Qed.

Section AnySort.
Variable sort : list (option float) -> list (option float).

Lemma tryThreshold_keeps (X : list (list float)) (y : list Z) (f : nat)
    (best : float * option BestSplit) (pair : option float * option float) :
  f < length (hd [] X) -> keeps X best -> keeps X (tryThreshold X y f best pair).
Proof.
  intros Hf Hb. unfold tryThreshold.
  destruct (length (indicesWhere _ X) =? 0) eqn:El; [exact Hb|].
  destruct (length (indicesWhere (fun row => negb _) X) =? 0) eqn:Er; [exact Hb|].
  simpl. destruct (_ <? fst best)%float; [|exact Hb].
  apply Nat.eqb_neq in El, Er.
  unfold keeps, splits. simpl.
  repeat split; try assumption; intros E; rewrite E in *; simpl in *; congruence.
Qed.

Lemma tryFeature_keeps (X : list (list float)) (y : list Z) (f : nat)
    (best : float * option BestSplit) :
  f < length (hd [] X) -> keeps X best -> keeps X (tryFeature sort X y best f).
Proof.
  intros Hf. unfold tryFeature.
  generalize (adjacent (sort (Set_of sameCell
    (map keptAs (map (fun row => at_feature row f) X))))) as pairs.
  intros pairs. revert best. induction pairs as [|pair pairs IH]; intros best Hb;
    simpl; [exact Hb|].
  apply IH. now apply tryThreshold_keeps.
Qed.

Lemma findBestSplit_keeps (X : list (list float)) (y : list Z) (s : BestSplit) :
  findBestSplit sort X y = Return (Some s) -> splits X s.
Proof.
  unfold findBestSplit. destruct X as [|first X']; [discriminate|].
  set (X := first :: X'). intros [= H].
  assert (G : forall fs best, Forall (fun f => f < length (hd [] X)) fs ->
                keeps X best -> keeps X (fold_left (tryFeature sort X y) fs best)).
  { induction fs as [|f fs IH]; intros best Hfs Hb; simpl; [exact Hb|].
    inversion Hfs; subst. apply IH; [assumption|]. now apply tryFeature_keeps. }
  specialize (G (seq 0 (length first)) (infinity, None)).
  unfold keeps in G at 2. rewrite H in G. apply G; [|exact I].
  apply Forall_forall. intros f Hin. apply in_seq in Hin. simpl. lia.
Qed.

Lemma splits_children (X : list (list float)) (y : list Z) (s : BestSplit) :
  splits X s ->
  length (leftIndices s) + length (rightIndices s) = length X /\
  0 < length (leftIndices s) /\ 0 < length (rightIndices s) /\
  length (select X (leftIndices s)) = length (leftIndices s) /\
  length (select X (rightIndices s)) = length (rightIndices s) /\
  (length X <= length y ->
   length (select y (leftIndices s)) = length (leftIndices s) /\
   length (select y (rightIndices s)) = length (rightIndices s)).
Proof.
  intros (El & Er & Hl & Hr & _).
  assert (Bl : Forall (fun i => i < length X) (leftIndices s))
    by (rewrite El; apply indicesWhere_bound).
  assert (Br : Forall (fun i => i < length X) (rightIndices s))
    by (rewrite Er; apply indicesWhere_bound).
  split; [rewrite El, Er; apply indicesWhere_lengths|].
  split; [destruct (leftIndices s); [congruence | simpl; lia]|].
  split; [destruct (rightIndices s); [congruence | simpl; lia]|].
  split; [now apply select_length|]. split; [now apply select_length|].
  intros Hy. split; apply select_length.
  - eapply Forall_impl; [|exact Bl]. simpl. intros. lia.
  - eapply Forall_impl; [|exact Br]. simpl. intros. lia.
Qed.

Lemma nonempty_length (A : Type) (l : list A) : 0 < length l -> l <> [].
Proof. destruct l; simpl; [lia | discriminate]. Qed.

(** The tree of a sample that has a label for every row. *)
Lemma buildTree_returns (remaining : nat) (X : list (list float)) (y : list Z) :
  y <> [] -> length X <= length y ->
  exists t, buildTree sort remaining X y = Return t.
Proof.
  revert X y. induction remaining as [|n IH]; intros X y Hy Hlen; simpl.
  - destruct (leaf_returns Hy) as [v E]. eauto.
  - destruct (_ || _) eqn:Eg.
    { destruct (leaf_returns Hy) as [v E]. eauto. }
    destruct (findBestSplit sort X y) as [[s|]|msg] eqn:E; simpl.
    + apply findBestSplit_keeps in E.
      destruct (splits_children y E) as (_ & Hl & Hr & _ & _ & Hsel).
      destruct (Hsel Hlen) as [Hyl Hyr].
      destruct (splits_children y E) as (_ & _ & _ & HXl & HXr & _).
      destruct (IH (select X (leftIndices s)) (select y (leftIndices s))) as [l ->];
        [apply nonempty_length; lia | lia |].
      destruct (IH (select X (rightIndices s)) (select y (rightIndices s))) as [r ->];
        [apply nonempty_length; lia | lia |].
      simpl. eauto.
    + destruct (leaf_returns Hy) as [v E']. eauto.
    + unfold findBestSplit in E. destruct X; [|discriminate].
      simpl in Eg. discriminate.
Qed.

Lemma buildTree_bounds (remaining : nat) (X : list (list float)) (y : list Z) (t : Node) :
  buildTree sort remaining X y = Return t ->
  depth t <= remaining /\
  (forall v, In v (leaves t) -> In v y) /\
  length (leaves t) <= Nat.max 1 (length X).
Proof.
  assert (Hleaf : forall n (X : list (list float)) y t, leaf y = Return t ->
            depth t <= n /\ (forall v, In v (leaves t) -> In v y) /\
            length (leaves t) <= Nat.max 1 (length X)).
  { intros n X' y' t' H. apply leaf_member in H as (v & -> & Hv).
    cbn [depth leaves length In].
    split; [lia|]. split; [|apply Nat.le_max_l]. intros w [<-|[]]. exact Hv. }
  revert X y t. induction remaining as [|n IH]; intros X y t; cbn [buildTree].
  - apply Hleaf.
  - destruct (_ || _); [apply Hleaf|].
    destruct (findBestSplit sort X y) as [[s|]|msg] eqn:E; cbn [bind];
      [| apply Hleaf | discriminate].
    apply findBestSplit_keeps in E.
    destruct (splits_children y E) as (Hsum & Hl & Hr & HXl & HXr & _).
    destruct (buildTree sort n (select X (leftIndices s)) (select y (leftIndices s)))
      as [l|] eqn:Bl; cbn [bind]; [|discriminate].
    destruct (buildTree sort n (select X (rightIndices s)) (select y (rightIndices s)))
      as [r|] eqn:Br; cbn [bind]; [|discriminate].
    intros [= <-]. apply IH in Bl as (Dl & Ll & Nl). apply IH in Br as (Dr & Lr & Nr).
    cbn [depth leaves]. split; [apply le_n_S, Nat.max_lub; assumption|]. split.
    + intros v Hv. apply in_app_or in Hv as [Hv|Hv];
        [apply Ll in Hv | apply Lr in Hv]; eapply select_in; exact Hv.
    + rewrite length_app. lia.
Qed.

Lemma Set_of_constant (y : list Z) (v : Z) :
  y <> [] -> (forall w, In w y -> w = v) -> Set_of Z.eqb y = [v].
Proof.
  intros Hy Hall. destruct y as [|a y]; [now destruct Hy|].
  assert (a = v) by (apply Hall; now left). subst a.
  unfold Set_of. simpl.
  assert (G : forall l, (forall w, In w l -> w = v) ->
                fold_left (Set_add Z.eqb) l [v] = [v]).
  { induction l as [|b l IH]; intros H; simpl; [reflexivity|].
    rewrite (H b) by now left. rewrite Z.eqb_refl. apply IH.
    intros w Hw. apply H. now right. }
  apply G. intros w Hw. apply Hall. now right.
Qed.

Lemma buildTree_pure (remaining : nat) (X : list (list float)) (y : list Z) (v : Z) :
  y <> [] -> (forall w, In w y -> w = v) ->
  buildTree sort remaining X y = Return (Leaf v).
Proof.
  intros Hy Hall.
  assert (Hleaf : leaf y = Return (Leaf v)).
  { destruct (leaf_returns Hy) as [w E]. rewrite E.
    apply leaf_member in E as (w' & [= <-] & Hw). now rewrite (Hall w Hw). }
  destruct remaining as [|n]; simpl; [exact Hleaf|].
  rewrite (Set_of_constant Hy Hall). simpl. now rewrite Bool.orb_true_r.
Qed.

(** A leaf votes for the rows of the sample that reach it. *)
Lemma buildTree_majority (remaining : nat) (X : list (list float)) (y : list Z)
    (t : Node) (row : list float) :
  length X = length y ->
  buildTree sort remaining X y = Return t ->
  getMostCommonValue
    (map snd (filter (fun e => sameLeaf t (fst e) row) (combine X y)))
  = Return (predictSingle row t).
Proof.
  assert (Hleaf : forall (X : list (list float)) y t, length X = length y ->
            leaf y = Return t ->
            getMostCommonValue
              (map snd (filter (fun e => sameLeaf t (fst e) row) (combine X y)))
            = Return (predictSingle row t)).
  { intros X' y' t' Hlen H. unfold leaf, bind in H.
    destruct (getMostCommonValue y') as [v|] eqn:E; [|discriminate].
    injection H as <-. cbn [sameLeaf predictSingle].
    rewrite (filter_all _ (combine X' y')) by (apply forallb_forall; reflexivity).
    rewrite map_snd_combine_all by lia. exact E. }
  revert X y t. induction remaining as [|n IH]; intros X y t Hlen; cbn [buildTree].
  - now apply Hleaf.
  - destruct (_ || _); [now apply Hleaf|].
    destruct (findBestSplit sort X y) as [[s|]|msg] eqn:E; cbn [bind];
      [| now apply Hleaf | discriminate].
    apply findBestSplit_keeps in E.
    destruct (splits_children y E) as (_ & _ & _ & HXl & HXr & Hy).
    destruct Hy as [Hyl Hyr]; [lia|].
    destruct E as (El & Er & _).
    destruct (buildTree sort n (select X (leftIndices s)) (select y (leftIndices s)))
      as [l|] eqn:Bl; cbn [bind]; [|discriminate].
    destruct (buildTree sort n (select X (rightIndices s)) (select y (rightIndices s)))
      as [r|] eqn:Br; cbn [bind]; [|discriminate].
    intros [= <-]. cbn [sameLeaf predictSingle].
    destruct (atMost (at_feature row (feature s)) (threshold s)) eqn:Erow.
    + apply IH in Bl; [|lia]. rewrite <- Bl. do 2 f_equal.
      rewrite El at 1 2. rewrite select_indicesWhere by lia.
      rewrite <- filter_andb. apply filter_ext. intros [x v]. cbn [fst].
      destruct (atMost (at_feature x (feature s)) (threshold s)); reflexivity.
    + apply IH in Br; [|lia]. rewrite <- Br. do 2 f_equal.
      rewrite Er at 1 2. rewrite select_indicesWhere by lia.
      rewrite <- filter_andb. apply filter_ext. intros [x v]. cbn [fst].
      destruct (atMost (at_feature x (feature s)) (threshold s)); reflexivity.
Qed.

End AnySort.

End TreeFacts.

Section TreeExtras.
Import JS MLModels DecisionTreeClass.

Variable sort : list (option float) -> list (option float).

(** X12. With a label for every row, whatever order the engine's
    sort gives the feature values: fitting throws exactly on an empty label
    vector, and then the [TypeError] of [reduce] on an empty array;
    otherwise it returns a tree of depth at most 10 with at most as many
    leaves as rows (one leaf when there is no row), all labelled with labels
    of the sample. *)
Theorem fit_outcome (X : list (list float)) (y : list number) :
  length X <= length y ->
  (y = [] ->
   fit sort X y = Throw "TypeError: Reduce of empty array with no initial value") /\
  (y <> [] ->
   exists t, fit sort X y = Return t /\
     depth t <= 10 /\
     length (leaves t) <= Nat.max 1 (length X) /\
     forall v, In v (leaves t) -> In v y).
Proof.
  intros Hlen. split.
  - intros ->. destruct X; [reflexivity | simpl in Hlen; lia].
  - intros Hy. destruct (@buildTree_returns sort maxDepth X y Hy Hlen) as [t E].
    exists t. split; [exact E|].
    apply buildTree_bounds in E as (D & L & N). auto.
Qed.

Lemma predictSingle_leaf (x : list float) (t : Node) :
  In (predictSingle x t) (leaves t).
Proof.
  induction t as [v|f th l IHl r IHr]; simpl; [now left|].
  apply in_or_app. destruct (atMost _ _); auto.
Qed.

(** X13. A fitted tree predicts one label for every row it is
    given, rows shorter than the training rows included, and every
    prediction is a label that occurs in the training labels: a label the
    tree has not seen is never predicted. *)
Theorem predict_known_labels (X : list (list float)) (y : list number) (t : Node)
    (rows : list (list float)) :
  fit sort X y = Return t ->
  exists predictions,
    predict (Some t) rows = Return predictions /\
    length predictions = length rows /\
    forall p, In p predictions -> In p y.
Proof.
  intros E. apply buildTree_bounds in E as (_ & L & _).
  exists (map (fun row => predictSingle row t) rows).
  split; [reflexivity|]. split; [apply length_map|].
  intros p Hp. apply in_map_iff in Hp as (row & <- & _).
  apply L, predictSingle_leaf.
Qed.

(** X14. When all the labels are the same the tree is one leaf
    with that label, whatever the features are, so every row is predicted
    that label. *)
Theorem fit_pure (X : list (list float)) (y : list number) (v : number)
    (rows : list (list float)) :
  y <> [] -> (forall w, In w y -> w = v) ->
  fit sort X y = Return (Leaf v) /\
  predict (Some (Leaf v)) rows = Return (repeat v (length rows)).
Proof.
  intros Hy Hall. split; [now apply buildTree_pure|].
  unfold predict. f_equal. induction rows as [|row rows IH]; simpl;
    [reflexivity | f_equal; exact IH].
Qed.

(** X16. Looking for a split throws on no row at all and
    returns otherwise. A split it returns names a feature of the first row,
    sends to the left exactly the rows whose value of that feature is at
    most the threshold and to the right all the others (a row too short for
    the feature goes right), and leaves neither side empty; so both sides
    are strictly smaller than the sample. *)
Theorem findBestSplit_spec (X : list (list float)) (y : list number) :
  (X = [] ->
   findBestSplit sort X y
   = Throw "TypeError: Cannot read properties of undefined (reading 'length')") /\
  (X <> [] -> exists r, findBestSplit sort X y = Return r) /\
  (forall s, findBestSplit sort X y = Return (Some s) ->
     feature s < length (hd [] X) /\
     (forall i, In i (leftIndices s) <->
        exists row, nth_error X i = Some row /\
          atMost (at_feature row (feature s)) (threshold s) = true) /\
     (forall i, In i (rightIndices s) <->
        exists row, nth_error X i = Some row /\
          atMost (at_feature row (feature s)) (threshold s) = false) /\
     length (leftIndices s) + length (rightIndices s) = length X /\
     0 < length (leftIndices s) < length X /\
     0 < length (rightIndices s) < length X).
Proof.
  split; [intros ->; reflexivity|]. split.
  - intros HX. destruct X; [now destruct HX|]. unfold findBestSplit. eauto.
  - intros s E. apply findBestSplit_keeps in E.
    destruct (splits_children y E) as (Hsum & Hl & Hr & _).
    destruct E as (El & Er & _ & _ & Hf).
    split; [exact Hf|]. split; [|split].
    + intros i. rewrite El. apply indicesWhere_in.
    + intros i. rewrite Er. rewrite indicesWhere_in.
      split; intros (row & H & Hp); exists row; split; try assumption.
      * now apply Bool.negb_true_iff in Hp.
      * now apply Bool.negb_true_iff.
    + split; [exact Hsum|]. lia.
Qed.

(** X15. A row is predicted the label that
    [getMostCommonValue] picks among the training rows that end in the same
    leaf as it does; there is at least one such training row. So on the
    training rows the tree is right wherever the rows of a leaf agree. *)
Theorem predict_majority_of_leaf (X : list (list float)) (y : list number) (t : Node)
    (row : list float) :
  length X = length y ->
  fit sort X y = Return t ->
  let mates := filter (fun e => sameLeaf t (fst e) row) (combine X y) in
  mates <> [] /\
  getMostCommonValue (map snd mates) = Return (predictSingle row t) /\
  ((forall e, In e mates -> snd e = predictSingle row t) \/
   exists e e', In e mates /\ In e' mates /\ snd e <> snd e').
Proof.
  intros Hlen Hfit mates.
  pose proof (@buildTree_majority sort maxDepth X y t row Hlen Hfit) as H. fold mates in H.
  split; [|split; [exact H|]].
  - intros E. rewrite E in H. discriminate.
  - apply getMostCommonValue_member in H.
    destruct (forallb (fun e => (snd e =? predictSingle row t)%Z) mates) eqn:Eall.
    + left. intros e He. rewrite forallb_forall in Eall. now apply Z.eqb_eq, Eall.
    + right. apply in_map_iff in H as (e & He & Hin).
      assert (Hex : existsb (fun e => negb (snd e =? predictSingle row t)%Z) mates = true).
      { clear -Eall. induction mates as [|a l IH]; simpl in *; [discriminate|].
        destruct (snd a =? predictSingle row t)%Z; simpl in *; auto. }
      apply existsb_exists in Hex as (e' & Hin' & Hne).
      exists e, e'. split; [exact Hin|]. split; [exact Hin'|].
      apply Bool.negb_true_iff, Z.eqb_neq in Hne. congruence.
Qed.

End TreeExtras.

Section TreeWitnesses.
Import JS MLModels DecisionTreeClass.

(** Four rows of one feature, two labels. *)
Lemma fit_outcome_witness :
  exists t, fit sortValues [[1]; [2]; [3]; [4]]%float [0; 0; 1; 1]%Z = Return t /\
            depth t <= 10.
Proof.
  destruct (@fit_outcome sortValues [[1]; [2]; [3]; [4]]%float [0; 0; 1; 1]%Z)
    as [_ H]; [simpl; lia|].
  destruct H as (t & E & D & _); [discriminate|].
  exists t. split; assumption.
Defined.

(** The tree of four rows, asked about a row without features. *)
Lemma predict_known_labels_witness :
  exists predictions,
    predict (Some (Split 0 2.5 (Leaf 0) (Leaf 1))) [[]; [7]]%float = Return predictions /\
    length predictions = 2 /\
    forall p, In p predictions -> In p [0; 0; 1; 1]%Z.
Proof.
  exact (@predict_known_labels sortValues [[1]; [2]; [3]; [4]]%float [0; 0; 1; 1]%Z
           (Split 0 2.5 (Leaf 0) (Leaf 1)) [[]; [7]]%float eq_refl).
Defined.

(** Three rows, all labelled 4. *)
Lemma fit_pure_witness :
  fit sortValues [[1]; [2]; [3]]%float [4; 4; 4]%Z = Return (Leaf 4%Z).
Proof.
  refine (proj1 (@fit_pure sortValues [[1]; [2]; [3]]%float [4; 4; 4]%Z 4%Z [] _ _)).
  - discriminate.
  - simpl. intros w [<-|[<-|[<-|[]]]]; reflexivity.
Defined.

(** The tree of four rows, asked about a row it has not seen. *)
Lemma predict_majority_of_leaf_witness :
  getMostCommonValue
    (map snd (filter (fun e => sameLeaf (Split 0 2.5 (Leaf 0) (Leaf 1)) (fst e) [9]%float)
                (combine [[1]; [2]; [3]; [4]]%float [0; 0; 1; 1]%Z)))
  = Return 1%Z.
Proof.
  exact (proj1 (proj2 (@predict_majority_of_leaf sortValues
           [[1]; [2]; [3]; [4]]%float [0; 0; 1; 1]%Z
           (Split 0 2.5 (Leaf 0) (Leaf 1)) [9]%float eq_refl eq_refl))).
Defined.

End TreeWitnesses.

Section TreeTraining.
Import JS MLModels DecisionTreeClass.

Variable Metrics : Type.
Variable calculateMetrics : list number -> list number -> ProblemType -> Metrics.
Variable fitPredict :
  Estimator -> list (list number) -> list number -> list (list number) ->
  completion (list number).
Variables startTime endTime : Z.
Variable sort : list (option float) -> list (option float).

(** The numbers of a row. *)
Variable asRow : list number -> list float.

Hypothesis fitPredict_tree : forall XTrain yTrain XTest,
  fitPredict DecisionTree XTrain yTrain XTest
  = bind (fit sort (map asRow XTrain) yTrain) (fun t =>
      predict (Some t) (map asRow XTest)).

(** X17. Training the decision tree on aligned features and
    targets: with fewer than two rows the training part is empty and the
    pipeline throws the [TypeError] of [reduce]; with two rows or more it
    returns, names the model [Decision Tree], predicts one label per
    held-out row, predicts only labels of the training part, and reports
    the confusion matrix of the held-out targets and these predictions. *)
Theorem trainModel_decisiontree (X : list (list number)) (y : list number) :
  length y = length X ->
  (length X < 2 ->
   trainModel calculateMetrics fitPredict startTime endTime X y
     classification "decisiontree"
   = Throw "Failed to train : TypeError: Reduce of empty array with no initial value") /\
  (2 <= length X ->
   exists r,
     trainModel calculateMetrics fitPredict startTime endTime X y
       classification "decisiontree" = Return r /\
     model r = "Decision Tree"%string /\
     length (predictions r) = length (yTest X y) /\
     length (predictions r) = length X - 4 * length X / 5 /\
     (forall p, In p (predictions r) -> In p (yTrain X y)) /\
     confusionMatrix r = Some (calculateConfusionMatrix (yTest X y) (predictions r))).
Proof.
  intros Hlen.
  assert (Hk : splitIndex X = 4 * length X / 5) by reflexivity.
  assert (Hk' : 4 * length X / 5 <= length X).
  { apply Nat.Div0.div_le_upper_bound. lia. }
  assert (HXt : length (XTrain X) = splitIndex X)
    by (unfold XTrain; rewrite length_firstn; lia).
  assert (Hyt : length (yTrain X y) = splitIndex X)
    by (unfold yTrain; rewrite length_firstn; lia).
  assert (HXs : length (XTest X) = length X - splitIndex X)
    by (unfold XTest; apply length_skipn).
  assert (Hys : length (yTest X y) = length X - splitIndex X)
    by (unfold yTest; rewrite length_skipn; lia).
  unfold trainModel, fitAndPredict.
  change (String.eqb "decisiontree" "logistic" || String.eqb "decisiontree" "auto")
    with false.
  change (String.eqb "decisiontree" "decisiontree") with true. cbv iota.
  rewrite fitPredict_tree. split.
  - intros Hn.
    assert (E : splitIndex X = 0).
    { rewrite Hk. destruct X as [|a [|b X']]; simpl in *; try reflexivity. lia. }
    assert (EX : XTrain X = []) by (apply length_zero_iff_nil; lia).
    assert (Ey : yTrain X y = []) by (apply length_zero_iff_nil; lia).
    rewrite EX, Ey. reflexivity.
  - intros Hn.
    assert (E : 0 < splitIndex X).
    { rewrite Hk. apply Nat.div_str_pos. lia. }
    assert (Hy : yTrain X y <> []) by (apply nonempty_length; lia).
    destruct (@buildTree_returns sort maxDepth (map asRow (XTrain X)) (yTrain X y)) as [t Et];
      [exact Hy | rewrite length_map; lia |].
    unfold fit. rewrite Et. cbn [bind predict].
    eexists. split; [reflexivity|]. cbn [model predictions confusionMatrix].
    split; [reflexivity|]. rewrite !length_map.
    split; [lia|]. split; [lia|]. split; [|reflexivity].
    intros p Hp. apply in_map_iff in Hp as (row & <- & _).
    apply buildTree_bounds in Et as (_ & L & _). apply L, predictSingle_leaf.
Qed.

End TreeTraining.

(** Five integer rows, read as the numbers they are. *)
Lemma trainModel_decisiontree_witness :
  exists r,
    MLModels.trainModel (fun _ _ _ => tt)
      (fun _ XTrain yTrain XTest =>
         MLModels.bind
           (DecisionTreeClass.fit DecisionTreeClass.sortValues
              (map (map JS.float_of_Z) XTrain) yTrain)
           (fun t => DecisionTreeClass.predict (Some t) (map (map JS.float_of_Z) XTest)))
      0%Z 0%Z [[1]; [2]; [3]; [4]; [5]]%Z [0; 0; 1; 1; 1]%Z
      DataProcessor.classification "decisiontree" = JS.Return r /\
    MLModels.model r = "Decision Tree"%string.
Proof.
  destruct (@trainModel_decisiontree unit (fun _ _ _ => tt)
              (fun _ XTrain yTrain XTest =>
                 MLModels.bind
                   (DecisionTreeClass.fit DecisionTreeClass.sortValues
                      (map (map JS.float_of_Z) XTrain) yTrain)
                   (fun t => DecisionTreeClass.predict (Some t)
                               (map (map JS.float_of_Z) XTest)))
              0%Z 0%Z DecisionTreeClass.sortValues (map JS.float_of_Z)
              (fun _ _ _ => eq_refl)
              [[1]; [2]; [3]; [4]; [5]]%Z [0; 0; 1; 1; 1]%Z eq_refl) as [_ H].
  destruct H as (r & E & M & _); [simpl; lia|].
  exists r. split; assumption.
Defined.

(** ** The metrics *)

Section MetricsFacts.
Import JS MLModels Metrics.

(** A test on the element of another list at the same index, along the
    pairs of the two lists. *)
Lemma countWhere_combine (q : Z -> option Z -> bool) (xs ys : list Z) :
  length ys = length xs ->
  countWhere (fun val idx => q val (nth_error ys idx)) xs
  = length (filter (fun e => q (fst e) (Some (snd e))) (combine xs ys)).
Proof.
  intros Hlen. unfold countWhere, indexed.
  assert (G : forall xs ys pre, length ys = length xs ->
            length (filter (fun e : nat * Z => q (snd e) (nth_error (pre ++ ys) (fst e)))
                      (combine (seq (length pre) (length xs)) xs))
            = length (filter (fun e => q (fst e) (Some (snd e))) (combine xs ys))).
  { clear. induction xs as [|x xs IH]; intros [|y ys] pre Hlen; simpl in *;
      try reflexivity; try discriminate.
    rewrite nth_error_app2, Nat.sub_diag by lia. simpl.
    specialize (IH ys (pre ++ [y])).
    rewrite <- app_assoc, length_app, Nat.add_1_r in IH. simpl in IH.
    destruct (q x (Some y)); simpl; rewrite IH by lia; reflexivity. }
  exact (G xs ys [] Hlen).
Qed.

Lemma map_nth_seq (A B : Type) (f : A -> B) (d : A) (l : list A) :
  map (fun i => f (nth i l d)) (seq 0 (length l)) = map f l.
Proof.
  induction l as [|x l IH]; simpl; [reflexivity|].
  f_equal. rewrite <- seq_shift, map_map. exact IH.
Qed.

Lemma trace_matrixOver (classes actual predicted : list Z) :
  trace (Spec.matrixOver classes actual predicted)
  = list_sum (map (fun a => Spec.countPairs a a actual predicted) classes).
Proof.
  unfold trace, Spec.matrixOver. rewrite length_map.
  rewrite <- (map_nth_seq (fun a => Spec.countPairs a a actual predicted) 0%Z classes).
  f_equal. apply map_ext_in. intros i Hi. apply in_seq in Hi.
  rewrite (nth_indep _ [] (map (fun p => Spec.countPairs 0%Z p actual predicted) classes))
    by (rewrite length_map; lia).
  rewrite (map_nth (fun a => map (fun p => Spec.countPairs a p actual predicted) classes)).
  rewrite (nth_indep _ 0 (Spec.countPairs (nth i classes 0%Z) 0%Z actual predicted))
    by (rewrite length_map; lia).
  now rewrite (map_nth (fun p => Spec.countPairs (nth i classes 0%Z) p actual predicted)).
Qed.

(** The agreeing pairs, class by class. *)
Lemma agreeing_pairs (classes actual predicted : list Z) :
  NoDup classes -> (forall x, In x actual -> In x classes) ->
  list_sum (map (fun a => Spec.countPairs a a actual predicted) classes)
  = length (filter (fun e => (fst e =? snd e)%Z) (combine actual predicted)).
Proof.
  intros Hnd Hin.
  rewrite <- (@list_sum_classes _ fst classes
                (filter (fun e => (fst e =? snd e)%Z) (combine actual predicted)) Hnd).
  - f_equal. apply map_ext. intros a. unfold Spec.countPairs.
    rewrite <- filter_andb. f_equal. apply filter_ext. intros [x y]. simpl.
    destruct (Z.eqb_spec x y) as [->|Hne]; simpl.
    + now rewrite Bool.andb_diag.
    + destruct (Z.eqb_spec x a) as [->|]; simpl; [|reflexivity].
      apply Z.eqb_neq. congruence.
  - intros [x y] He. apply filter_In in He as [He _].
    apply Hin. eapply in_combine_l, He.
Qed.

End MetricsFacts.

Section MetricsExtras.
Import JS MLModels Metrics.

Variable regressionMetrics : list number -> list number -> list (string * float).

(** X18. For aligned vectors the Accuracy is the share of
    the positions counted on the diagonal of the confusion matrix among all
    positions, written with four decimals; for no position at all it is
    NaN. *)
Theorem calculateMetrics_accuracy (actual predicted : list number) :
  length predicted = length actual ->
  get (calculateMetrics regressionMetrics actual predicted classification) "Accuracy"
  = Some (toFixed4 (float_of_nat (trace (calculateConfusionMatrix actual predicted))
                    / float_of_nat (length actual))) /\
  (actual = [] ->
   get (calculateMetrics regressionMetrics actual predicted classification) "Accuracy"
   = Some nan).
Proof.
  intros Hlen. split.
  - rewrite (calculateConfusionMatrix_counts actual predicted Hlen).
    rewrite trace_matrixOver.
    rewrite agreeing_pairs
      by (apply uniqueClasses_NoDup || (intros x Hx; apply uniqueClasses_in; now left)).
    assert (E : countWhere (fun val idx => sameLabel (nth_error predicted idx) val) actual
                = length (filter (fun e => (fst e =? snd e)%Z) (combine actual predicted))).
    { rewrite (@countWhere_combine (fun val other => sameLabel other val)
                 actual predicted Hlen).
      f_equal. apply filter_ext. intros [x y]. simpl. apply Z.eqb_sym. }
    unfold calculateMetrics. cbv zeta. rewrite E.
    destruct (length (Set_of Z.eqb (actual ++ predicted)) =? 2); reflexivity.
  - intros ->. destruct predicted; [|discriminate]. reflexivity.
Qed.

End MetricsExtras.

Section MetricsWitnesses.
Import JS MLModels Metrics.

(** Five positions, four of them right. *)
Lemma calculateMetrics_accuracy_witness :
  get (calculateMetrics (fun _ _ => []) [0; 1; 1; 0; 1]%Z [0; 1; 0; 0; 1]%Z classification)
      "Accuracy"
  = Some (toFixed4 (float_of_nat (trace (calculateConfusionMatrix
                                           [0; 1; 1; 0; 1]%Z [0; 1; 0; 0; 1]%Z))
                    / float_of_nat 5)).
Proof.
  exact (proj1 (@calculateMetrics_accuracy (fun _ _ => [])
                  [0; 1; 1; 0; 1]%Z [0; 1; 0; 0; 1]%Z eq_refl)).
Defined.

End MetricsWitnesses.

(** ** More about the profiler *)

Section SampleFacts.
Import JS DataProcessor.

Lemma filter_cons_length (A : Type) (p : A -> bool) (x : A) (l : list A) :
  length (filter p (x :: l)) = (if p x then 1 else 0) + length (filter p l).
Proof. simpl. destruct (p x); reflexivity. Qed.

Lemma filter_map_length (A B : Type) (f : A -> B) (p : B -> bool) (l : list A) :
  length (filter p (map f l)) = length (filter (fun x => p (f x)) l).
Proof.
  induction l as [|x l IH]; [reflexivity|].
  rewrite map_cons, !filter_cons_length, IH. reflexivity.
Qed.

(** What one cell adds to the counts. *)
Lemma cell_counts (v : value) :
  (if negb (isNaN (Number v)) then 1 else 0)
  + (if typeof_number v && isNaN (Number v) then 1 else 0)
  = (if notMissing v && isNumeric v then 1 else 0)
    + (if is_null v then 1 else 0)
    + (if is_empty_string v then 1 else 0).
Proof.
  destruct v as [f|[|a s]|[|]| |]; unfold notMissing, isNumeric; cbn [typeof_number
    Number is_null is_undefined is_empty_string negb andb orb];
    try reflexivity.
  - destruct (isNaN f); reflexivity.
  - destruct (isNaN (StringToNumber (String a s))); reflexivity.
Qed.

(** X4. The numbers the statistics of a column are taken from are
    the cells that [Number] converts to something other than [NaN]: they
    include a 0 for every [null] and every [''] cell, which the count of
    missing values also counts, and leave out the cells that are the number
    [NaN]. So their count is the count of the numeric cells that are not
    missing, plus the [null] and [''] cells, minus the [NaN] cells. *)
Theorem numbersOf_counts_missing_cells (data : list DataPoint) (col : string) :
  length (numbersOf data col)
  + length (filter (fun v => typeof_number v && isNaN (Number v)) (columnValues data col))
  = length (numericalValues data col)
    + length (filter is_null (columnValues data col))
    + length (filter is_empty_string (columnValues data col)) /\
  ((exists row, In row data /\ (cell row col = VNull \/ cell row col = VString "")) ->
   In 0%float (numbersOf data col)).
Proof.
  split.
  - unfold numbersOf, numericalValues, nonNullValues.
    rewrite <- (map_map (fun row => cell row col) Number data).
    fold (columnValues data col).
    rewrite filter_map_length, <- filter_andb.
    induction (columnValues data col) as [|v l IH]; [reflexivity|].
    rewrite !filter_cons_length. pose proof (cell_counts v). lia.
  - intros (row & Hin & Hcell). unfold numbersOf. apply filter_In. split.
    + apply in_map_iff. exists row. split; [|exact Hin].
      destruct Hcell as [-> | ->]; reflexivity.
    + reflexivity.
Qed.

End SampleFacts.

Section CompleteData.
Import JS DataProcessor Notions.

Lemma filter_whole (A : Type) (p : A -> bool) (l : list A) :
  length l <= length (filter p l) -> forall x, In x l -> p x = true.
Proof.
  induction l as [|a l IH]; simpl; intros H x Hin; [destruct Hin|].
  destruct (p a) eqn:E.
  - simpl in H. destruct Hin as [<-|Hin]; [exact E | apply IH; [lia | exact Hin]].
  - pose proof (filter_length_le p l). lia.
Qed.

(** X5. When the analysis of a dataset reports no missing value
    in any column, the encoder drops no row, whichever column is the
    target and with all the other columns as features: there is one
    feature row and one target for every row of the dataset, in its
    order. *)
Theorem complete_data_keeps_every_row (data : list DataPoint) (r : DataAnalysis)
    (targetColumn : string) :
  analyzeData data = Return r ->
  (forall col, In col (columns r) -> get (missingValues r) col = Some 0) ->
  In targetColumn (columns r) ->
  let featureColumns :=
    filter (fun col => negb (String.eqb col targetColumn)) (columns r) in
  prepareFeatures data featureColumns targetColumn
  = (map (featureRow featureColumns) data,
     map (fun row => encode (cell row targetColumn)) data).
Proof.
  intros Hr Hzero Htarget featureColumns.
  assert (Hfull : forall col row, In col (columns r) -> In row data ->
            notMissing (cell row col) = true).
  { intros col row Hcol Hrow.
    destruct (analyzeData_inv data Hr) as (row0 & rest & _ & Hc & _ & Hm & _).
    pose proof Hcol as Hcol'. rewrite Hc in Hcol'.
    destruct (classify_here data (keys row0)
               {| t_dtypes := []; t_missingValues := [];
                  t_numericalColumns := []; t_categoricalColumns := [] |} col Hcol')
      as [_ H].
    rewrite <- Hm, (Hzero col Hcol) in H. injection H as H.
    assert (Hlen : length (columnValues data col) <= length (nonNullValues data col)).
    { unfold columnValues at 1. rewrite length_map. lia. }
    apply (filter_whole notMissing (columnValues data col) Hlen).
    unfold columnValues. apply in_map_iff. now exists row. }
  assert (Hkept : filter (retained featureColumns targetColumn) data = data).
  { apply filter_all. apply forallb_forall. intros row Hrow. unfold retained.
    apply andb_true_intro. split.
    - apply forallb_forall. intros col Hcol. apply Hfull; [|exact Hrow].
      subst featureColumns. now apply filter_In in Hcol as [Hcol _].
    - pose proof (Hfull targetColumn row Htarget Hrow) as H.
      unfold notMissing in H. unfold notNullish.
      destruct (is_null _), (is_undefined _); simpl in *; congruence. }
  unfold prepareFeatures. rewrite encodeRow_fold, Hkept. reflexivity.
Qed.

End CompleteData.

(** Two fruits, their kind as the target. *)
Lemma complete_data_keeps_every_row_witness :
  DataProcessor.prepareFeatures Examples.fruit ["weight"%string] "kind"
  = (map (Notions.featureRow ["weight"%string]) Examples.fruit,
     map (fun row => DataProcessor.encode (DataProcessor.cell row "kind")) Examples.fruit).
Proof.
  refine (@complete_data_keeps_every_row Examples.fruit _ "kind" eq_refl _ _).
  - intros col Hcol. simpl in Hcol. destruct Hcol as [<-|[<-|[]]]; reflexivity.
  - simpl. auto.
Defined.

(** ** The class balance *)

Section TableFacts.
Import JS ClassBalance.

Lemma total_set_new (T : list (string * Entry)) (k : string) (e : Entry) :
  get T k = None -> total (set T k e) = total T + weight e.
Proof.
  unfold total. induction T as [|[k' e'] T IH]; simpl; [lia|].
  destruct (String.eqb k' k); [discriminate|]. intros H. simpl. rewrite IH by exact H. lia.
Qed.

Lemma total_set_old (T : list (string * Entry)) (k : string) (e0 e : Entry) :
  get T k = Some e0 -> total (set T k e) + weight e0 = total T + weight e.
Proof.
  unfold total. induction T as [|[k' e'] T IH]; simpl; [discriminate|].
  destruct (String.eqb k' k); simpl.
  - intros [= ->]. lia.
  - intros H. specialize (IH H). lia.
Qed.

Lemma keys_set (T : list (string * Entry)) (k : string) (e : Entry) :
  map fst (set T k e) = Set_add String.eqb (map fst T) k.
Proof.
  induction T as [|[k' e'] T IH]; simpl; [reflexivity|].
  destruct (String.eqb k' k); simpl; [reflexivity | now rewrite IH].
Qed.

Lemma append_nonempty (s : string) : (s ++ "1")%string <> ""%string.
Proof. destruct s; discriminate. Qed.

End TableFacts.

Section BalanceFacts.
Import JS DataProcessor ClassBalance.

Variable numberToString : float -> string.
Variable inherited : string -> option string.
Variable targetColumn : string.

Lemma rowsOf_app (seen : list DataPoint) (row : DataPoint) (k : string) :
  rowsOf numberToString (seen ++ [row]) targetColumn k
  = rowsOf numberToString seen targetColumn k
    + (if String.eqb (classOf numberToString targetColumn row) k then 1 else 0).
Proof.
  unfold rowsOf. rewrite filter_app, length_app. simpl.
  destruct (String.eqb _ k); reflexivity.
Qed.

Lemma plain_app (seen : list DataPoint) (row : DataPoint) :
  length (filter (plain numberToString inherited targetColumn) (seen ++ [row]))
  = length (filter (plain numberToString inherited targetColumn) seen)
    + (if plain numberToString inherited targetColumn row then 1 else 0).
Proof.
  rewrite filter_app, length_app. simpl.
  destruct (plain _ _ _ row); reflexivity.
Qed.

Lemma countRow_counted (T : list (string * Entry)) (seen : list DataPoint)
    (row : DataPoint) :
  counted numberToString inherited targetColumn T seen ->
  counted numberToString inherited targetColumn
    (countRow numberToString inherited targetColumn T row) (seen ++ [row]).
Proof.
  intros (Ha & Hb & Hc).
  set (v := classOf numberToString targetColumn row).
  assert (Hother : forall k, k <> v ->
            rowsOf numberToString (seen ++ [row]) targetColumn k
            = rowsOf numberToString seen targetColumn k).
  { intros k Hk. rewrite rowsOf_app. fold v.
    destruct (String.eqb_spec v k); [congruence | lia]. }
  assert (Hsame : rowsOf numberToString (seen ++ [row]) targetColumn v
                  = rowsOf numberToString seen targetColumn v + 1).
  { rewrite rowsOf_app. fold v. now rewrite String.eqb_refl. }
  unfold countRow. fold (classOf numberToString targetColumn row). fold v.
  unfold counted. rewrite plain_app. unfold plain at 2. fold v.
  destruct (inherited v) as [s|] eqn:Ev.
  - (* a name the empty object inherits *)
    specialize (Hb v s Ev) as Hv.
    destruct (get T v) as [[c|t]|] eqn:Eg; [destruct Hv| |].
    + destruct Hv as [Ht Hp].
      destruct (String.eqb_spec t ""); [contradiction|].
      split; [|split].
      * intros k Hk. assert (k <> v) by congruence.
        rewrite get_set_other by congruence. rewrite Hother by assumption. now apply Ha.
      * intros k s' Hk. destruct (String.eqb_spec k v) as [->|Hne].
        -- rewrite get_set_same. split; [apply append_nonempty | exact Hp].
        -- rewrite get_set_other by congruence. rewrite Hother by assumption.
           now apply (Hb k s').
      * pose proof (total_set_old T v (Text (t ++ "1")) Eg) as H. simpl in H. lia.
    + destruct (String.eqb_spec v "__proto__") as [Hp|Hp].
      * split; [|split].
        -- intros k Hk. assert (k <> v) by congruence.
           rewrite Hother by assumption. now apply Ha.
        -- intros k s' Hk. destruct (String.eqb_spec k v) as [->|Hne].
           ++ rewrite Eg. now left.
           ++ rewrite Hother by assumption. now apply (Hb k s').
        -- lia.
      * split; [|split].
        -- intros k Hk. assert (k <> v) by congruence.
           rewrite get_set_other by congruence. rewrite Hother by assumption. now apply Ha.
        -- intros k s' Hk. destruct (String.eqb_spec k v) as [->|Hne].
           ++ rewrite get_set_same. split; [apply append_nonempty | exact Hp].
           ++ rewrite get_set_other by congruence. rewrite Hother by assumption.
              now apply (Hb k s').
        -- rewrite (total_set_new T v (Text (s ++ "1")) Eg). simpl. lia.
  - (* a plain name *)
    specialize (Ha v Ev) as Hv.
    assert (Hstep : forall c (T' : list (string * Entry)),
              c = rowsOf numberToString seen targetColumn v ->
              T' = set T v (Count (c + 1)) ->
              total T' = total T + 1 ->
              (forall k, inherited k = None ->
                 get T' k = if rowsOf numberToString (seen ++ [row]) targetColumn k =? 0
                            then None
                            else Some (Count (rowsOf numberToString (seen ++ [row])
                                                targetColumn k))) /\
              (forall k s, inherited k = Some s ->
                 match get T' k with
                 | None => k = "__proto__"%string
                           \/ rowsOf numberToString (seen ++ [row]) targetColumn k = 0
                 | Some (Text t) => t <> ""%string /\ k <> "__proto__"%string
                 | Some (Count _) => False
                 end) /\
              total T' = length (filter (plain numberToString inherited targetColumn) seen) + 1).
    { intros c T' -> -> Ht. split; [|split].
      - intros k Hk. destruct (String.eqb_spec k v) as [->|Hne].
        + rewrite get_set_same, Hsame.
          destruct (rowsOf numberToString seen targetColumn v + 1 =? 0) eqn:E;
            [apply Nat.eqb_eq in E; lia | reflexivity].
        + rewrite get_set_other by congruence. rewrite Hother by assumption. now apply Ha.
      - intros k s Hk. assert (k <> v) by congruence.
        rewrite get_set_other by congruence. rewrite Hother by assumption.
        now apply (Hb k s).
      - lia. }
    destruct (rowsOf numberToString seen targetColumn v =? 0) eqn:E0.
    + rewrite Hv. apply Nat.eqb_eq in E0.
      apply (Hstep 0); [congruence | reflexivity |].
      rewrite (total_set_new T v (Count 1) Hv). simpl. lia.
    + rewrite Hv. apply (Hstep (rowsOf numberToString seen targetColumn v));
        [reflexivity | reflexivity |].
      pose proof (total_set_old T v
                    (Count (rowsOf numberToString seen targetColumn v + 1)) Hv) as H.
      simpl in H. lia.
Qed.

Lemma getClassBalance_counted (data : list DataPoint) :
  counted numberToString inherited targetColumn
    (getClassBalance numberToString inherited data targetColumn) data.
Proof.
  unfold getClassBalance.
  assert (G : forall data T seen,
            counted numberToString inherited targetColumn T seen ->
            counted numberToString inherited targetColumn
              (fold_left (countRow numberToString inherited targetColumn) data T)
              (seen ++ data)).
  { clear data. induction data as [|row data IH]; intros T seen H; simpl.
    - now rewrite app_nil_r.
    - replace (seen ++ row :: data) with ((seen ++ [row]) ++ data)
        by (rewrite <- app_assoc; reflexivity).
      apply IH. now apply countRow_counted. }
  apply (G data [] []). repeat split.
  - intros k s _. now right.
Qed.

Lemma countRow_keys (T : list (string * Entry)) (row : DataPoint) :
  inherited (classOf numberToString targetColumn row) = None ->
  map fst (countRow numberToString inherited targetColumn T row)
  = Set_add String.eqb (map fst T) (classOf numberToString targetColumn row).
Proof.
  intros H. unfold countRow. fold (classOf numberToString targetColumn row).
  rewrite H. destruct (get T _) as [[c|t]|]; apply keys_set.
Qed.

Lemma getClassBalance_keys (data : list DataPoint) :
  (forall row, In row data -> inherited (classOf numberToString targetColumn row) = None) ->
  map fst (getClassBalance numberToString inherited data targetColumn)
  = Set_of String.eqb (map (classOf numberToString targetColumn) data).
Proof.
  unfold getClassBalance, Set_of.
  assert (G : forall data T,
            (forall row, In row data ->
               inherited (classOf numberToString targetColumn row) = None) ->
            map fst (fold_left (countRow numberToString inherited targetColumn) data T)
            = fold_left (Set_add String.eqb)
                (map (classOf numberToString targetColumn) data) (map fst T)).
  { clear data. induction data as [|row data IH]; intros T H; simpl; [reflexivity|].
    rewrite IH by (intros r Hr; apply H; now right).
    rewrite countRow_keys by (apply H; now left). reflexivity. }
  intros H. apply (G data [] H).
Qed.

Lemma get_in_keys (T : list (string * Entry)) (k : string) (e : Entry) :
  get T k = Some e -> In k (map fst T).
Proof.
  induction T as [|[k' e'] T IH]; simpl; [discriminate|].
  destruct (String.eqb_spec k' k); [now left | auto].
Qed.

Lemma Set_add_names (s : list string) (a x : string) :
  In x (Set_add String.eqb s a) -> In x s \/ x = a.
Proof.
  induction s as [|y s IH]; simpl.
  - intros [<-|[]]. now right.
  - destruct (String.eqb y a); simpl; [tauto|].
    intros [H|H]; [tauto|]. destruct (IH H); tauto.
Qed.

Lemma Set_of_names (l : list string) (x : string) :
  In x (Set_of String.eqb l) -> In x l.
Proof.
  unfold Set_of.
  assert (G : forall l s, In x (fold_left (Set_add String.eqb) l s) -> In x s \/ In x l).
  { clear l. induction l as [|a l IH]; intros s H; simpl in *; [tauto|].
    apply IH in H as [H|H]; [|tauto].
    apply Set_add_names in H as [H| ->]; tauto. }
  intros H. apply G in H as [[]|H]. exact H.
Qed.

Lemma rowsOf_positive (data : list DataPoint) (k : string) :
  0 < rowsOf numberToString data targetColumn k <->
  exists row, In row data /\ classOf numberToString targetColumn row = k.
Proof.
  unfold rowsOf. split.
  - intros H.
    destruct (filter (fun row => String.eqb (classOf numberToString targetColumn row) k) data)
      as [|row l] eqn:E; [simpl in H; lia|].
    assert (Hin : In row (row :: l)) by now left.
    rewrite <- E in Hin. apply filter_In in Hin as [Hin Hk].
    exists row. split; [exact Hin | now apply String.eqb_eq].
  - intros (row & Hin & Hk).
    assert (H : In row (filter (fun row =>
                  String.eqb (classOf numberToString targetColumn row) k) data)).
    { apply filter_In. split; [exact Hin | now apply String.eqb_eq]. }
    destruct (filter _ data); [destruct H | simpl; lia].
Qed.

(** X20. When no class name is the name of a property that every
    object inherits, the class balance has a key exactly for every text
    that [String] makes of a target value, with the number of rows of that
    text; rows whose target is [null] or [undefined] are counted too (as
    ['null'] and ['undefined']), so the counts add up to the number of
    rows. *)
Theorem getClassBalance_counts (data : list DataPoint) :
  (forall row, In row data -> inherited (classOf numberToString targetColumn row) = None) ->
  let table := getClassBalance numberToString inherited data targetColumn in
  (forall k, get table k
             = if rowsOf numberToString data targetColumn k =? 0 then None
               else Some (Count (rowsOf numberToString data targetColumn k))) /\
  (forall k, get table k <> None <->
     exists row, In row data /\ classOf numberToString targetColumn row = k) /\
  total table = length data.
Proof.
  intros Hplain table. subst table.
  destruct (getClassBalance_counted data) as (Ha & Hb & Hc).
  assert (Hget : forall k,
            get (getClassBalance numberToString inherited data targetColumn) k
            = if rowsOf numberToString data targetColumn k =? 0 then None
              else Some (Count (rowsOf numberToString data targetColumn k))).
  2: { split; [exact Hget|]. split.
       - intros k. rewrite Hget, <- rowsOf_positive.
         destruct (rowsOf numberToString data targetColumn k); simpl;
           split; intros H; try lia; congruence.
       - rewrite Hc. f_equal. apply filter_all. apply forallb_forall.
         intros row Hin. unfold plain. now rewrite (Hplain row Hin). }
  - intros k. destruct (inherited k) as [s|] eqn:Ek; [|now apply Ha].
    assert (H0 : rowsOf numberToString data targetColumn k = 0).
    { destruct (rowsOf numberToString data targetColumn k) eqn:E; [reflexivity|].
      assert (H : 0 < rowsOf numberToString data targetColumn k) by lia.
      apply rowsOf_positive in H as (row & Hin & <-).
      rewrite (Hplain row Hin) in Ek. discriminate. }
    rewrite H0. simpl.
    destruct (get _ k) as [e|] eqn:Eg; [|reflexivity].
    apply get_in_keys in Eg. rewrite getClassBalance_keys in Eg by exact Hplain.
    apply Set_of_names, in_map_iff in Eg as (row & <- & Hin).
    rewrite (Hplain row Hin) in Ek. discriminate.
Qed.

(** X21. A class whose name is the name of a property that
    every object inherits ([toString], [constructor], ...) never gets a
    count: its entry is a text, and for [__proto__] there is no entry at
    all. The counts of the table add up to the number of the other rows
    only. *)
Theorem getClassBalance_inherited_names (data : list DataPoint) :
  let table := getClassBalance numberToString inherited data targetColumn in
  (forall k s n, inherited k = Some s -> get table k <> Some (Count n)) /\
  (forall s, inherited "__proto__"%string = Some s -> get table "__proto__" = None) /\
  (forall k s, inherited k = Some s -> k <> "__proto__"%string ->
     (exists row, In row data /\ classOf numberToString targetColumn row = k) ->
     exists t, get table k = Some (Text t)) /\
  total table = length (filter (plain numberToString inherited targetColumn) data).
Proof.
  intros table. subst table.
  destruct (getClassBalance_counted data) as (_ & Hb & Hc).
  split; [|split; [|split]].
  - intros k s n Hk Hg. specialize (Hb k s Hk). now rewrite Hg in Hb.
  - intros s Hk. specialize (Hb _ s Hk).
    destruct (get _ "__proto__") as [[c|t]|]; [destruct Hb | | reflexivity].
    destruct Hb as [_ H]. now destruct H.
  - intros k s Hk Hp Hrow. specialize (Hb k s Hk).
    apply rowsOf_positive in Hrow.
    destruct (get _ k) as [[c|t]|]; [destruct Hb | eauto |].
    destruct Hb as [Hb|Hb]; [contradiction | lia].
  - exact Hc.
Qed.

End BalanceFacts.

Section BalanceWitnesses.
Import JS DataProcessor ClassBalance.

(** Two cats, a dog and a row without a target. *)
Lemma getClassBalance_counts_witness :
  getClassBalance (fun _ => "0"%string) Examples.prototypeNames Examples.pets "pet"
  = [("cat"%string, Count 2); ("dog"%string, Count 1); ("null"%string, Count 1)] /\
  total (getClassBalance (fun _ => "0"%string) Examples.prototypeNames Examples.pets "pet")
  = 4.
Proof.
  split; [reflexivity|].
  refine (proj2 (proj2 (@getClassBalance_counts (fun _ => "0"%string)
            Examples.prototypeNames "pet" Examples.pets _))).
  intros row Hin. simpl in Hin.
  destruct Hin as [<-|[<-|[<-|[<-|[]]]]]; reflexivity.
Defined.

End BalanceWitnesses.

(** ** The training handler, the models on offer and the pages *)

Lemma filter_none (A : Type) (p : A -> bool) (l : list A) :
  (forall x, In x l -> p x = false) -> filter p l = [].
Proof.
  intros H. induction l as [|x l IH]; simpl; [reflexivity|].
  rewrite (H x) by now left. apply IH. intros y Hy. apply H. now right.
Qed.

Section HandlerExtras.
Import JS DataProcessor Notions App.

Variable ModelResults : Type.
Variable trainModel :
  list (list float) -> list float -> option ProblemType -> string ->
  completion ModelResults.

(** X22. With an analysis and a target chosen, the training handler
    takes every column but the target as a feature and is never without
    effect. It reports ['No valid feature data found after preprocessing'],
    and does not call [trainModel], when every row has a missing feature or
    a [null] or [undefined] target, which is so as soon as one feature
    column is missing in every row. Otherwise it calls [trainModel] on the
    encoded rows, which are not empty, with the problem type of the
    analysis, and reports its result or its error message. *)
Theorem handleModelTrain_preprocessing (data : list DataPoint) (a : Analysis)
    (selectedTarget modelType : string) :
  selectedTarget <> ""%string ->
  let featureColumns :=
    filter (fun col => negb (String.eqb col selectedTarget)) (columns (profile a)) in
  let outcome := handleModelTrain trainModel data (Some a) selectedTarget modelType in
  (forall col, In col featureColumns <->
     In col (columns (profile a)) /\ col <> selectedTarget) /\
  outcome <> Ignored ModelResults /\
  ((forall row, In row data -> retained featureColumns selectedTarget row = false) ->
   outcome = Failed ModelResults "No valid feature data found after preprocessing") /\
  ((exists col, In col featureColumns /\
      forall row, In row data -> notMissing (cell row col) = false) ->
   outcome = Failed ModelResults "No valid feature data found after preprocessing") /\
  ((exists row, In row data /\ retained featureColumns selectedTarget row = true) ->
   fst (prepareFeatures data featureColumns selectedTarget) <> [] /\
   outcome
   = match trainModel (fst (prepareFeatures data featureColumns selectedTarget))
             (snd (prepareFeatures data featureColumns selectedTarget))
             (problemType a) modelType with
     | Return modelResults => Trained modelResults
     | Throw message => Failed ModelResults message
     end).
Proof.
  intros Htarget featureColumns outcome.
  assert (Hprep : prepareFeatures data featureColumns selectedTarget
                  = (map (featureRow featureColumns)
                       (filter (retained featureColumns selectedTarget) data),
                     map (fun row => encode (cell row selectedTarget))
                       (filter (retained featureColumns selectedTarget) data))).
  { unfold prepareFeatures. now rewrite encodeRow_fold. }
  assert (Hout : outcome
                 = if length (filter (retained featureColumns selectedTarget) data) =? 0
                   then Failed ModelResults "No valid feature data found after preprocessing"
                   else match trainModel
                                (fst (prepareFeatures data featureColumns selectedTarget))
                                (snd (prepareFeatures data featureColumns selectedTarget))
                                (problemType a) modelType with
                        | Return modelResults => Trained modelResults
                        | Throw message => Failed ModelResults message
                        end).
  { subst outcome. unfold handleModelTrain.
    destruct (String.eqb_spec selectedTarget ""); [contradiction|].
    fold featureColumns. rewrite Hprep. cbn [fst snd]. now rewrite length_map. }
  assert (Hnone : (forall row, In row data ->
                     retained featureColumns selectedTarget row = false) ->
                  filter (retained featureColumns selectedTarget) data = []).
  { apply filter_none. }
  split; [|split; [|split; [|split]]].
  - intros col. subst featureColumns. rewrite filter_In.
    destruct (String.eqb_spec col selectedTarget); simpl; intuition congruence.
  - rewrite Hout. destruct (_ =? 0); [discriminate|].
    destruct (trainModel _ _ _ _); discriminate.
  - intros H. rewrite Hout, (Hnone H). reflexivity.
  - intros (col & Hcol & Hmissing). rewrite Hout, Hnone; [reflexivity|].
    intros row Hin. unfold retained. apply Bool.andb_false_iff. left.
    apply Bool.not_true_is_false. intros Hall.
    rewrite forallb_forall in Hall. specialize (Hall col Hcol).
    rewrite (Hmissing row Hin) in Hall. discriminate.
  - intros (row & Hin & Hkept).
    assert (Hk : In row (filter (retained featureColumns selectedTarget) data))
      by (apply filter_In; auto).
    rewrite Hout, Hprep. cbn [fst snd].
    destruct (filter (retained featureColumns selectedTarget) data) as [|r l];
      [destruct Hk|].
    split; [discriminate | reflexivity].
Qed.

End HandlerExtras.

(** The people and their ages, with a trainer that gives up. *)
Lemma handleModelTrain_preprocessing_witness :
  App.handleModelTrain (fun _ _ _ _ => JS.Throw "Failed to train : stop")
    Examples.people (Some Examples.peopleAnalysis) "age" "auto"
  = App.Failed unit "Failed to train : stop".
Proof.
  destruct (@handleModelTrain_preprocessing unit
              (fun _ _ _ _ => JS.Throw "Failed to train : stop")
              Examples.people Examples.peopleAnalysis "age" "auto")
    as (_ & _ & _ & _ & H); [discriminate|].
  destruct H as [_ H]; [|exact H].
  eexists. split; [left; reflexivity | reflexivity].
Defined.

Section OfferedModels.
Import JS MLModels Notions ModelTraining.

Variable Metrics : Type.
Variable calculateMetrics : list number -> list number -> ProblemType -> Metrics.
Variable fitPredict :
  Estimator -> list (list number) -> list number -> list (list number) ->
  completion (list number).
Variables startTime endTime : Z.

(** X23. The model ids the training panel offers for a problem
    type are exactly the tokens [trainModel] has a branch for with that
    problem type, so a run started from the panel never returns the result
    without a model; and the id [auto] is the same as [logistic] for a
    classification and the same as [linear] for a regression, whatever the
    data. *)
Theorem models_are_the_branches (problemType : ProblemType) :
  (forall token, In token (map id (models problemType)) <-> ~ unmatched problemType token) /\
  (forall m X y r,
     In m (models problemType) ->
     trainModel calculateMetrics fitPredict startTime endTime X y problemType (id m)
       = Return r ->
     model r <> ""%string) /\
  (forall X y,
     trainModel calculateMetrics fitPredict startTime endTime X y classification "auto"
     = trainModel calculateMetrics fitPredict startTime endTime X y classification "logistic") /\
  (forall X y,
     trainModel calculateMetrics fitPredict startTime endTime X y regression "auto"
     = trainModel calculateMetrics fitPredict startTime endTime X y regression "linear").
Proof.
  split; [|split; [|split]].
  - intros token. destruct problemType; simpl.
    + destruct (string_dec token "auto"), (string_dec token "logistic"),
        (string_dec token "decisiontree"), (string_dec token "randomforest");
        intuition congruence.
    + destruct (string_dec token "auto"), (string_dec token "linear"),
        (string_dec token "randomforest"); intuition congruence.
  - intros m X y r Hm. unfold trainModel.
    destruct (fitAndPredict _ _ _ _ _ _) as [[p modelName]|error] eqn:E; [|discriminate].
    intros [= <-]. cbn [model].
    unfold fitAndPredict, bind in E.
    destruct problemType; simpl in Hm;
      repeat (destruct Hm as [<-|Hm]; [|]); try destruct Hm; cbn [id] in E;
      simpl in E;
      repeat match type of E with
             | context [if ?c then _ else _] => destruct c
             | context [match featureCount ?x with _ => _ end] =>
                 destruct (featureCount x)
             | context [match fitPredict ?a ?b ?c ?d with _ => _ end] =>
                 destruct (fitPredict a b c d)
             end;
      congruence.
  - reflexivity.
  - reflexivity.
Qed.

End OfferedModels.

Section Pages.
Import PredictionsTable.

Variable A : Type.

Lemma firstn_add (a b : nat) (l : list A) :
  firstn (a + b) l = firstn a l ++ firstn b (skipn a l).
Proof.
  revert l. induction a as [|a IH]; intros l; simpl; [reflexivity|].
  destruct l as [|x l]; simpl; [now rewrite firstn_nil | now rewrite IH].
Qed.

Lemma pages_upto (sortedData : list A) (k : nat) :
  concat (map (paginatedData sortedData) (seq 1 k)) = firstn (k * itemsPerPage) sortedData.
Proof.
  induction k as [|k IH]; [reflexivity|].
  rewrite seq_S, map_app, concat_app, IH. cbn [map concat]. rewrite app_nil_r.
  unfold paginatedData, slice.
  replace (1 + k - 1) with k by lia.
  replace ((1 + k) * itemsPerPage - k * itemsPerPage) with itemsPerPage by lia.
  replace (S k * itemsPerPage) with (k * itemsPerPage + itemsPerPage) by lia.
  symmetry. apply firstn_add.
Qed.

(** X24. The pages of the predictions table are the rows 50 by 50:
    page 1 up to the last page together hold every row once, in order; no
    page has more than 50 rows; every page up to the last has a row, and a
    page behind the last has none. *)
Theorem pages_partition (sortedData : list A) :
  concat (map (paginatedData sortedData) (seq 1 (totalPages sortedData))) = sortedData /\
  (forall currentPage,
     length (paginatedData sortedData currentPage) <= 50 /\
     (1 <= currentPage < totalPages sortedData ->
      length (paginatedData sortedData currentPage) = 50) /\
     (1 <= currentPage <= totalPages sortedData ->
      paginatedData sortedData currentPage <> []) /\
     (totalPages sortedData < currentPage -> paginatedData sortedData currentPage = [])) /\
  (totalPages sortedData = 0 <-> sortedData = []).
Proof.
  assert (Hdiv : length sortedData <= totalPages sortedData * 50
                 /\ totalPages sortedData * 50 < length sortedData + 50).
  { unfold totalPages, itemsPerPage. simpl Nat.sub.
    pose proof (Nat.div_mod_eq (length sortedData + 49) 50) as H.
    pose proof (Nat.mod_upper_bound (length sortedData + 49) 50) as H'. lia. }
  assert (Hlen : forall p, length (paginatedData sortedData p)
                 = Nat.min (p * 50 - (p - 1) * 50) (length sortedData - (p - 1) * 50)).
  { intros p. unfold paginatedData, slice, itemsPerPage.
    now rewrite length_firstn, length_skipn. }
  split; [|split].
  - rewrite pages_upto. apply firstn_all2. unfold itemsPerPage. lia.
  - intros p. split; [rewrite Hlen; lia|]. split; [|split].
    + intros Hp. rewrite Hlen. lia.
    + intros Hp H. apply (f_equal (@length A)) in H. rewrite Hlen in H. simpl in H. lia.
    + intros Hp. apply length_zero_iff_nil. rewrite Hlen. lia.
  - split.
    + intros H. apply length_zero_iff_nil. lia.
    + intros ->. reflexivity.
Qed.

End Pages.

(** ** The confusion matrix and the metrics on every number *)

Section NumberEquality.

(** *** [===] on binary64 values *)

Lemma SFeqb_finite (s1 s2 : bool) (m1 m2 : positive) (e1 e2 : Z) :
  SFeqb (S754_finite s1 m1 e1) (S754_finite s2 m2 e2)
  = Bool.eqb s1 s2 && ((e1 =? e2)%Z && (m1 =? m2)%positive).
Proof.
  unfold SFeqb, SFcompare.
  change (PosDef.Pos.compare_cont Eq m1 m2) with (Pos.compare m1 m2).
  rewrite Z.eqb_compare, Pos.eqb_compare.
  destruct s1, s2; simpl; try reflexivity;
    destruct (e1 ?= e2)%Z; simpl; try reflexivity;
    destruct (m1 ?= m2)%positive; reflexivity.
Qed.

Lemma SFeqb_sym (x y : spec_float) : SFeqb x y = SFeqb y x.
Proof.
  destruct x as [sx|sx| |sx mx ex], y as [sy|sy| |sy my ey];
    try (rewrite !SFeqb_finite, (Z.eqb_sym ex ey), (Pos.eqb_sym mx my);
         destruct sx, sy; reflexivity);
    try destruct sx; try destruct sy; reflexivity.
Qed.

Lemma SFeqb_trans (x y z : spec_float) :
  SFeqb x y = true -> SFeqb y z = true -> SFeqb x z = true.
Proof.
  destruct x as [sx|sx| |sx mx ex], y as [sy|sy| |sy my ey], z as [sz|sz| |sz mz ez];
    try (rewrite !SFeqb_finite; intros H1 H2;
         apply andb_prop in H1 as [Hs1 H1]; apply andb_prop in H1 as [He1 Hm1];
         apply andb_prop in H2 as [Hs2 H2]; apply andb_prop in H2 as [He2 Hm2];
         apply Bool.eqb_prop in Hs1, Hs2; apply Z.eqb_eq in He1, He2;
         apply Pos.eqb_eq in Hm1, Hm2; subst;
         now rewrite Bool.eqb_reflx, Z.eqb_refl, Pos.eqb_refl);
    try destruct sx; try destruct sy; try destruct sz;
    try reflexivity; try discriminate; cbv; congruence.
Qed.

Lemma float_eqb_sym (a b : float) : (a =? b)%float = (b =? a)%float.
Proof. rewrite !eqb_spec. apply SFeqb_sym. Qed.

Lemma float_eqb_trans (a b c : float) :
  (a =? b)%float = true -> (b =? c)%float = true -> (a =? c)%float = true.
Proof. rewrite !eqb_spec. apply SFeqb_trans. Qed.

Lemma float_eqb_refl (a : float) : is_nan a = false -> (a =? a)%float = true.
Proof. unfold is_nan. now destruct (a =? a)%float. Qed.

(** What [===] joins is no [NaN]. *)
Lemma float_eqb_numbers (a b : float) :
  (a =? b)%float = true -> is_nan a = false /\ is_nan b = false.
Proof.
  intros H. unfold is_nan. split.
  - rewrite (@float_eqb_trans a b a H); [reflexivity | now rewrite float_eqb_sym].
  - rewrite (@float_eqb_trans b a b); [reflexivity | now rewrite float_eqb_sym | exact H].
Qed.

Lemma float_eqb_nan_l (a b : float) : is_nan a = true -> (a =? b)%float = false.
Proof.
  intros Ha. destruct (a =? b)%float eqn:E; [|reflexivity].
  apply float_eqb_numbers in E as [E _]. congruence.
Qed.

Lemma float_eqb_nan_r (a b : float) : is_nan b = true -> (a =? b)%float = false.
Proof. intros Hb. rewrite float_eqb_sym. now apply float_eqb_nan_l. Qed.

(** *** [<] on binary64 values *)

Lemma SFltb_asym (x y : spec_float) : SFltb x y = true -> SFltb y x = false.
Proof.
  destruct x as [sx|sx| |sx mx ex], y as [sy|sy| |sy my ey];
    try (destruct sx, sy; cbv; congruence);
    try (destruct sx; cbv; congruence);
    try (destruct sy; cbv; congruence);
    try (cbv; congruence).
  unfold SFltb, SFcompare.
  change (PosDef.Pos.compare_cont Eq mx my) with (Pos.compare mx my).
  change (PosDef.Pos.compare_cont Eq my mx) with (Pos.compare my mx).
  rewrite (Z.compare_antisym ex ey), (Pos.compare_antisym mx my).
  destruct sx, sy; try discriminate; try reflexivity;
    destruct (ex ?= ey)%Z; simpl; try discriminate; try reflexivity;
    destruct (mx ?= my)%positive; simpl; try discriminate; reflexivity.
Qed.

Lemma float_ltb_asym (a b : float) : (a <? b)%float = true -> (b <? a)%float = false.
Proof. rewrite !ltb_spec. apply SFltb_asym. Qed.

Lemma float_ltb_irrefl (a : float) : (a <? a)%float = false.
Proof.
  destruct (a <? a)%float eqn:E; [|reflexivity].
  now rewrite (float_ltb_asym E) in E.
Qed.

End NumberEquality.

Section NumberSets.
Import JS MLModels NumberLabels.

(** *** The members of a [Set] of numbers *)

Lemma sameValueZero_refl (a : float) : sameValueZero a a = true.
Proof.
  unfold sameValueZero. destruct (is_nan a) eqn:E; [reflexivity|].
  now rewrite float_eqb_refl.
Qed.

Lemma sameValueZero_sym (a b : float) : sameValueZero a b = sameValueZero b a.
Proof. unfold sameValueZero. now rewrite float_eqb_sym, Bool.andb_comm. Qed.

Lemma strictEquals_same (a b : float) : (a =? b)%float = true -> sameValueZero a b = true.
Proof. unfold sameValueZero. intros ->. apply Bool.orb_true_r. Qed.

Lemma kept_nan (x : float) : is_nan (kept x) = is_nan x.
Proof.
  unfold kept. destruct (x =? 0)%float eqn:E; [|reflexivity].
  apply float_eqb_numbers in E as [-> _]. reflexivity.
Qed.

Lemma kept_equals (x : float) : is_nan x = false -> (kept x =? x)%float = true.
Proof.
  intros H. unfold kept. destruct (x =? 0)%float eqn:E.
  - now rewrite float_eqb_sym.
  - now apply float_eqb_refl.
Qed.

Lemma Set_add_cases (A : Type) (same : A -> A -> bool) (s : list A) (x : A) :
  ((exists y, In y s /\ same y x = true) /\ Set_add same s x = s) \/
  ((forall y, In y s -> same y x = false) /\ Set_add same s x = s ++ [x]).
Proof.
  induction s as [|b s IH]; simpl.
  - right. split; [intros y [] | reflexivity].
  - destruct (same b x) eqn:E.
    + left. split; [exists b; auto | reflexivity].
    + destruct IH as [[(y & Hy & Hs) ->]|[Hout ->]].
      * left. split; [exists y; auto | reflexivity].
      * right. split; [|reflexivity]. intros y [<-|Hy]; auto.
Qed.

Lemma Set_of_from_grows (A : Type) (same : A -> A -> bool) (l s : list A) (c : A) :
  In c s -> In c (fold_left (Set_add same) l s).
Proof.
  revert s. induction l as [|x l IH]; intros s Hc; simpl; [exact Hc|].
  apply IH. destruct (Set_add_cases same s x) as [[_ ->]|[_ ->]]; [exact Hc|].
  apply in_or_app. now left.
Qed.

(** Every element is the same as a member. *)
Lemma Set_of_from_covers (A : Type) (same : A -> A -> bool) (l s : list A) (x : A) :
  (forall a, same a a = true) ->
  In x l -> exists c, In c (fold_left (Set_add same) l s) /\ same c x = true.
Proof.
  intros Hrefl. revert s. induction l as [|a l IH]; intros s Hx; [destruct Hx|].
  simpl. destruct Hx as [->|Hx]; [|now apply IH].
  destruct (Set_add_cases same s x) as [[(y & Hy & Hs) ->]|[_ ->]].
  - exists y. split; [now apply Set_of_from_grows | exact Hs].
  - exists x. split; [|apply Hrefl].
    apply Set_of_from_grows, in_or_app. right. now left.
Qed.

Lemma Set_of_from_distinct (l s : list float) :
  distinct s -> distinct (fold_left (Set_add sameValueZero) l s).
Proof.
  revert s. induction l as [|x l IH]; intros s Hs; simpl; [exact Hs|].
  apply IH. destruct (Set_add_cases sameValueZero s x) as [[_ ->]|[Hout ->]];
    [exact Hs|].
  destruct Hs as [Hnd Hsep]. split.
  - apply NoDup_app; [exact Hnd | repeat constructor; simpl; tauto |].
    intros y Hy [E|[]]. subst y. specialize (Hout x Hy).
    now rewrite sameValueZero_refl in Hout.
  - intros a b Ha Hb Hab.
    apply in_app_or in Ha. apply in_app_or in Hb. simpl in Ha, Hb.
    destruct Ha as [Ha|[<-|[]]], Hb as [Hb|[<-|[]]].
    + now apply Hsep.
    + rewrite (Hout a Ha) in Hab. discriminate.
    + rewrite sameValueZero_sym, (Hout b Hb) in Hab. discriminate.
    + reflexivity.
Qed.

Lemma Set_of_numbers_distinct (xs : list float) : distinct (Set_of_numbers xs).
Proof.
  apply Set_of_from_distinct. split; [constructor | intros a b []].
Qed.

(** A number that is not [NaN] is [===] to one member. *)
Lemma Set_of_numbers_covers (xs : list float) (x : float) :
  In x xs -> is_nan x = false ->
  exists c, In c (Set_of_numbers xs) /\ (c =? x)%float = true.
Proof.
  intros Hx Hn.
  destruct (@Set_of_from_covers _ sameValueZero (map kept xs) [] (kept x)
              sameValueZero_refl (in_map kept xs x Hx)) as (c & Hc & Hs).
  exists c. split; [exact Hc|].
  unfold sameValueZero in Hs. rewrite kept_nan, Hn, Bool.andb_false_r in Hs.
  simpl in Hs. eapply float_eqb_trans; [exact Hs | now apply kept_equals].
Qed.

Lemma Set_of_from_members (A : Type) (same : A -> A -> bool) (l s : list A) (c : A) :
  In c (fold_left (Set_add same) l s) -> In c s \/ In c l.
Proof.
  revert s. induction l as [|x l IH]; intros s Hc; simpl in *; [now left|].
  apply IH in Hc as [Hc|Hc]; [|now right; right].
  destruct (Set_add_cases same s x) as [[_ E]|[_ E]]; rewrite E in Hc; [now left|].
  apply in_app_or in Hc as [Hc|[<-|[]]]; [now left | right; now left].
Qed.

(** A member is an element, [-0] as [+0]. *)
Lemma Set_of_numbers_members (xs : list float) (c : float) :
  In c (Set_of_numbers xs) -> exists x, In x xs /\ c = kept x.
Proof.
  intros H. apply Set_of_from_members in H as [[]|H].
  apply in_map_iff in H as (x & <- & Hx). now exists x.
Qed.

Lemma distinct_perm (l l' : list float) :
  Permutation l l' -> distinct l -> distinct l'.
Proof.
  intros Hp [Hnd Hsep]. split.
  - eapply Permutation_NoDup; eassumption.
  - intros a b Ha Hb. apply Hsep; eapply Permutation_in; try eassumption;
      now symmetry.
Qed.

(** The one member that is [===] to a number. *)
Lemma distinct_unique (classes : list float) (x a c : float) :
  distinct classes -> In a classes -> In c classes ->
  (a =? x)%float = true -> (c =? x)%float = true -> a = c.
Proof.
  intros [_ Hsep] Ha Hc Hax Hcx. apply Hsep; try assumption.
  apply strictEquals_same. eapply float_eqb_trans; [exact Hax|].
  now rewrite float_eqb_sym.
Qed.

End NumberSets.

Section NumberMatrix.
Import JS MLModels NumberLabels.

(** *** The classes and the entries of the matrix *)

Lemma indexOf_found (A : Type) (eqb : A -> A -> bool) (l : list A) (x : A) :
  (exists c, In c l /\ eqb c x = true) ->
  exists i c, indexOf eqb l x = Some i /\ nth_error l i = Some c /\ eqb c x = true.
Proof.
  induction l as [|b l IH]; intros (c & Hc & E); [destruct Hc|]. simpl.
  destruct (eqb b x) eqn:Eb.
  - exists 0, b. auto.
  - destruct IH as (i & c' & -> & Hi & E').
    { destruct Hc as [<-|Hc]; [congruence|]. now exists c. }
    exists (S i), c'. auto.
Qed.

Lemma indexOf_missing (A : Type) (eqb : A -> A -> bool) (l : list A) (x : A) :
  (forall c, In c l -> eqb c x = false) -> indexOf eqb l x = None.
Proof.
  induction l as [|b l IH]; simpl; intros H; [reflexivity|].
  rewrite (H b) by now left. rewrite IH; [reflexivity|].
  intros c Hc. apply H. now right.
Qed.

(** An update at the place of the one class that is [===] to [x]. *)
Lemma update_at (B : Type) (classes : list float) (i : nat) (c x : float)
    (f : B -> B) (h : float -> B) :
  NoDup classes ->
  (forall a, In a classes -> (a =? x)%float = true -> a = c) ->
  nth_error classes i = Some c -> (c =? x)%float = true ->
  update i f (map h classes)
  = map (fun a => if (a =? x)%float then f (h a) else h a) classes.
Proof.
  revert i. induction classes as [|b classes IH]; intros i Hnd Hu Hi Hc.
  - destruct i; discriminate.
  - apply NoDup_cons_iff in Hnd as [Hb Hnd]. destruct i as [|i]; simpl in *.
    + injection Hi as Hi. subst b. rewrite Hc. f_equal.
      apply map_ext_in. intros a Ha.
      destruct (a =? x)%float eqn:E; [|reflexivity].
      exfalso. apply Hb. now rewrite <- (Hu a (or_intror Ha) E).
    + destruct (b =? x)%float eqn:E.
      { exfalso. apply Hb. rewrite (Hu b (or_introl eq_refl) E).
        eapply nth_error_In, Hi. }
      f_equal. apply IH; auto.
Qed.

Lemma update_at_class (B : Type) (classes : list float) (i : nat) (c x : float)
    (f : B -> B) (h : float -> B) :
  distinct classes -> nth_error classes i = Some c -> (c =? x)%float = true ->
  update i f (map h classes)
  = map (fun a => if (a =? x)%float then f (h a) else h a) classes.
Proof.
  intros Hd Hi Hc. apply (@update_at B classes i c x f h); try assumption.
  - apply Hd.
  - intros a Ha E. eapply distinct_unique; try eassumption.
    eapply nth_error_In, Hi.
Qed.

(** One step of the loop: the entry of the class of [x] and the class of
    [y] grows by one, and none does when one of them is [NaN]. *)
Lemma tally_step (classes predicted : list float) (idx : nat) (x y : float)
    (g : float -> float -> nat) :
  distinct classes ->
  (is_nan x = false -> exists c, In c classes /\ (c =? x)%float = true) ->
  (is_nan y = false -> exists c, In c classes /\ (c =? y)%float = true) ->
  nth_error predicted idx = Some y ->
  tally classes predicted (map (fun a => map (fun p => g a p) classes) classes) (idx, x)
  = map (fun a => map (fun p => if (a =? x)%float && (p =? y)%float
                                then S (g a p) else g a p) classes) classes.
Proof.
  intros Hd Hx Hy Ey. unfold tally. rewrite Ey.
  destruct (is_nan x) eqn:Nx.
  { rewrite (@indexOf_missing _ strictEquals classes x)
      by (intros c _; now apply float_eqb_nan_r).
    apply map_ext. intros a. apply map_ext. intros p.
    now rewrite (@float_eqb_nan_r a x Nx). }
  destruct (@indexOf_found _ strictEquals classes x (Hx eq_refl)) as (i & c & -> & Hi & Hc).
  destruct (is_nan y) eqn:Ny.
  { rewrite (@indexOf_missing _ strictEquals classes y)
      by (intros c' _; now apply float_eqb_nan_r).
    apply map_ext. intros a. apply map_ext. intros p.
    now rewrite (@float_eqb_nan_r p y Ny), Bool.andb_false_r. }
  destruct (@indexOf_found _ strictEquals classes y (Hy eq_refl)) as (j & d & -> & Hj & Hdy).
  rewrite (@update_at_class _ classes i c x _ _ Hd Hi Hc).
  apply map_ext. intros a. destruct (a =? x)%float; simpl; [|reflexivity].
  now rewrite (@update_at_class _ classes j d y _ _ Hd Hj Hdy).
Qed.

Section AnyNumeral.
Variable numberToString : float -> string.

Lemma uniqueClasses_distinct (actual predicted : list float) :
  distinct (uniqueClasses numberToString actual predicted).
Proof.
  unfold uniqueClasses.
  apply (@distinct_perm (Set_of_numbers (actual ++ predicted))).
  - symmetry. apply sort_by_perm.
  - apply Set_of_numbers_distinct.
Qed.

Lemma uniqueClasses_covers (actual predicted : list float) (x : float) :
  In x actual \/ In x predicted -> is_nan x = false ->
  exists c, In c (uniqueClasses numberToString actual predicted) /\ (c =? x)%float = true.
Proof.
  intros Hx Hn.
  destruct (@Set_of_numbers_covers (actual ++ predicted) x) as (c & Hc & E);
    [apply in_or_app; exact Hx | exact Hn |].
  exists c. split; [|exact E]. unfold uniqueClasses.
  eapply Permutation_in; [symmetry; apply sort_by_perm | exact Hc].
Qed.

(** What the code computes on aligned vectors. *)
Lemma calculateConfusionMatrix_pairs (actual predicted : list float) :
  length predicted = length actual ->
  let classes := uniqueClasses numberToString actual predicted in
  calculateConfusionMatrix numberToString actual predicted
  = map (fun a => map (fun p =>
           pairsWhere (fun x y => strictEquals x a && strictEquals y p) actual predicted)
         classes) classes.
Proof.
  intros Hlen classes. unfold calculateConfusionMatrix. fold classes.
  pose proof (uniqueClasses_distinct actual predicted) as Hd. fold classes in Hd.
  assert (Hin : forall x, In x actual \/ In x predicted -> is_nan x = false ->
                  exists c, In c classes /\ (c =? x)%float = true)
    by (intros x; apply uniqueClasses_covers).
  assert (Hzero : repeat (repeat 0 (length classes)) (length classes)
                  = map (fun a => map (fun p => 0) classes) classes).
  { assert (H : forall (B : Type) (b : B) (l : list float),
                  repeat b (length l) = map (fun _ => b) l)
      by (induction l as [|? ? IH]; simpl; [|rewrite IH]; reflexivity).
    now rewrite !H. }
  rewrite Hzero.
  assert (Hgen : forall todo done g,
    actual = done ++ todo ->
    fold_left (tally classes predicted)
      (combine (seq (length done) (length todo)) todo)
      (map (fun a => map (fun p => g a p) classes) classes)
    = map (fun a => map (fun p =>
             g a p + pairsWhere (fun x y => strictEquals x a && strictEquals y p)
                       todo (skipn (length done) predicted))
           classes) classes).
  { induction todo as [|x todo IH]; intros done g Hsplit.
    - simpl. apply map_ext. intros a. apply map_ext. intros p.
      unfold pairsWhere. simpl. lia.
    - assert (Hi : length done < length predicted).
      { rewrite Hlen, Hsplit, length_app. simpl. lia. }
      destruct (nth_error predicted (length done)) as [y|] eqn:Ey;
        [|apply nth_error_None in Ey; lia].
      assert (Hskip : skipn (length done) predicted
                      = y :: skipn (S (length done)) predicted).
      { now apply skipn_nth_error. }
      cbn [length seq combine fold_left].
      rewrite (@tally_step classes predicted (length done) x y g Hd).
      + replace (S (length done)) with (length (done ++ [x]))
          by (rewrite length_app; simpl; lia).
        rewrite (IH (done ++ [x])) by (rewrite <- app_assoc; exact Hsplit).
        replace (length (done ++ [x])) with (S (length done))
          by (rewrite length_app; simpl; lia).
        apply map_ext. intros a. apply map_ext. intros p.
        rewrite Hskip. unfold pairsWhere, strictEquals. simpl.
        rewrite (float_eqb_sym x a), (float_eqb_sym y p).
        destruct ((a =? x)%float && (p =? y)%float); simpl; lia.
      + apply Hin. left. rewrite Hsplit, in_app_iff. simpl. auto.
      + apply Hin. right. eapply nth_error_In, Ey.
      + exact Ey. }
  exact (Hgen actual [] (fun _ _ => 0) eq_refl).
Qed.

End AnyNumeral.

(** *** The sum of the entries *)

Lemma list_sum_zero (A : Type) (f : A -> nat) (l : list A) :
  (forall a, In a l -> f a = 0) -> list_sum (map f l) = 0.
Proof.
  induction l as [|b l IH]; intros H; [reflexivity|].
  rewrite map_cons, list_sum_step, (H b) by now left.
  apply IH. intros a Ha. apply H. now right.
Qed.

(** A number that is not [NaN] is [===] to one class, and [NaN] to none. *)
Lemma one_class (classes : list float) (x : float) :
  distinct classes ->
  (is_nan x = false -> exists c, In c classes /\ (c =? x)%float = true) ->
  list_sum (map (fun a => if (x =? a)%float then 1 else 0) classes)
  = if is_nan x then 0 else 1.
Proof.
  intros Hd Hx. destruct (is_nan x) eqn:Nx.
  - apply list_sum_zero. intros a _. now rewrite (@float_eqb_nan_l x a Nx).
  - destruct (Hx eq_refl) as (c & Hc & E).
    destruct (in_split c classes Hc) as (l1 & l2 & Hsplit).
    assert (Hnd : NoDup classes) by apply Hd. rewrite Hsplit in Hnd.
    apply NoDup_remove_2 in Hnd.
    assert (Hout : forall a, In a (l1 ++ l2) -> (x =? a)%float = false).
    { intros a Ha. destruct (x =? a)%float eqn:Ea; [|reflexivity].
      exfalso. apply Hnd.
      rewrite <- (@distinct_unique classes x a c Hd); try assumption.
      - rewrite Hsplit. apply in_app_or in Ha. apply in_or_app. simpl. tauto.
      - now rewrite float_eqb_sym. }
    rewrite Hsplit, map_app, map_cons, list_sum_app, list_sum_step.
    rewrite (float_eqb_sym x c), E.
    rewrite !list_sum_zero; [reflexivity | |].
    + intros a Ha. rewrite Hout; [reflexivity|]. apply in_or_app. now right.
    + intros a Ha. rewrite Hout; [reflexivity|]. apply in_or_app. now left.
Qed.

(** The pairs fall into the entries of their classes, but for those with a
    [NaN]. *)
Lemma pairs_in_classes (classes : list float) (L : list (float * float)) :
  distinct classes ->
  (forall e, In e L ->
     (is_nan (fst e) = false -> exists c, In c classes /\ (c =? fst e)%float = true) /\
     (is_nan (snd e) = false -> exists c, In c classes /\ (c =? snd e)%float = true)) ->
  list_sum (map (fun a => list_sum (map (fun p =>
              length (filter (fun e => strictEquals (fst e) a && strictEquals (snd e) p) L))
            classes)) classes)
  = length (filter (fun e => negb (is_nan (fst e)) && negb (is_nan (snd e))) L).
Proof.
  intros Hd. induction L as [|[x y] L IH]; intros Hin.
  - simpl. apply list_sum_zero. intros a _. now apply list_sum_zero.
  - transitivity
      (list_sum (map (fun a =>
         (if (x =? a)%float then (if is_nan y then 0 else 1) else 0)
         + list_sum (map (fun p =>
             length (filter (fun e => strictEquals (fst e) a && strictEquals (snd e) p) L))
           classes)) classes)).
    + f_equal. apply map_ext. intros a.
      rewrite <- (@one_class classes y Hd) by (apply (Hin (x, y)); now left).
      transitivity
        (list_sum (map (fun p =>
           (if (x =? a)%float && (y =? p)%float then 1 else 0)
           + length (filter (fun e => strictEquals (fst e) a && strictEquals (snd e) p) L))
         classes)).
      * f_equal. apply map_ext. intros p. unfold strictEquals. simpl.
        destruct ((x =? a)%float && (y =? p)%float); reflexivity.
      * rewrite list_sum_map_add. f_equal.
        destruct (x =? a)%float; simpl; [reflexivity|].
        apply list_sum_zero. reflexivity.
    + rewrite list_sum_map_add, IH by (intros e He; apply Hin; now right).
      cbn [filter fst snd].
      assert (E : list_sum (map (fun a => if (x =? a)%float
                                          then (if is_nan y then 0 else 1) else 0) classes)
                  = if negb (is_nan x) && negb (is_nan y) then 1 else 0).
      { destruct (is_nan y) eqn:Ny.
        - rewrite Bool.andb_false_r. apply list_sum_zero. intros a _.
          now destruct (x =? a)%float.
        - rewrite (@one_class classes x Hd) by (apply (Hin (x, y)); now left).
          now destruct (is_nan x). }
      rewrite E. destruct (negb (is_nan x) && negb (is_nan y)); reflexivity.
Qed.

End NumberMatrix.

Section NumberPairs.
Import JS MLModels Metrics NumberLabels.

(** *** Counting along the pairs *)

Lemma countWhere_pairs (A B : Type) (q : A -> option B -> bool)
    (xs : list A) (ys : list B) :
  length ys = length xs ->
  countWhere (fun val idx => q val (nth_error ys idx)) xs
  = length (filter (fun e => q (fst e) (Some (snd e))) (combine xs ys)).
Proof.
  intros Hlen. unfold countWhere, indexed.
  assert (G : forall xs ys pre, length ys = length xs ->
            length (filter (fun e : nat * A => q (snd e) (nth_error (pre ++ ys) (fst e)))
                      (combine (seq (length pre) (length xs)) xs))
            = length (filter (fun e => q (fst e) (Some (snd e))) (combine xs ys))).
  { clear. induction xs as [|x xs IH]; intros [|y ys] pre Hlen; simpl in *;
      try reflexivity; try discriminate.
    rewrite nth_error_app2, Nat.sub_diag by lia. simpl.
    specialize (IH ys (pre ++ [y])).
    rewrite <- app_assoc, length_app, Nat.add_1_r in IH. simpl in IH.
    destruct (q x (Some y)); simpl; rewrite IH by lia; reflexivity. }
  exact (G xs ys [] Hlen).
Qed.

Lemma pairs_swap (A B : Type) (p : A * B -> bool) (xs : list A) (ys : list B) :
  length (filter p (combine xs ys))
  = length (filter (fun e => p (snd e, fst e)) (combine ys xs)).
Proof.
  revert ys. induction xs as [|x xs IH]; intros [|y ys]; simpl; try reflexivity.
  destruct (p (x, y)); simpl; now rewrite IH.
Qed.

Lemma filter_length_ext_in (A : Type) (p q : A -> bool) (l : list A) :
  (forall e, In e l -> p e = q e) -> length (filter p l) = length (filter q l).
Proof. intros H. f_equal. now apply filter_ext_in. Qed.

Lemma countWhere_none (A : Type) (p : A -> nat -> bool) (l : list A) :
  (forall v i, p v i = false) -> countWhere p l = 0.
Proof.
  intros H. unfold countWhere. rewrite filter_none; [reflexivity|].
  intros e _. apply H.
Qed.

(** *** [Math.max] of two numbers *)

Lemma max2_neg_infinity (a : float) : is_nan a = false -> max2 neg_infinity a = a.
Proof.
  intros Ha. unfold max2. rewrite Ha, ltb_neg_infinity_r. simpl.
  destruct (neg_infinity <? a)%float; reflexivity.
Qed.

Lemma Math_max_two_nan (a b : float) :
  is_nan a = true \/ is_nan b = true -> is_nan (Math_max [a; b]) = true.
Proof.
  unfold Math_max. simpl. intros [H|H].
  - unfold max2 at 2. rewrite H. simpl. reflexivity.
  - unfold max2 at 1. rewrite H, Bool.orb_true_r. reflexivity.
Qed.

Lemma Math_max_two_numbers (a b : float) :
  is_nan a = false -> is_nan b = false ->
  (Math_max [a; b] = a \/ Math_max [a; b] = b) /\
  (Math_max [a; b] <? a)%float = false /\
  (Math_max [a; b] <? b)%float = false.
Proof.
  intros Ha Hb. unfold Math_max. simpl. rewrite (@max2_neg_infinity a Ha).
  unfold max2. rewrite Ha, Hb. simpl.
  destruct (b <? a)%float eqn:E1.
  { split; [now left|]. split; [apply float_ltb_irrefl | now apply float_ltb_asym]. }
  destruct (a <? b)%float eqn:E2.
  { split; [now right|]. split; [exact E1 | apply float_ltb_irrefl]. }
  destruct (get_sign a).
  - split; [now right|]. split; [exact E1 | apply float_ltb_irrefl].
  - split; [now left|]. split; [apply float_ltb_irrefl | exact E2].
Qed.

End NumberPairs.

Section NumberExtras.
Import JS DataProcessor MLModels Metrics NumberLabels.

Variable numberToString : float -> string.
Variable regressionMetrics : list float -> list float -> list (string * float).

(** X11. On labels that are any numbers, [NaN] among them,
    and for aligned vectors: the classes of the confusion matrix are
    pairwise different members of a [Set], and every label that is not
    [NaN] is [===] to one of them; the matrix is square over the classes;
    the entry in row i and column j counts the positions whose actual label
    is [===] to the i-th class and whose predicted label is [===] to the
    j-th class, so the row and the column of the class [NaN] hold only
    zeros; all entries together count the positions where neither label is
    [NaN], each once, which is every position when no label is [NaN]. *)
Theorem calculateConfusionMatrix_entries (actual predicted : list float) :
  length predicted = length actual ->
  let classes := uniqueClasses numberToString actual predicted in
  let matrix := calculateConfusionMatrix numberToString actual predicted in
  distinct classes /\
  (forall x, In x actual \/ In x predicted -> is_nan x = false ->
     exists c, In c classes /\ strictEquals c x = true) /\
  length matrix = length classes /\
  (forall i a, nth_error classes i = Some a ->
     exists row,
       nth_error matrix i = Some row /\
       length row = length classes /\
       (forall j p, nth_error classes j = Some p ->
          nth_error row j
          = Some (pairsWhere (fun x y => strictEquals x a && strictEquals y p)
                    actual predicted) /\
          (is_nan a = true \/ is_nan p = true -> nth_error row j = Some 0))) /\
  list_sum (map list_sum matrix)
  = pairsWhere (fun x y => negb (is_nan x) && negb (is_nan y)) actual predicted /\
  ((forall x, In x actual \/ In x predicted -> is_nan x = false) ->
   list_sum (map list_sum matrix) = length actual).
Proof.
  intros Hlen classes matrix. subst matrix.
  rewrite (calculateConfusionMatrix_pairs numberToString actual predicted Hlen).
  fold classes.
  assert (Hd : distinct classes) by apply uniqueClasses_distinct.
  assert (Hin : forall x, In x actual \/ In x predicted -> is_nan x = false ->
                  exists c, In c classes /\ strictEquals c x = true)
    by (intros x; apply uniqueClasses_covers).
  assert (Htotal :
    list_sum (map (@list_sum) (map (fun a => map (fun p =>
      pairsWhere (fun x y => strictEquals x a && strictEquals y p) actual predicted)
      classes) classes))
    = pairsWhere (fun x y => negb (is_nan x) && negb (is_nan y)) actual predicted).
  { rewrite map_map. unfold pairsWhere. apply pairs_in_classes; [exact Hd|].
    intros [x y] He. split; intros Hn; apply Hin; try assumption.
    - left. eapply in_combine_l, He.
    - right. eapply in_combine_r, He. }
  split; [exact Hd|]. split; [exact Hin|]. split; [apply length_map|].
  split; [|split; [exact Htotal|]].
  - intros i a Hi.
    exists (map (fun p => pairsWhere (fun x y => strictEquals x a && strictEquals y p)
                           actual predicted) classes).
    split; [now rewrite nth_error_map, Hi|].
    split; [apply length_map|].
    intros j p Hj. rewrite nth_error_map, Hj. split; [reflexivity|].
    intros Hn. simpl. f_equal. unfold pairsWhere. rewrite filter_none; [reflexivity|].
    intros [x y] _. unfold strictEquals. simpl. destruct Hn as [Hn|Hn].
    + now rewrite (@float_eqb_nan_r x a Hn).
    + now rewrite (@float_eqb_nan_r y p Hn), Bool.andb_false_r.
  - intros Hnum. rewrite Htotal. unfold pairsWhere.
    rewrite (@filter_length_ext_in _ _ (fun _ => true)).
    + rewrite filter_true, length_combine. lia.
    + intros [x y] He. simpl.
      rewrite (Hnum x) by (left; eapply in_combine_l, He).
      rewrite (Hnum y) by (right; eapply in_combine_r, He). reflexivity.
Qed.

(** X19. On labels that are any numbers, [NaN] among
    them, and for aligned vectors: Precision, Recall and F1 Score are
    computed only when the [Set] of the actual and the predicted labels has
    exactly two members; otherwise all three are 0, however good the
    predictions are. With two members the positive class is their
    [Math.max]; the true positives are the positions where both labels are
    [===] to it, the false positives those where only the predicted label
    is, the false negatives those where only the actual label is; Precision
    is tp / (tp + fp) and Recall is tp / (tp + fn), each 0 where that is
    0 / 0, and F1 Score is their harmonic mean, all written with four
    decimals. The two members are never [===]; when neither is [NaN] the
    positive class is one of them and not below either; when one is [NaN]
    the positive class is [NaN], which no label is [===] to, and all three
    metrics are 0. *)
Theorem calculateMetrics_positive_class (actual predicted : list float) :
  length predicted = length actual ->
  let metrics := calculateMetrics regressionMetrics actual predicted classification in
  let classes := Set_of_numbers (actual ++ predicted) in
  map fst metrics = ["Accuracy"; "Precision"; "Recall"; "F1 Score"]%string /\
  (length classes <> 2 ->
   get metrics "Precision" = Some 0%float /\
   get metrics "Recall" = Some 0%float /\
   get metrics "F1 Score" = Some 0%float) /\
  (length classes = 2 ->
   let positive := Math_max classes in
   let tp := pairsWhere (fun x y => strictEquals x positive && strictEquals y positive)
               actual predicted in
   let fp := pairsWhere (fun x y => negb (strictEquals x positive) && strictEquals y positive)
               actual predicted in
   let fn := pairsWhere (fun x y => strictEquals x positive && negb (strictEquals y positive))
               actual predicted in
   let precision := or_zero (float_of_nat tp / float_of_nat (tp + fp))%float in
   let recall := or_zero (float_of_nat tp / float_of_nat (tp + fn))%float in
   get metrics "Precision" = Some (toFixed4 precision) /\
   get metrics "Recall" = Some (toFixed4 recall) /\
   get metrics "F1 Score"
   = Some (toFixed4 (or_zero (2 * (precision * recall) / (precision + recall))%float))) /\
  (forall a b, classes = [a; b] ->
   strictEquals a b = false /\
   (is_nan a = false -> is_nan b = false ->
    (Math_max classes = a \/ Math_max classes = b) /\
    (Math_max classes <? a)%float = false /\
    (Math_max classes <? b)%float = false) /\
   (is_nan a = true \/ is_nan b = true ->
    is_nan (Math_max classes) = true /\
    get metrics "Precision" = Some 0%float /\
    get metrics "Recall" = Some 0%float /\
    get metrics "F1 Score" = Some 0%float)).
Proof.
  intros Hlen metrics classes. subst metrics. split; [|split; [|split]].
  { unfold calculateMetrics. cbv zeta. fold classes.
    destruct (length classes =? 2); reflexivity. }
  { intros H. apply Nat.eqb_neq in H. unfold calculateMetrics. fold classes.
    rewrite H. cbv zeta beta iota. repeat split. }
  { intros H positive tp fp fn precision recall.
    assert (Etp : countWhere (fun val idx =>
                    strictEquals val positive
                    && equalsAt (nth_error predicted idx) positive) actual = tp).
    { rewrite (@countWhere_pairs _ _
                 (fun val other => strictEquals val positive && equalsAt other positive)
                 actual predicted Hlen).
      reflexivity. }
    assert (Efn : countWhere (fun val idx =>
                    strictEquals val positive
                    && negb (equalsAt (nth_error predicted idx) positive)) actual = fn).
    { rewrite (@countWhere_pairs _ _
                 (fun val other => strictEquals val positive && negb (equalsAt other positive))
                 actual predicted Hlen).
      reflexivity. }
    assert (Efp : countWhere (fun val idx =>
                    strictEquals val positive
                    && negb (equalsAt (nth_error actual idx) positive)) predicted = fp).
    { rewrite (@countWhere_pairs _ _
                 (fun val other => strictEquals val positive && negb (equalsAt other positive))
                 predicted actual (eq_sym Hlen)).
      subst fp. unfold pairsWhere.
      rewrite (pairs_swap _ predicted actual).
      apply filter_length_ext_in. intros [x y] _. simpl. apply Bool.andb_comm. }
    apply Nat.eqb_eq in H. unfold calculateMetrics. cbv zeta. fold classes.
    rewrite H. cbv iota. fold positive. rewrite Etp, Efn, Efp. repeat split. }
  intros a b Hset.
  assert (Hd : distinct [a; b]).
  { rewrite <- Hset. apply Set_of_numbers_distinct. }
  split; [|split].
  - unfold strictEquals. destruct (a =? b)%float eqn:E; [|reflexivity].
    exfalso. destruct Hd as [Hnd Hsep].
    assert (Hab : a = b).
    { apply Hsep; simpl; auto. now apply strictEquals_same. }
    subst b. inversion Hnd as [|? ? Hn _]. apply Hn. now left.
  - intros Ha Hb. rewrite Hset. now apply Math_max_two_numbers.
  - intros Hn. pose proof (@Math_max_two_nan a b Hn) as Hmax.
    rewrite Hset. split; [exact Hmax|].
    unfold calculateMetrics. cbv zeta. fold classes. rewrite Hset.
    change (length [a; b] =? 2) with true. cbv iota.
    set (positive := Math_max [a; b]) in *.
    assert (Hnone : forall v, strictEquals v positive = false)
      by (intros v; now apply float_eqb_nan_r).
    assert (Etp : countWhere (fun val idx =>
                    strictEquals val positive
                    && equalsAt (nth_error predicted idx) positive) actual = 0)
      by (apply countWhere_none; intros v i; now rewrite Hnone).
    assert (Efn : countWhere (fun val idx =>
                    strictEquals val positive
                    && negb (equalsAt (nth_error predicted idx) positive)) actual = 0)
      by (apply countWhere_none; intros v i; now rewrite Hnone).
    assert (Efp : countWhere (fun val idx =>
                    strictEquals val positive
                    && negb (equalsAt (nth_error actual idx) positive)) predicted = 0)
      by (apply countWhere_none; intros v i; now rewrite Hnone).
    rewrite Etp, Efn, Efp. repeat split.
Qed.

End NumberExtras.

Section NumberWitnesses.
Import JS DataProcessor MLModels Metrics NumberLabels.

(** Three positions, two of them with a [NaN]: one is counted. *)
Lemma calculateConfusionMatrix_entries_witness :
  list_sum (map (@list_sum)
    (calculateConfusionMatrix smallNumeral [0; 1; nan]%float [0; nan; 1]%float))
  = pairsWhere (fun x y => negb (is_nan x) && negb (is_nan y))
      [0; 1; nan]%float [0; nan; 1]%float.
Proof.
  exact (proj1 (proj2 (proj2 (proj2 (proj2 (@calculateConfusionMatrix_entries
    smallNumeral [0; 1; nan]%float [0; nan; 1]%float eq_refl)))))).
Defined.

(** The same vectors, in full. *)
Example calculateConfusionMatrix_nan :
  uniqueClasses smallNumeral [0; 1; nan]%float [0; nan; 1]%float = [0; 1; nan]%float /\
  calculateConfusionMatrix smallNumeral [0; 1; nan]%float [0; nan; 1]%float
  = [[1; 0; 0]; [0; 0; 0]; [0; 0; 0]].
Proof. split; vm_compute; reflexivity. Qed.

(** Every prediction right, over the labels 1 and [NaN]. *)
Lemma calculateMetrics_positive_class_witness :
  get (calculateMetrics (fun _ _ => []) [1; nan; 1]%float [1; nan; 1]%float classification)
      "Precision"
  = Some 0%float.
Proof.
  exact (proj1 (proj2 (proj2 (proj2 (proj2 (proj2 (proj2
    (@calculateMetrics_positive_class (fun _ _ => [])
       [1; nan; 1]%float [1; nan; 1]%float eq_refl))) 1%float nan eq_refl))
    (or_intror eq_refl)))).
Defined.

End NumberWitnesses.
